(** * Verification of the computer-vision tutorial notebooks

    The repository is a set of Jupyter notebooks driving two external
    libraries (a pretrained-model library and a tensor library).  This
    development embeds, one module per notebook:

    - [Torch]: the tensor operations the notebooks call (softmax,
      log-softmax, the KL-divergence loss, bilinear interpolation, argmax),
      written from the tensor library's documented semantics;
    - [KnowledgeDistillation]: the class [ImageDistilTrainer] of
      [10_knowledge_distillation.ipynb];
    - further modules for the segmentation, classification and
      mask-generation notebooks.

    Numbers.  Losses use [exp] and [ln], so logits of the distillation
    notebook are real numbers ([R]): the theorems speak of the formula the
    code computes, not of the rounding of a floating-point run. *)

From Stdlib Require Import Reals Lra Lia QArith Qround.
From Stdlib Require Import Ascii String.
From stdpp Require Import gmap strings list fin_maps pretty sorting.

(** * Tensor operations over the reals *)

Module Torch.

Local Open Scope R_scope.

(** A rank-2 tensor of shape [batch, classes], row by row. *)
Definition Tensor2 : Type := list (list R).

(** [tensor.sum()] over a rank-1 tensor. *)
Definition tsum (x : list R) : R := foldr Rplus 0 x.

(** [logits / c]: division of every element by a scalar. *)
Definition div_scalar (t : Tensor2) (c : R) : Tensor2 :=
  map (map (fun x => x / c)) t.

(** [F.softmax(x, dim=-1)]: each row is normalised on its own. *)
Definition softmax_row (x : list R) : list R :=
  map (fun xi => exp xi / tsum (map exp x)) x.

Definition softmax (t : Tensor2) : Tensor2 := map softmax_row t.

(** [F.log_softmax(x, dim=-1)], in the log-sum-exp form the library uses
    instead of taking the logarithm of [softmax]. *)
Definition log_softmax_row (x : list R) : list R :=
  map (fun xi => xi - ln (tsum (map exp x))) x.

Definition log_softmax (t : Tensor2) : Tensor2 := map log_softmax_row t.

(** [torch.xlogy(x, y)]: [x * log y], and [0] where [x = 0]. *)
Definition xlogy (x y : R) : R :=
  if Req_dec_T x 0 then 0 else x * ln y.

(** The pointwise term of [kl_div] for a target given as probabilities
    ([log_target=False]): [xlogy(target, target) - target * input]. *)
Definition kl_div_pointwise (input target : R) : R :=
  xlogy target target - target * input.

(** The [reduction] argument of a loss module. *)
Inductive reduction : Type :=
| reduction_mean
| reduction_sum
| reduction_batchmean.

(** [nn.KLDivLoss(reduction=...)]: the module is its configuration. *)
Record KLDivLoss : Type := { kl_reduction : reduction }.

(** Number of elements of a rank-2 tensor. *)
Definition numel (t : Tensor2) : nat := length (concat t).

(** Calling a [KLDivLoss] module on [(input, target)], both of one shape:
    the pointwise terms are summed; ["batchmean"] divides the sum by the
    batch size [input.size(0)], ["mean"] by the number of elements. *)
Definition kl_div_loss (m : KLDivLoss) (input target : Tensor2) : R :=
  let pointwise := zip_with (zip_with kl_div_pointwise) input target in
  let total := tsum (concat pointwise) in
  match kl_reduction m with
  | reduction_sum => total
  | reduction_mean => total / INR (numel input)
  | reduction_batchmean => total / INR (length input)
  end.

(** Two rank-2 tensors of one shape. *)
Definition same_shape (a b : Tensor2) : Prop :=
  Forall2 (fun ra rb => length ra = length rb) a b.

(** ** Autograd mode

    [torch.no_grad()] switches a global flag off for the block it guards
    and restores the former value afterwards.  Code that depends on the
    flag is written in a state monad over it. *)

Definition GradM (A : Type) : Type := bool -> A * bool.

Definition gret {A} (a : A) : GradM A := fun g => (a, g).

Definition gbind {A B} (m : GradM A) (k : A -> GradM B) : GradM B :=
  fun g => let (a, g') := m g in k a g'.

Definition is_grad_enabled : GradM bool := fun g => (g, g).

(** [with torch.no_grad(): body] *)
Definition no_grad {A} (body : GradM A) : GradM A :=
  fun g => let (a, _) := body false in (a, g).

#[global] Instance grad_ret : MRet GradM := @gret.
#[global] Instance grad_bind : MBind GradM := fun A B k m => gbind m k.

End Torch.


(** * The Python side: exceptions and the kernel's global names

    Notebook cells run in one global namespace.  A name is read through it
    at the moment the statement runs, and a read of an unbound name raises
    [NameError]. *)

Module Python.

Inductive exn : Type :=
| NameError (name : string)
| AttributeError (attr : string)
| KeyError (key : string)
| IndexError
| TypeError
| ValueError
| RuntimeError.

(** The outcome of running a piece of Python: a value, or a raised
    exception. *)
Inductive result (A : Type) : Type :=
| Ok (a : A)
| Raise (e : exn).

Arguments Ok {A} a.
Arguments Raise {A} e.

#[global] Instance result_ret : MRet result := @Ok.
#[global] Instance result_bind : MBind result := fun A B k m =>
  match m with
  | Ok a => k a
  | Raise e => Raise e
  end.

Definition is_Ok {A} (r : result A) : bool :=
  match r with Ok _ => true | Raise _ => false end.

(** What a global name can be bound to, as far as name resolution goes: a
    module or a callable of a library, known by its dotted name, or any
    other object. *)
Inductive object : Type :=
| Module_ (dotted : string)
| Callable (dotted : string)
| Opaque.

Definition namespace : Type := gmap string object.

Definition lookup_name (ns : namespace) (name : string) : result object :=
  match ns !! name with
  | Some o => Ok o
  | None => Raise (NameError name)
  end.

(** The attributes of library modules that the modelled cells reach. *)
Definition library_attr (module attr : string) : option object :=
  if decide (module = "torch" /\ attr = "nn") then Some (Module_ "torch.nn")
  else if decide (module = "torch" /\ attr = "from_numpy")
  then Some (Callable "torch.from_numpy")
  else if decide (module = "torch.nn" /\ attr = "functional")
  then Some (Module_ "torch.nn.functional")
  else if decide (module = "torch.nn.functional" /\ attr = "interpolate")
  then Some (Callable "torch.nn.functional.interpolate")
  else None.

(** [obj.attr] *)
Definition getattr (o : object) (attr : string) : result object :=
  match o with
  | Module_ m =>
      match library_attr m attr with
      | Some o' => Ok o'
      | None => Raise (AttributeError attr)
      end
  | _ => Raise (AttributeError attr)
  end.

(** Import statements, in the three forms the notebooks use. *)
Inductive import_stmt : Type :=
| Import (module : string)                          (* import module *)
| ImportAs (module alias : string)                  (* import module as alias *)
| FromImport (module : string) (names : list string). (* from module import names *)

Definition exec_import (ns : namespace) (s : import_stmt) : namespace :=
  match s with
  | Import m => <[m := Module_ m]> ns
  | ImportAs m alias => <[alias := Module_ m]> ns
  | FromImport m names =>
      foldl (fun ns n => <[n := default Opaque (library_attr m n)]> ns) ns names
  end.

Definition exec_imports (ns : namespace) (l : list import_stmt) : namespace :=
  foldl exec_import ns l.

(** Binding plain variables (assignments, [def]s): the value is of no
    consequence for name resolution. *)
Definition assign_all (ns : namespace) (names : list string) : namespace :=
  foldl (fun ns n => <[n := Opaque]> ns) ns names.

(** ** Built-ins *)

(** [s.split(sep)] for a separator of one character: the pieces between
    the separators, empty pieces included. *)
Fixpoint split (sep : ascii) (s : string) : list string :=
  match s with
  | EmptyString => [EmptyString]
  | String c s' =>
      if decide (c = sep) then EmptyString :: split sep s'
      else match split sep s' with
           | [] => [String c EmptyString]
           | piece :: pieces => String c piece :: pieces
           end
  end.

(** [str(i)] of a non-negative integer: its decimal digits. *)
Definition str (i : nat) : string := pretty i.

(** [enumerate(l)] *)
Definition enumerate {A} (l : list A) : list (nat * A) := imap pair l.

(** A dictionary filled by [d[k] = v] for the pairs of a list in order, as
    a dict comprehension does: a later pair replaces an earlier one of the
    same key. *)
Definition dict_of `{Countable K} {V} (kvs : list (K * V)) : gmap K V :=
  foldl (fun d kv => <[kv.1 := kv.2]> d) ∅ kvs.

(** [sorted(s)] of a set of strings: ascending in the order of the
    characters' codes. *)
Definition sorted (s : gset string) : list string :=
  merge_sort (fun a b => Is_true (String.leb a b)) (elements s).

End Python.

(** * Notebooks as scripts over the libraries

    A notebook is read as the sequence of calls its code cells make into the
    libraries, cell after cell, each statement taken to run as written.
    (Import statements and the names they bind are the business of
    [Python.namespace]; a script starts after them.)  What a library
    answers is not the notebook's to decide: every call is answered with a
    fresh object, and the answers that steer control (how many elements an
    iteration yields, whether a condition holds) come from a [world]. *)

Module Script.

(** Python values as the scripts handle them. *)
#[warnings="-register-all"]
Inductive value : Type :=
| PyNone
| PyBool (b : bool)
| PyInt (z : Z)
| PyFloat (q : Q)                   (* a float literal, by its decimal value *)
| PyStr (s : string)
| PyList (l : list value)           (* a list or a tuple *)
| PyDict (items : list (value * value))
| PySlice (start stop step : option Z)
| PyEllipsis
| PyObj (cls : string) (id : nat)   (* an object of a library: class, identity *)
| PyName (dotted : string)          (* a constant of a library, by its name *)
| PyFun (name : string)             (* a function the notebook defines *)
| PyUnbound (name : string).        (* a name no cell of the notebook binds *)

Definition kwargs : Type := list (string * value).

(** One interaction with the outside. *)
Inductive call : Type :=
| Shell (cmd : string)                                      (* a shell line *)
| Call (f : string) (args : list value) (kw : kwargs)       (* f(args, kw) *)
| FromPretrained (cls : string) (args : list value) (kw : kwargs)
                                              (* cls.from_pretrained(...) *)
| New (cls : string) (args : list value) (kw : kwargs)      (* cls(...) *)
| CallObj (callee : value) (args : list value) (kw : kwargs) (* obj(...) *)
| CallMethod (obj : value) (meth : string) (args : list value) (kw : kwargs)
| GetAttr (obj : value) (attr : string)                     (* obj.attr *)
| SetAttr (obj : value) (attr : string) (v : value)         (* obj.attr = v *)
| GetItem (obj key : value)                                 (* obj[key] *)
| SetItem (obj key v : value)                               (* obj[key] = v *)
| BinOp (op : string) (a b : value)                         (* a op b *)
| Unpack (obj : value) (n : nat)                            (* a, b = obj *)
| Iter (obj : value)                                        (* for _ in obj *)
| Truth (obj : value).                                      (* if obj *)

Definition event : Type := call * value.

(** A script: a value, a call followed by what is done with its answer, a
    loop over an iterable (the body is given the position and the element)
    followed by what is done with the list of the values of its body, or a
    branch on the truth of a value. *)
Inductive script : Type :=
| Ret (v : value)
| Do (c : call) (k : value -> script)
| ForEach (iterable : value) (body : nat -> value -> script)
    (k : value -> script)
| Cond (v : value) (k : bool -> script).

(** The answers that steer control, by the number of the interaction. *)
Record world : Type := {
  iter_len : nat -> nat;
  truth : nat -> bool;
}.

Definition fresh (cls : string) (first count : nat) : list value :=
  map (PyObj cls) (seq first count).

(** The answer to a call made when [n] objects exist.  A checkpoint load or
    a constructor answers an object of its class, [pipeline] a pipeline;
    [.to(device)] answers the object it is called on; unpacking answers as
    many objects as asked for. *)
Definition respond (n : nat) (c : call) : value :=
  match c with
  | Shell _ => PyNone
  | FromPretrained cls _ _ => PyObj cls n
  | New cls _ _ => PyObj cls n
  | Call f _ _ =>
      if decide (f = "pipeline") then PyObj "Pipeline" n else PyObj "" n
  | CallMethod obj meth _ _ =>
      if decide (meth = "to") then obj else PyObj "" n
  | SetAttr _ _ _ => PyNone
  | SetItem _ _ _ => PyNone
  | Unpack _ k => PyList (fresh "" n k)
  | _ => PyObj "" n
  end.

(** How many objects a call brings into being. *)
Definition allocates (c : call) : nat :=
  match c with
  | Unpack _ k => k
  | _ => 1
  end.

(** The state of a loop: the events so far, the values of the rounds so
    far, and the number of objects that exist. *)
Definition run_state : Type := list event * list value * nat.

(** A loop: [round i x m] is what one round does for the element [x] at
    position [i] from [m] objects on; the rounds follow one another. *)
Definition loop_fold (round : nat -> value -> nat -> list event * value * nat)
    (elems : list value) (n : nat) : run_state :=
  foldl (fun (st : run_state) (ix : nat * value) =>
           let r := round ix.1 ix.2 st.2 in
           (st.1.1 ++ r.1.1, st.1.2 ++ [r.1.2], r.2))
    ([], [], n) (imap pair elems).

(** Running a script from the state where [n] objects exist: the events in
    order, the script's value, and the number of objects afterwards.  A
    loop asks the world how many elements the iterable yields, and runs its
    body on each in turn. *)
Fixpoint run (w : world) (s : script) (n : nat) : list event * value * nat :=
  match s with
  | Ret v => ([], v, n)
  | Do c k =>
      let v := respond n c in
      let r := run w (k v) (allocates c + n) in
      ((c, v) :: r.1.1, r.1.2, r.2)
  | ForEach iterable body k =>
      let elems := fresh "" (S n) (iter_len w n) in
      let loop :=
        loop_fold (fun i x m => run w (body i x) m) elems
          (S n + iter_len w n) in
      let r := run w (k (PyList loop.1.2)) loop.2 in
      ((Iter iterable, PyList elems) :: loop.1.1 ++ r.1.1, r.1.2, r.2)
  | Cond v k =>
      let b := truth w n in
      let r := run w (k b) (S n) in
      ((Truth v, PyBool b) :: r.1.1, r.1.2, r.2)
  end.

(** The events of a script from a state, and those of a notebook from the
    start, in order; and the calls alone. *)
Definition events_from (w : world) (s : script) (n : nat) : list event :=
  (run w s n).1.1.

Definition events (w : world) (s : script) : list event := events_from w s 0.

Definition calls (w : world) (s : script) : list call := (events w s).*1.

(** [a, b = obj] *)
Definition unpack2 (obj : value) (k : value -> value -> script) : script :=
  Do (Unpack obj 2) (fun t =>
    match t with
    | PyList [a; b] => k a b
    | _ => Ret PyNone
    end).

(** ** Selections of calls *)

Definition is_call_on (cls : string) (e : event) : bool :=
  match e.1 with
  | CallObj (PyObj cls' _) _ _ => bool_decide (cls' = cls)
  | _ => false
  end.

Definition is_pipeline_call (e : event) : bool :=
  match e.1 with
  | Call f _ _ => bool_decide (f = "pipeline")
  | _ => false
  end.

(** The calls made on objects of a class, with their answers, in order. *)
Definition events_on (cls : string) (l : list event) : list event :=
  List.filter (is_call_on cls) l.

(** The calls that build a pipeline, with their answers, in order. *)
Definition pipeline_events (l : list event) : list event :=
  List.filter is_pipeline_call l.

(** ** The phases of a tutorial *)

Inductive phase : Type :=
| Install          (* dependency installation *)
| LoadCheckpoint   (* loading a pretrained checkpoint *)
| Preprocess       (* preprocessing a dataset or an image *)
| RunModel         (* inference or fine-tuning *)
| Visualize.       (* visualization with plotting calls *)

#[global] Instance phase_eq_dec : EqDecision phase.
Proof. solve_decision. Defined.

Definition phase_rank (p : phase) : nat :=
  match p with
  | Install => 0
  | LoadCheckpoint => 1
  | Preprocess => 2
  | RunModel => 3
  | Visualize => 4
  end.

Definition has_prefix (p s : string) : bool := String.prefix p s.

Definition contains (needle s : string) : bool :=
  match String.index 0 needle s with
  | Some _ => true
  | None => false
  end.

Definition one_of (names : list string) (s : string) : bool :=
  bool_decide (s ∈ names).

(** The methods of a dataset that install or apply a preprocessing
    function. *)
Definition preprocessing_methods : list string :=
  ["map"; "set_transform"; "with_transform"].

(** The methods of a trainer that run the model. *)
Definition trainer_methods : list string := ["train"; "evaluate"].

(** The methods of a matplotlib axes the notebooks draw with. *)
Definition axes_methods : list string :=
  ["imshow"; "set_title"; "axis"; "add_patch"].

(** The transform classes of the vision libraries the notebooks build
    their preprocessing from. *)
Definition transform_classes : list string :=
  ["ColorJitter"; "Compose"; "ApplyTransformToKey"; "UniformTemporalSubsample";
   "Lambda"; "Normalize"; "RandomShortSideScale"; "RandomCrop";
   "RandomHorizontalFlip"; "Resize"; "RandomResizedCrop"; "ToTensor"].

(** The classes of preprocessing objects. *)
Definition is_preprocessor (cls : string) : bool :=
  contains "Processor" cls || one_of transform_classes cls.

(** The classes of objects that run a model when called. *)
Definition is_model (cls : string) : bool :=
  one_of ["Pipeline"] cls || contains "Model" cls || contains "For" cls.

(** The phase a call belongs to, if any. *)
Definition phase_of (c : call) : option phase :=
  match c with
  | Shell cmd =>
      if has_prefix "pip install" cmd then Some Install else None
  | FromPretrained _ _ _ => Some LoadCheckpoint
  | Call f _ _ =>
      if decide (f = "pipeline") then Some LoadCheckpoint
      else if has_prefix "plt." f then Some Visualize
      else None
  | New cls _ _ =>
      if has_prefix "patches." cls then Some Visualize
      else if is_preprocessor cls then Some Preprocess
      else None
  | CallObj (PyObj cls _) _ _ =>
      if is_preprocessor cls then Some Preprocess
      else if is_model cls then Some RunModel
      else None
  | CallMethod (PyObj cls _) meth _ _ =>
      if contains "Trainer" cls && one_of trainer_methods meth
      then Some RunModel
      else if one_of preprocessing_methods meth then Some Preprocess
      else if one_of axes_methods meth then Some Visualize
      else None
  | _ => None
  end.

Definition phases (l : list call) : list phase := omap phase_of l.

(** The linear tutorial order: no phase before a preceding one. *)
Fixpoint in_order (l : list phase) : bool :=
  match l with
  | p :: ((q :: _) as rest) =>
      bool_decide (phase_rank p <= phase_rank q) && in_order rest
  | _ => true
  end.

Definition ends_with (p : phase) (l : list phase) : bool :=
  bool_decide (last l = Some p).

(** Every occurrence of [q] has an occurrence of [p] before it. *)
Fixpoint preceded_by (p q : phase) (l : list phase) : bool :=
  match l with
  | [] => true
  | x :: rest =>
      if decide (x = p) then true
      else if decide (x = q) then false
      else preceded_by p q rest
  end.

(** Whether a phase occurs. *)
Fixpoint occurs (p : phase) (l : list phase) : bool :=
  match l with
  | [] => false
  | x :: rest => if decide (x = p) then true else occurs p rest
  end.

(** The claim of a linear tutorial, on the calls of one notebook: the
    phases come in order and the last one is the visualization. *)
Definition linear_tutorial (l : list call) : bool :=
  in_order (phases l) && ends_with Visualize (phases l).

(** The world in which no iteration yields an element and no condition
    holds. *)
Definition quiet_world : world :=
  {| iter_len := fun _ => 0; truth := fun _ => false |}.

(** The events of the calls of a function or a method of a given name. *)
Definition is_named (name : string) (e : event) : bool :=
  match e.1 with
  | Call f _ _ => bool_decide (f = name)
  | CallMethod _ meth _ _ => bool_decide (meth = name)
  | _ => false
  end.

Definition events_named (name : string) (l : list event) : list event :=
  List.filter (is_named name) l.

End Script.

Declare Scope script_scope.
Delimit Scope script_scope with script.
Notation "'let!' x ':=' c 'in' k" := (Script.Do c (fun x => k))
  (at level 10, x name, c at level 100, k at level 200) : script_scope.
Notation "'do!' c 'in' k" := (Script.Do c (fun _ => k))
  (at level 10, c at level 100, k at level 200) : script_scope.

(** * Tensor operations over the rationals

    Bilinear interpolation and [argmax] need only field operations and
    comparisons; they are written over exact rationals so that they
    compute. *)

Module TorchQ.

Import Python.
Local Open Scope Q_scope.

(** A rank-4 tensor [(N, C, H, W)]: its shape and its elements. *)
Record Tensor4 : Type := {
  t4_n : nat;
  t4_c : nat;
  t4_h : nat;
  t4_w : nat;
  t4_data : list (list (list (list Q)));
}.

(** The elements agree with the declared shape. *)
Definition wf4 (t : Tensor4) : Prop :=
  length (t4_data t) = t4_n t
  /\ Forall (fun sample =>
       length sample = t4_c t
       /\ Forall (fun plane =>
            length plane = t4_h t
            /\ Forall (fun row => length row = t4_w t) plane) sample)
     (t4_data t).

(** A rank-3 tensor of indices [(N, H, W)], and a rank-2 one [(H, W)]. *)
Record IndexTensor3 : Type := {
  i3_n : nat;
  i3_h : nat;
  i3_w : nat;
  i3_data : list (list (list nat));
}.

Record IndexTensor2 : Type := {
  i2_h : nat;
  i2_w : nat;
  i2_data : list (list nat);
}.

Definition Qnat (n : nat) : Q := inject_Z (Z.of_nat n).

(** The source coordinate of an output index for [align_corners=False]:
    [scale * (dst + 0.5) - 0.5] with [scale = in_size / out_size], and [0]
    where that is negative. *)
Definition source_index (in_size out_size dst : nat) : Q :=
  let scale := Qnat in_size / Qnat out_size in
  let src := scale * (Qnat dst + (1 # 2)) - (1 # 2) in
  if Qlt_le_dec src 0 then 0 else src.

Definition Qclamp01 (x : Q) : Q :=
  if Qlt_le_dec x 0 then 0 else if Qlt_le_dec 1 x then 1 else x.

(** The two input indices an output index reads and their weights. *)
Definition source_index_and_lambda (in_size out_size dst : nat)
  : nat * nat * Q * Q :=
  if decide (out_size = in_size) then (dst, dst, 1, 0)
  else
    let src := source_index in_size out_size dst in
    let i0 := Nat.min (Z.to_nat (Qfloor src)) (in_size - 1) in
    let lambda1 := Qclamp01 (src - Qnat i0) in
    let i1 := (i0 + (if decide (i0 < in_size - 1)%nat then 1 else 0))%nat in
    (i0, i1, 1 - lambda1, lambda1).

Definition get2 (plane : list (list Q)) (y x : nat) : Q :=
  nth x (nth y plane []) 0.

(** Bilinear resampling of one [(in_h, in_w)] plane to [(out_h, out_w)]. *)
Definition upsample_bilinear2d (in_h in_w out_h out_w : nat)
    (plane : list (list Q)) : list (list Q) :=
  map (fun y =>
    let '(h0, h1, h0lambda, h1lambda) := source_index_and_lambda in_h out_h y in
    map (fun x =>
      let '(w0, w1, w0lambda, w1lambda) := source_index_and_lambda in_w out_w x in
      h0lambda * (w0lambda * get2 plane h0 w0 + w1lambda * get2 plane h0 w1)
      + h1lambda * (w0lambda * get2 plane h1 w0 + w1lambda * get2 plane h1 w1))
      (seq 0 out_w))
    (seq 0 out_h).

(** [interpolate(input, size=size, mode="bilinear", align_corners=False)]
    on a rank-4 input.  [size] must name the two spatial sizes; empty
    spatial sizes are refused. *)
Definition interpolate (input : Tensor4) (size : list nat) : result Tensor4 :=
  match size with
  | [out_h; out_w] =>
      if decide (t4_h input = 0 \/ t4_w input = 0 \/ out_h = 0 \/ out_w = 0)%nat
      then Raise RuntimeError
      else Ok {| t4_n := t4_n input;
                 t4_c := t4_c input;
                 t4_h := out_h;
                 t4_w := out_w;
                 t4_data :=
                   map (map (upsample_bilinear2d (t4_h input) (t4_w input)
                               out_h out_w))
                     (t4_data input) |}
  | _ => Raise ValueError
  end.

(** Index of the first maximal value among [best :: l], counting from
    [best_i]. *)
Fixpoint argmax_from (best_i : nat) (best : Q) (i : nat) (l : list Q) : nat :=
  match l with
  | [] => best_i
  | x :: l' =>
      if Qlt_le_dec best x then argmax_from i x (S i) l'
      else argmax_from best_i best (S i) l'
  end.

Definition argmax_list (l : list Q) : nat :=
  match l with
  | [] => 0%nat
  | x :: l' => argmax_from 0 x 1 l'
  end.

(** [t.argmax(dim=1)]: for every sample and pixel, the channel holding the
    first maximal value.  An empty channel dimension is refused. *)
Definition argmax_dim1 (t : Tensor4) : result IndexTensor3 :=
  if decide (t4_c t = 0)%nat then Raise IndexError
  else Ok {| i3_n := t4_n t;
             i3_h := t4_h t;
             i3_w := t4_w t;
             i3_data :=
               map (fun sample =>
                 map (fun y =>
                   map (fun x =>
                     argmax_list (map (fun plane => get2 plane y x) sample))
                     (seq 0 (t4_w t)))
                   (seq 0 (t4_h t)))
                 (t4_data t) |}.

(** [t[0]] on a rank-3 tensor. *)
Definition index0 (t : IndexTensor3) : result IndexTensor2 :=
  match i3_data t with
  | [] => Raise IndexError
  | first :: _ => Ok {| i2_h := i3_h t; i2_w := i3_w t; i2_data := first |}
  end.

(** Calling a library callable reached by name on [(input, size)] with
    [mode="bilinear", align_corners=False]. *)
Definition call_interpolate (f : object) (input : Tensor4) (size : list nat)
  : result Tensor4 :=
  match f with
  | Callable name =>
      if decide (name = "torch.nn.functional.interpolate")
      then interpolate input size
      else Raise TypeError
  | _ => Raise TypeError
  end.

End TorchQ.

(** * 02_image_segmentation.ipynb *)

Module ImageSegmentation.

Import Python TorchQ.

(** The import cell (lines 42-52). *)
Definition imports : list import_stmt :=
  [ Import "json";
    Import "torch";
    Import "requests";
    Import "evaluate";
    ImportAs "numpy" "np";
    ImportAs "matplotlib.pyplot" "plt";
    FromImport "PIL" ["Image"];
    FromImport "datasets" ["load_dataset"];
    FromImport "huggingface_hub" ["cached_download"; "hf_hub_url"];
    FromImport "torchvision.transforms" ["ColorJitter"];
    FromImport "transformers"
      ["pipeline"; "AutoImageProcessor"; "AutoModelForSemanticSegmentation";
       "TrainingArguments"; "Trainer"] ].

(** Every name a code cell of the notebook binds at top level by an
    assignment, a [def] or a loop, in the order of the cells; the last cells
    import [Dataset], [DatasetDict] and [Image] from [datasets] and [json]
    once more. *)
Definition assigned_names : list string :=
  [ "url"; "image";
    "semantic_segmentation"; "results";
    "labels"; "required_label";
    "instance_segmentation";
    "panoptic_segmentation";
    "ds"; "train_ds"; "test_ds";
    "repo_id"; "filename"; "id2label"; "label2id"; "num_labels";
    "checkpoint"; "image_processor";
    "jitter";
    "train_transforms"; "val_transforms";
    "metric";
    "compute_metrics";
    "model";
    "training_args"; "trainer";
    "encoding"; "device"; "pixel_values"; "outputs"; "logits";
    "upsampled_logits"; "pred_seg";
    "ade_palette";
    "color_seg"; "palette"; "label"; "color"; "img";
    "Dataset"; "DatasetDict"; "Image";
    "image_paths_train"; "label_paths_train";
    "image_paths_validation"; "label_paths_validation";
    "create_dataset"; "train_dataset"; "validation_dataset"; "dataset";
    "json" ].

(** The kernel's globals once the import cell and any other cells of the
    notebook have run: the most names the notebook can ever have bound. *)
Definition notebook_globals : namespace :=
  exec_imports (assign_all ∅ assigned_names) imports.

(** A PIL image, as far as the notebook reads it: [image.size] is
    [(width, height)]. *)
Record PILImage : Type := { width : nat; height : nat }.

Definition size (image : PILImage) : list nat := [width image; height image].

(** The inference cell (lines 488-509), from the logits the model returned
    for [image] on:

    [upsampled_logits = nn.functional.interpolate(logits,
         size=image.size[::-1], mode="bilinear", align_corners=False)]
    [pred_seg = upsampled_logits.argmax(dim=1)[0]] *)
Definition pred_seg (ns : namespace) (image : PILImage) (logits : Tensor4)
  : result IndexTensor2 :=
  nn ← lookup_name ns "nn";
  functional ← getattr nn "functional";
  f ← getattr functional "interpolate";
  upsampled_logits ← call_interpolate f logits (reverse (size image));
  labels ← argmax_dim1 upsampled_logits;
  index0 labels.

(** [compute_metrics] (lines 375-397) up to [pred_labels], which it hands
    to the external metric:

    [logits_tensor = torch.nn.functional.interpolate(logits_tensor,
         size=labels.shape[-2:], mode="bilinear",
         align_corners=False).argmax(dim=1)] *)
Definition pred_labels (ns : namespace) (logits : Tensor4)
    (labels_shape : list nat) : result IndexTensor3 :=
  torch ← lookup_name ns "torch";
  _ ← getattr torch "from_numpy";
  nn ← getattr torch "nn";
  functional ← getattr nn "functional";
  f ← getattr functional "interpolate";
  upsampled ← call_interpolate f logits
                (drop (length labels_shape - 2) labels_shape);
  argmax_dim1 upsampled.

(** ** The notebook as a script *)

Section Notebook.

Import Script.
Local Open Scope script_scope.
Local Open Scope Z_scope.

Definition url : string :=
  "https://huggingface.co/datasets/huggingface/documentation-images/resolve/main/transformers/tasks/segmentation_input.jpg".

Definition semantic_checkpoint : string :=
  "nvidia/segformer-b1-finetuned-cityscapes-1024-1024".

Definition instance_checkpoint : string :=
  "facebook/mask2former-swin-large-cityscapes-instance".

Definition panoptic_checkpoint : string :=
  "facebook/mask2former-swin-large-cityscapes-panoptic".

(** The rows of the colour table in [ade_palette]. *)
Definition ade_palette_rows : list (Z * Z * Z) :=
  [
    (0, 0, 0); (120, 120, 120); (180, 120, 120); (6, 230, 230); (80, 50, 50);
    (4, 200, 3); (120, 120, 80); (140, 140, 140); (204, 5, 255);
    (230, 230, 230); (4, 250, 7); (224, 5, 255); (235, 255, 7); (150, 5, 61);
    (120, 120, 70); (8, 255, 51); (255, 6, 82); (143, 255, 140);
    (204, 255, 4); (255, 51, 7); (204, 70, 3); (0, 102, 200); (61, 230, 250);
    (255, 6, 51); (11, 102, 255); (255, 7, 71); (255, 9, 224); (9, 7, 230);
    (220, 220, 220); (255, 9, 92); (112, 9, 255); (8, 255, 214);
    (7, 255, 224); (255, 184, 6); (10, 255, 71); (255, 41, 10); (7, 255, 255);
    (224, 255, 8); (102, 8, 255); (255, 61, 6); (255, 194, 7); (255, 122, 8);
    (0, 255, 20); (255, 8, 41); (255, 5, 153); (6, 51, 255); (235, 12, 255);
    (160, 150, 20); (0, 163, 255); (140, 140, 140); (250, 10, 15);
    (20, 255, 0); (31, 255, 0); (255, 31, 0); (255, 224, 0); (153, 255, 0);
    (0, 0, 255); (255, 71, 0); (0, 235, 255); (0, 173, 255); (31, 0, 255);
    (11, 200, 200); (255, 82, 0); (0, 255, 245); (0, 61, 255); (0, 255, 112);
    (0, 255, 133); (255, 0, 0); (255, 163, 0); (255, 102, 0); (194, 255, 0);
    (0, 143, 255); (51, 255, 0); (0, 82, 255); (0, 255, 41); (0, 255, 173);
    (10, 0, 255); (173, 255, 0); (0, 255, 153); (255, 92, 0); (255, 0, 255);
    (255, 0, 245); (255, 0, 102); (255, 173, 0); (255, 0, 20);
    (255, 184, 184); (0, 31, 255); (0, 255, 61); (0, 71, 255); (255, 0, 204);
    (0, 255, 194); (0, 255, 82); (0, 10, 255); (0, 112, 255); (51, 0, 255);
    (0, 194, 255); (0, 122, 255); (0, 255, 163); (255, 153, 0); (0, 255, 10);
    (255, 112, 0); (143, 255, 0); (82, 0, 255); (163, 255, 0); (255, 235, 0);
    (8, 184, 170); (133, 0, 255); (0, 255, 92); (184, 0, 255); (255, 0, 31);
    (0, 184, 255); (0, 214, 255); (255, 0, 112); (92, 255, 0); (0, 224, 255);
    (112, 224, 255); (70, 184, 160); (163, 0, 255); (153, 0, 255);
    (71, 255, 0); (255, 0, 163); (255, 204, 0); (255, 0, 143); (0, 255, 235);
    (133, 255, 0); (255, 0, 235); (245, 0, 255); (255, 0, 122); (255, 245, 0);
    (10, 190, 212); (214, 255, 0); (0, 204, 255); (20, 0, 255); (255, 255, 0);
    (0, 153, 255); (0, 41, 255); (0, 255, 204); (41, 0, 255); (41, 255, 0);
    (173, 0, 255); (0, 245, 255); (71, 0, 255); (122, 0, 255); (0, 255, 184);
    (0, 92, 255); (184, 255, 0); (0, 133, 255); (255, 214, 0); (25, 194, 194);
    (102, 255, 0); (92, 0, 255)
  ].

(** [ade_palette()] *)
Definition ade_palette (k : value -> script) : script :=
  let! table :=
    Call "np.asarray"
      [PyList (map (fun '(r, g, b) => PyList [PyInt r; PyInt g; PyInt b])
                 ade_palette_rows)] [] in
  k table.

(** [ds = load_dataset("scene_parse_150", split="train[:50]")]
    [ds = ds.train_test_split(test_size=0.2)] *)
Definition load_split (k : value -> script) : script :=
  let! ds :=
    Call "load_dataset" [PyStr "scene_parse_150"]
      [("split", PyStr "train[:50]")] in
  let! ds := CallMethod ds "train_test_split" [] [("test_size", PyFloat (2 # 10))] in
  k ds.

(** The dictionary a comprehension builds from the [key, value] lists its
    rounds yield. *)
Definition dict_of_pairs (pairs : value) : value :=
  match pairs with
  | PyList l =>
      PyDict (omap (fun p => match p with
                             | PyList [a; b] => Some (a, b)
                             | _ => None
                             end) l)
  | _ => PyDict []
  end.

(** [{v: k for k, v in d.items()}] of a dictionary the script built. *)
Definition swap_dict (d : value) : value :=
  match d with
  | PyDict items => PyDict (map (fun '(a, b) => (b, a)) items)
  | _ => PyDict []
  end.

(** [create_dataset(image_paths, label_paths)] *)
Definition create_dataset (image_paths label_paths : value)
    (k : value -> script) : script :=
  let! sorted_images := Call "sorted" [image_paths] [] in
  let! sorted_labels := Call "sorted" [label_paths] [] in
  let! dataset :=
    Call "Dataset.from_dict"
      [PyDict [(PyStr "image", sorted_images); (PyStr "label", sorted_labels)]]
      [] in
  let! image_feature := New "Image" [] [] in
  let! dataset := CallMethod dataset "cast_column" [PyStr "image"; image_feature] [] in
  let! label_feature := New "Image" [] [] in
  let! dataset := CallMethod dataset "cast_column" [PyStr "label"; label_feature] [] in
  k dataset.

Definition image_paths_train : value :=
  PyList [PyStr "path/to/image_1.jpg/jpg"; PyStr "path/to/image_2.jpg/jpg";
          PyEllipsis; PyStr "path/to/image_n.jpg/jpg"].

Definition label_paths_train : value :=
  PyList [PyStr "path/to/annotation_1.png"; PyStr "path/to/annotation_2.png";
          PyEllipsis; PyStr "path/to/annotation_n.png"].

(** The notebook, code cell after code cell.  The inference cell calls
    [nn.functional.interpolate] as it is written there; the last cell, whose
    [with] block has no indented body, is no Python and makes no call. *)
Definition notebook : script :=
  (* Libraries *)
  do! Shell "pip install -q datasets transformers evaluate accelerate" in
  (* Semantic Segmentation *)
  let! response := Call "requests.get" [PyStr url] [("stream", PyBool true)] in
  let! raw := GetAttr response "raw" in
  let! image := Call "Image.open" [raw] [] in
  let! semantic_segmentation :=
    Call "pipeline" [PyStr "image-segmentation"; PyStr semantic_checkpoint] [] in
  let! results := CallObj semantic_segmentation [image] [] in
  ForEach results
    (fun _ seg_dict =>
       let! label := GetItem seg_dict (PyStr "label") in Ret label)
    (fun labels =>
  let! position := CallMethod labels "index" [PyStr "building"] [] in
  let! entry := GetItem results position in
  do! GetItem entry (PyStr "mask") in
  (* Instance Segmentation *)
  let! instance_segmentation :=
    Call "pipeline" [PyStr "image-segmentation"; PyStr instance_checkpoint] [] in
  let! results := CallObj instance_segmentation [image] [] in
  let! entry := GetItem results (PyInt 2) in
  do! GetItem entry (PyStr "mask") in
  (* Panoptic Segmentation *)
  let! panoptic_segmentation :=
    Call "pipeline" [PyStr "image-segmentation"; PyStr panoptic_checkpoint] [] in
  let! results := CallObj panoptic_segmentation [image] [] in
  (* Fine-tuning a model for Semantic Segmentation *)
  load_split (fun ds =>
  let! train_ds := GetItem ds (PyStr "train") in
  let! test_ds := GetItem ds (PyStr "test") in
  do! GetItem train_ds (PyInt 0) in
  let! first := GetItem train_ds (PyInt 0) in
  do! GetItem first (PyStr "image") in
  let! hub_url :=
    Call "hf_hub_url"
      [PyStr "huggingface/label-files"; PyStr "ade20k-id2label.json"]
      [("repo_type", PyStr "dataset")] in
  let! path := Call "cached_download" [hub_url] [] in
  let! file := Call "open" [path; PyStr "r"] [] in
  let! loaded := Call "json.load" [file] [] in
  let! items := CallMethod loaded "items" [] [] in
  ForEach items
    (fun _ item =>
       unpack2 item (fun k v =>
       let! key := Call "int" [k] [] in Ret (PyList [key; v])))
    (fun pairs =>
  let id2label := dict_of_pairs pairs in
  let label2id := swap_dict id2label in
  let! num_labels := Call "len" [id2label] [] in
  (* Preprocess *)
  let! image_processor :=
    FromPretrained "AutoImageProcessor" [PyStr "nvidia/mit-b0"]
      [("do_reduce_labels", PyBool true)] in
  let! jitter :=
    New "ColorJitter" []
      [("brightness", PyFloat (25 # 100)); ("contrast", PyFloat (25 # 100));
       ("saturation", PyFloat (25 # 100)); ("hue", PyFloat (1 # 10))] in
  do! CallMethod train_ds "set_transform" [PyFun "train_transforms"] [] in
  do! CallMethod test_ds "set_transform" [PyFun "val_transforms"] [] in
  (* Evaluation *)
  let! metric := Call "evaluate.load" [PyStr "mean_iou"] [] in
  (* Training *)
  let! model :=
    FromPretrained "AutoModelForSemanticSegmentation" [PyStr "nvidia/mit-b0"]
      [("id2label", id2label); ("label2id", label2id)] in
  let! training_args :=
    New "TrainingArguments" []
      [("output_dir", PyStr "segformer_scene_parse_150_model");
       ("learning_rate", PyFloat (6 # 100000));
       ("num_train_epochs", PyInt 50);
       ("per_device_train_batch_size", PyInt 2);
       ("per_device_eval_batch_size", PyInt 2);
       ("save_total_limit", PyInt 3);
       ("save_strategy", PyStr "steps");
       ("save_steps", PyInt 20);
       ("eval_steps", PyInt 20);
       ("logging_steps", PyInt 1);
       ("eval_accumulation_steps", PyInt 5);
       ("remove_unused_columns", PyBool false)] in
  let! trainer :=
    New "Trainer" []
      [("model", model); ("args", training_args);
       ("train_dataset", train_ds); ("eval_dataset", test_ds);
       ("compute_metrics", PyFun "compute_metrics")] in
  do! CallMethod trainer "train" [] [] in
  (* Inference *)
  load_split (fun ds =>
  let! test_ds := GetItem ds (PyStr "test") in
  let! test_split := GetItem ds (PyStr "test") in
  let! first := GetItem test_split (PyInt 0) in
  let! image := GetItem first (PyStr "image") in
  let! encoding := CallObj image_processor [image] [("return_tensors", PyStr "pt")] in
  let! available := Call "torch.cuda.is_available" [] [] in
  Cond available (fun cuda =>
  let! device :=
    Call "torch.device" [PyStr (if cuda then "cuda" else "cpu")] [] in
  let! encoded_pixels := GetAttr encoding "pixel_values" in
  let! pixel_values := CallMethod encoded_pixels "to" [device] [] in
  let! outputs := CallObj model [] [("pixel_values", pixel_values)] in
  let! output_logits := GetAttr outputs "logits" in
  let! logits := CallMethod output_logits "cpu" [] [] in
  let! image_size := GetAttr image "size" in
  let! reversed_size := GetItem image_size (PySlice None None (Some (-1))) in
  let! upsampled_logits :=
    Call "nn.functional.interpolate" [logits]
      [("size", reversed_size); ("mode", PyStr "bilinear");
       ("align_corners", PyBool false)] in
  let! label_maps := CallMethod upsampled_logits "argmax" [] [("dim", PyInt 1)] in
  let! pred_seg := GetItem label_maps (PyInt 0) in
  (* the plot of the predicted segmentation map *)
  let! shape := GetAttr pred_seg "shape" in
  let! rows := GetItem shape (PyInt 0) in
  let! shape' := GetAttr pred_seg "shape" in
  let! columns := GetItem shape' (PyInt 1) in
  let! color_seg :=
    Call "np.zeros" [PyList [rows; columns; PyInt 3]]
      [("dtype", PyName "np.uint8")] in
  ade_palette (fun table =>
  let! palette := Call "np.array" [table] [] in
  ForEach palette
    (fun label color =>
       let! selected := BinOp "==" pred_seg (PyInt (Z.of_nat label)) in
       do! SetItem color_seg (PyList [selected; PySlice None None None]) color in
       Ret PyNone)
    (fun _ =>
  let! color_seg :=
    GetItem color_seg (PyList [PyEllipsis; PySlice None None (Some (-1))]) in
  let! array := Call "np.array" [image] [] in
  let! half_image := BinOp "*" array (PyFloat (5 # 10)) in
  let! half_seg := BinOp "*" color_seg (PyFloat (5 # 10)) in
  let! img := BinOp "+" half_image half_seg in
  let! img := CallMethod img "astype" [PyName "np.uint8"] [] in
  do! Call "plt.figure" [] [("figsize", PyList [PyInt 15; PyInt 10])] in
  do! Call "plt.imshow" [img] [] in
  do! Call "plt.show" [] [] in
  (* Using the model on a custom dataset *)
  create_dataset image_paths_train label_paths_train (fun train_dataset =>
  create_dataset (PyList [PyEllipsis]) (PyList [PyEllipsis])
    (fun validation_dataset =>
  let! dataset :=
    New "DatasetDict"
      [PyDict [(PyStr "train", train_dataset);
               (PyStr "validation", validation_dataset)]] [] in
  do! CallMethod dataset "push_to_hub" [PyStr "your-name/dataset-repo"] [] in
  Ret PyNone))))))))).

End Notebook.

(** Every pixel of an [(h, w)] label map carries a label below
    [num_labels]. *)
Definition labels_every_pixel (p : IndexTensor2) (h w num_labels : nat) : Prop :=
  i2_h p = h /\ i2_w p = w
  /\ length (i2_data p) = h
  /\ Forall (fun row => length row = w
                        /\ Forall (fun l => (l < num_labels)%nat) row)
       (i2_data p).

End ImageSegmentation.

(** * Label dictionaries *)

Module Labels.

(** What it means for a pair of dictionaries to be mutually inverse over a list of
    classes: each class has an id that maps back to it, and each assigned
    id maps to a class whose id it is. *)
Definition mutually_inverse `{Countable L, Countable Id}
    (classes : list L) (label2id : gmap L Id) (id2label : gmap Id L) : Prop :=
  (forall l, l ∈ classes ->
     exists i, label2id !! l = Some i /\ id2label !! i = Some l)
  /\ (forall i, is_Some (id2label !! i) ->
        exists l, id2label !! i = Some l /\ label2id !! l = Some i).

End Labels.

(** * 03_video_classification.ipynb *)

Module VideoClassification.

Import Python.

(** [str(path).split("/")[2]]: the class directory of a video path such as
    [UCF101_subset/train/BandMarching/v_BandMarching_g01_c01.avi]. *)
Definition label_of_path (path : string) : result string :=
  match split "/"%char path !! 2 with
  | Some label => Ok label
  | None => Raise IndexError
  end.

(** [class_labels = sorted({str(path).split("/")[2]
                            for path in all_video_file_paths})] *)
Definition class_labels (all_video_file_paths : list string)
  : result (list string) :=
  labels ← mapM label_of_path all_video_file_paths;
  mret (sorted (list_to_set labels)).

(** [label2id = {label: i for i, label in enumerate(class_labels)}] *)
Definition label2id (class_labels : list string) : gmap string nat :=
  dict_of ((fun '(i, label) => (label, i)) <$> enumerate class_labels).

(** [id2label = {i: label for label, i in label2id.items()}] *)
Definition id2label (label2id : gmap string nat) : gmap nat string :=
  dict_of ((fun '(label, i) => (i, label)) <$> map_to_list label2id).

(** ** The notebook as a script *)

Section Notebook.

Import Script.
Local Open Scope script_scope.
Local Open Scope Z_scope.

Definition model_ckpt : string := "MCG-NJU/videomae-base".

(** [f"{model_name}-finetuned-ucf101-subset"] with
    [model_name = model_ckpt.split("/")[-1]] *)
Definition new_model_name : string := "videomae-base-finetuned-ucf101-subset".

(** [list(dataset_root_path.glob(pattern))] *)
Definition glob_list (dataset_root_path : value) (pattern : string)
    (k : value -> script) : script :=
  let! found := CallMethod dataset_root_path "glob" [PyStr pattern] [] in
  let! paths := Call "list" [found] [] in
  k paths.

(** [len(list(dataset_root_path.glob(pattern)))] *)
Definition count_videos (dataset_root_path : value) (pattern : string)
    (k : value -> script) : script :=
  glob_list dataset_root_path pattern (fun paths =>
  let! count := Call "len" [paths] [] in
  k count).

(** The dictionary a comprehension builds from the [key, value] lists its
    rounds yield. *)
Definition dict_of_pairs (pairs : value) : value :=
  match pairs with
  | PyList l =>
      PyDict (omap (fun p => match p with
                             | PyList [a; b] => Some (a, b)
                             | _ => None
                             end) l)
  | _ => PyDict []
  end.

(** [{v: k for k, v in d.items()}] of a dictionary the script built. *)
Definition swap_dict (d : value) : value :=
  match d with
  | PyDict items => PyDict (map (fun '(a, b) => (b, a)) items)
  | _ => PyDict []
  end.

(** [list(d.keys())] of a dictionary the script built. *)
Definition keys (d : value) : value :=
  match d with
  | PyDict items => PyList (map fst items)
  | _ => PyList []
  end.

(** The branch of lines 312-317 that sets [resize_to = (height, width)]. *)
Definition resize_target (image_processor : value) (k : value -> script)
  : script :=
  let! size := GetAttr image_processor "size" in
  let! has_shortest_edge := BinOp "in" (PyStr "shortest_edge") size in
  Cond has_shortest_edge (fun shortest =>
    if shortest then
      let! size := GetAttr image_processor "size" in
      let! edge := GetItem size (PyStr "shortest_edge") in
      k (PyList [edge; edge])
    else
      let! size := GetAttr image_processor "size" in
      let! height := GetItem size (PyStr "height") in
      let! size := GetAttr image_processor "size" in
      let! width := GetItem size (PyStr "width") in
      k (PyList [height; width])).

(** The three transforms the training and the evaluation pipelines start
    with. *)
Definition common_transforms (num_frames_to_sample mean std : value)
    (k : list value -> script) : script :=
  let! subsample := New "UniformTemporalSubsample" [num_frames_to_sample] [] in
  let! scale := New "Lambda" [PyFun "lambda x: x / 255.0"] [] in
  let! normalize := New "Normalize" [mean; std] [] in
  k [subsample; scale; normalize].

(** [Compose([ApplyTransformToKey(key="video", transform=Compose(steps))])],
    once [steps] are built. *)
Definition compose_video (steps : list value) (k : value -> script) : script :=
  let! inner := New "Compose" [PyList steps] [] in
  let! keyed :=
    New "ApplyTransformToKey" [] [("key", PyStr "video"); ("transform", inner)] in
  let! outer := New "Compose" [PyList [keyed]] [] in
  k outer.

(** [pytorchvideo.data.Ucf101(data_path=os.path.join(dataset_root_path,
    split), clip_sampler=pytorchvideo.data.make_clip_sampler(sampler,
    clip_duration), decode_audio=False, transform=transform)].  The notebook
    imports no [os]; the call is recorded as written. *)
Definition ucf101 (dataset_root_path : value) (split sampler : string)
    (clip_duration transform : value) (k : value -> script) : script :=
  let! data_path := Call "os.path.join" [dataset_root_path; PyStr split] [] in
  let! clip_sampler :=
    Call "pytorchvideo.data.make_clip_sampler" [PyStr sampler; clip_duration] [] in
  let! dataset :=
    Call "pytorchvideo.data.Ucf101" []
      [("data_path", data_path); ("clip_sampler", clip_sampler);
       ("decode_audio", PyBool false); ("transform", transform)] in
  k dataset.

(** [unnormalize_img(img)] *)
Definition unnormalize_img (img mean std : value) (k : value -> script)
  : script :=
  let! scaled := BinOp "*" img std in
  let! img := BinOp "+" scaled mean in
  let! bytes := BinOp "*" img (PyInt 255) in
  let! img := CallMethod bytes "astype" [PyStr "uint8"] [] in
  let! clipped := CallMethod img "clip" [PyInt 0; PyInt 255] [] in
  k clipped.

(** [display_gif(video_tensor)], with [create_gif] inside. *)
Definition display_gif (video_tensor mean std : value) (k : value -> script)
  : script :=
  let! video_tensor :=
    CallMethod video_tensor "permute" [PyInt 1; PyInt 0; PyInt 2; PyInt 3] [] in
  ForEach video_tensor
    (fun _ video_frame =>
       let! permuted :=
         CallMethod video_frame "permute" [PyInt 1; PyInt 2; PyInt 0] [] in
       let! array := CallMethod permuted "numpy" [] [] in
       unnormalize_img array mean std (fun frame_unnormalized =>
       Ret frame_unnormalized))
    (fun frames =>
  do! Call "imageio.mimsave" [PyStr "sample.gif"; frames; PyStr "GIF"]
        [("duration", PyFloat (25 # 100))] in
  let! shown := New "Image" [] [("filename", PyStr "sample.gif")] in
  k shown).

(** [run_inference(model, video)], reading the global
    [sample_test_video]. *)
Definition run_inference (model video sample_test_video : value)
    (k : value -> script) : script :=
  let! permuted :=
    CallMethod video "permute" [PyInt 1; PyInt 0; PyInt 2; PyInt 3] [] in
  let! pixel_values := CallMethod permuted "unsqueeze" [PyInt 0] [] in
  let! label := GetItem sample_test_video (PyStr "label") in
  let! labels := Call "torch.tensor" [PyList [label]] [] in
  let! available := Call "torch.cuda.is_available" [] [] in
  Cond available (fun cuda =>
  let! device :=
    Call "torch.device" [PyStr (if cuda then "cuda" else "cpu")] [] in
  let! pixel_values := CallMethod pixel_values "to" [device] [] in
  let! labels := CallMethod labels "to" [device] [] in
  let! model := CallMethod model "to" [device] [] in
  do! Call "torch.no_grad" [] [] in
  let! outputs :=
    CallObj model [] [("pixel_values", pixel_values); ("labels", labels)] in
  let! logits := GetAttr outputs "logits" in
  k logits).

(** The notebook, code cell after code cell.  [batch_size] and
    [trained_model] are names no cell binds. *)
Definition notebook : script :=
  (* Libraries *)
  do! Shell "pip install -q pytorchvideo transformers evaluate" in
  (* Load Data *)
  let! file_path :=
    Call "hf_hub_download" []
      [("repo_id", PyStr "sayakpaul/ucf101-subset");
       ("filename", PyStr "UCF101_subset.tar.gz");
       ("repo_type", PyStr "dataset")] in
  let! t := Call "tarfile.open" [file_path] [] in
  do! CallMethod t "extractall" [PyStr "."] [] in
  let! dataset_root_path := New "pathlib.Path" [PyStr "UCF101_subset"] [] in
  count_videos dataset_root_path "train/*/*.avi" (fun video_count_train =>
  count_videos dataset_root_path "val/*/*.avi" (fun video_count_val =>
  count_videos dataset_root_path "test/*/*.avi" (fun video_count_test =>
  let! train_val := BinOp "+" video_count_train video_count_val in
  let! video_total := BinOp "+" train_val video_count_test in
  do! Call "print" [PyList [PyStr "Total videos: "; video_total]] [] in
  glob_list dataset_root_path "train/*/*.avi" (fun train_paths =>
  glob_list dataset_root_path "val/*/*.avi" (fun val_paths =>
  let! train_val_paths := BinOp "+" train_paths val_paths in
  glob_list dataset_root_path "test/*/*.avi" (fun test_paths =>
  let! all_video_file_paths := BinOp "+" train_val_paths test_paths in
  do! GetItem all_video_file_paths (PySlice None (Some 5) None) in
  ForEach all_video_file_paths
    (fun _ path =>
       let! text := Call "str" [path] [] in
       let! parts := CallMethod text "split" [PyStr "/"] [] in
       let! label := GetItem parts (PyInt 2) in
       Ret label)
    (fun label_set =>
  let! class_labels := Call "sorted" [label_set] [] in
  ForEach class_labels
    (fun i label => Ret (PyList [label; PyInt (Z.of_nat i)]))
    (fun pairs =>
  let label2id := dict_of_pairs pairs in
  let id2label := swap_dict label2id in
  do! Call "print"
        [PyList [PyStr "Unique classes: "; keys label2id; PyStr "."]] [] in
  (* Load Model *)
  let! image_processor :=
    FromPretrained "VideoMAEImageProcessor" [PyStr model_ckpt] [] in
  let! model :=
    FromPretrained "VideoMAEForVideoClassification" [PyStr model_ckpt]
      [("label2id", label2id); ("id2label", id2label);
       ("ignore_mismatched_sizes", PyBool true)] in
  (* Preprocessing *)
  let! mean := GetAttr image_processor "image_mean" in
  let! std := GetAttr image_processor "image_std" in
  resize_target image_processor (fun resize_to =>
  let! config := GetAttr model "config" in
  let! num_frames_to_sample := GetAttr config "num_frames" in
  let! sampled := BinOp "*" num_frames_to_sample (PyInt 4) in
  let! clip_duration := BinOp "/" sampled (PyInt 30) in
  common_transforms num_frames_to_sample mean std (fun common =>
  let! short_side :=
    New "RandomShortSideScale" [] [("min_size", PyInt 256); ("max_size", PyInt 320)] in
  let! crop := New "RandomCrop" [resize_to] [] in
  let! flip := New "RandomHorizontalFlip" [] [("p", PyFloat (5 # 10))] in
  compose_video (common ++ [short_side; crop; flip]) (fun train_transform =>
  ucf101 dataset_root_path "train" "random" clip_duration train_transform
    (fun train_dataset =>
  common_transforms num_frames_to_sample mean std (fun common =>
  let! resize := New "Resize" [resize_to] [] in
  compose_video (common ++ [resize]) (fun val_transform =>
  ucf101 dataset_root_path "val" "uniform" clip_duration val_transform
    (fun val_dataset =>
  ucf101 dataset_root_path "test" "uniform" clip_duration val_transform
    (fun test_dataset =>
  let! train_videos := GetAttr train_dataset "num_videos" in
  let! val_videos := GetAttr val_dataset "num_videos" in
  let! test_videos := GetAttr test_dataset "num_videos" in
  do! Call "print" [train_videos; val_videos; test_videos] [] in
  (* Visualisation of training data after processing *)
  let! iterator := Call "iter" [train_dataset] [] in
  let! sample_video := Call "next" [iterator] [] in
  let! video_tensor := GetItem sample_video (PyStr "video") in
  display_gif video_tensor mean std (fun _ =>
  (* Evaluation *)
  let! metric := Call "evaluate.load" [PyStr "accuracy"] [] in
  (* Training *)
  let! num_videos := GetAttr train_dataset "num_videos" in
  let! steps_per_epoch := BinOp "//" num_videos (PyUnbound "batch_size") in
  let! max_steps := BinOp "*" steps_per_epoch (PyInt 4) in
  let! args :=
    New "TrainingArguments" [PyStr new_model_name]
      [("remove_unused_columns", PyBool false);
       ("eval_strategy", PyStr "epoch");
       ("save_strategy", PyStr "epoch");
       ("learning_rate", PyFloat (5 # 100000));
       ("per_device_train_batch_size", PyUnbound "batch_size");
       ("per_device_eval_batch_size", PyUnbound "batch_size");
       ("warmup_ratio", PyFloat (1 # 10));
       ("logging_steps", PyInt 10);
       ("load_best_model_at_end", PyBool true);
       ("metric_for_best_model", PyStr "accuracy");
       ("max_steps", max_steps)] in
  let! trainer :=
    New "Trainer" [model; args]
      [("train_dataset", train_dataset); ("eval_dataset", val_dataset);
       ("tokenizer", image_processor);
       ("compute_metrics", PyFun "compute_metrics");
       ("data_collator", PyFun "collate_fn")] in
  let! train_results := CallMethod trainer "train" [] [] in
  (* Inference *)
  let! iterator := Call "iter" [test_dataset] [] in
  let! sample_test_video := Call "next" [iterator] [] in
  let! video_cls := Call "pipeline" [] [("model", PyStr new_model_name)] in
  do! CallObj video_cls
        [PyStr "https://huggingface.co/datasets/sayakpaul/ucf101-subset/resolve/main/v_BasketballDunk_g14_c06.avi"]
        [] in
  let! video := GetItem sample_test_video (PyStr "video") in
  run_inference (PyUnbound "trained_model") video sample_test_video
    (fun logits =>
  let! best := CallMethod logits "argmax" [PyInt (-1)] [] in
  let! predicted_class_idx := CallMethod best "item" [] [] in
  let! config := GetAttr model "config" in
  let! names := GetAttr config "id2label" in
  let! name := GetItem names predicted_class_idx in
  do! Call "print" [PyStr "Predicted class:"; name] [] in
  Ret PyNone)))))))))))))))))).

End Notebook.

End VideoClassification.

(** * The image-classification notebook (second notebook of
      03_video_classification.ipynb) *)

Module ImageClassification.

Import Python.

(** The loop of lines 740-743:

    [label2id, id2label = dict(), dict()]
    [for i, label in enumerate(labels):]
    [    label2id[label] = str(i)]
    [    id2label[str(i)] = label]

    as the pair of dictionaries it leaves. *)
Definition label_maps (labels : list string)
  : gmap string string * gmap string string :=
  foldl (fun '(label2id, id2label) '(i, label) =>
           (<[label := str i]> label2id, <[str i := label]> id2label))
    (∅, ∅) (enumerate labels).

Definition label2id (labels : list string) : gmap string string :=
  (label_maps labels).1.

Definition id2label (labels : list string) : gmap string string :=
  (label_maps labels).2.

(** ** The notebook as a script *)

Section Notebook.

Import Script.
Local Open Scope script_scope.
Local Open Scope Z_scope.

Definition checkpoint : string := "google/vit-base-patch16-224-in21k".

(** The conditional expression of lines 797-801 that sets [size]. *)
Definition crop_size (image_processor : value) (k : value -> script) : script :=
  let! size := GetAttr image_processor "size" in
  let! has_shortest_edge := BinOp "in" (PyStr "shortest_edge") size in
  Cond has_shortest_edge (fun shortest =>
    if shortest then
      let! size := GetAttr image_processor "size" in
      let! edge := GetItem size (PyStr "shortest_edge") in
      k edge
    else
      let! size := GetAttr image_processor "size" in
      let! height := GetItem size (PyStr "height") in
      let! size := GetAttr image_processor "size" in
      let! width := GetItem size (PyStr "width") in
      k (PyList [height; width])).

(** The two dictionaries the loop of lines 741-743 leaves, from the
    labels it went through. *)
Definition label2id_of (labels : value) : value :=
  match labels with
  | PyList l => PyDict (imap (fun i label => (label, PyStr (Python.str i))) l)
  | _ => PyDict []
  end.

Definition id2label_of (labels : value) : value :=
  match labels with
  | PyList l => PyDict (imap (fun i label => (PyStr (Python.str i), label)) l)
  | _ => PyDict []
  end.

(** The notebook, code cell after code cell. *)
Definition notebook : script :=
  (* Libraries *)
  do! Shell "pip install transformers datasets evaluate accelerate" in
  (* Load Data *)
  let! food :=
    Call "load_dataset" [PyStr "food101"] [("split", PyStr "train[:5000]")] in
  let! food := CallMethod food "train_test_split" [] [("test_size", PyFloat (2 # 10))] in
  let! train := GetItem food (PyStr "train") in
  do! GetItem train (PyInt 0) in
  let! train := GetItem food (PyStr "train") in
  let! features := GetAttr train "features" in
  let! label_feature := GetItem features (PyStr "label") in
  let! labels := GetAttr label_feature "names" in
  ForEach labels (fun i label => Ret label) (fun seen =>
  let label2id := label2id_of seen in
  let id2label := id2label_of seen in
  do! GetItem id2label (PyStr "9") in
  do! GetItem label2id (PyStr "breakfast_burrito") in
  (* Preprocessing *)
  let! image_processor := FromPretrained "AutoImageProcessor" [PyStr checkpoint] [] in
  let! image_mean := GetAttr image_processor "image_mean" in
  let! image_std := GetAttr image_processor "image_std" in
  let! normalize := New "Normalize" [] [("mean", image_mean); ("std", image_std)] in
  crop_size image_processor (fun size =>
  let! crop := New "RandomResizedCrop" [size] [] in
  let! to_tensor := New "ToTensor" [] [] in
  let! _transforms := New "Compose" [PyList [crop; to_tensor; normalize]] [] in
  let! food := CallMethod food "with_transform" [PyFun "transforms"] [] in
  let! data_collator := New "DefaultDataCollator" [] [] in
  (* Evaluation *)
  let! accuracy := Call "evaluate.load" [PyStr "accuracy"] [] in
  (* Training *)
  let! num_labels := Call "len" [labels] [] in
  let! model :=
    FromPretrained "AutoModelForImageClassification" [PyStr checkpoint]
      [("num_labels", num_labels); ("id2label", id2label);
       ("label2id", label2id)] in
  let! training_args :=
    New "TrainingArguments" []
      [("output_dir", PyStr "image_clf_model");
       ("remove_unused_columns", PyBool false);
       ("evaluation_strategy", PyStr "epoch");
       ("save_strategy", PyStr "epoch");
       ("learning_rate", PyFloat (5 # 100000));
       ("per_device_train_batch_size", PyInt 16);
       ("gradient_accumulation_steps", PyInt 4);
       ("per_device_eval_batch_size", PyInt 16);
       ("num_train_epochs", PyInt 3);
       ("warmup_ratio", PyFloat (1 # 10));
       ("logging_steps", PyInt 10);
       ("load_best_model_at_end", PyBool true);
       ("metric_for_best_model", PyStr "accuracy")] in
  let! train_dataset := GetItem food (PyStr "train") in
  let! eval_dataset := GetItem food (PyStr "test") in
  let! trainer :=
    New "Trainer" []
      [("model", model); ("args", training_args);
       ("data_collator", data_collator);
       ("train_dataset", train_dataset); ("eval_dataset", eval_dataset);
       ("tokenizer", image_processor);
       ("compute_metrics", PyFun "compute_metrics")] in
  do! CallMethod trainer "train" [] [] in
  (* Inference *)
  let! ds :=
    Call "load_dataset" [PyStr "food101"] [("split", PyStr "validation[:10]")] in
  let! images := GetItem ds (PyStr "image") in
  let! image := GetItem images (PyInt 0) in
  let! classifier :=
    Call "pipeline" [PyStr "image-classification"]
      [("model", PyStr "image_clf_model")] in
  do! CallObj classifier [image] [] in
  let! image_processor :=
    FromPretrained "AutoImageProcessor" [PyStr "image_clf_model"] [] in
  let! inputs := CallObj image_processor [image] [("return_tensors", PyStr "pt")] in
  let! model :=
    FromPretrained "AutoModelForImageClassification" [PyStr "image_clf_model"] [] in
  do! Call "torch.no_grad" [] [] in
  let! outputs := CallObj model [] [("**", inputs)] in
  let! logits := GetAttr outputs "logits" in
  let! best := CallMethod logits "argmax" [PyInt (-1)] [] in
  let! predicted_label := CallMethod best "item" [] [] in
  let! config := GetAttr model "config" in
  let! names := GetAttr config "id2label" in
  do! GetItem names predicted_label in
  Ret PyNone)).

End Notebook.

Section Transforms.

(** PIL images, tensors, and the state of the random generator the crop
    draws from: all three belong to the external libraries. *)
Variables Image Tensor Rng : Type.

(** [img.convert(mode)] *)
Variable convert : Image -> string -> Image.

(** [_transforms = Compose([RandomResizedCrop(size), ToTensor(),
    normalize])]: the crop is random, so a call consumes generator state. *)
Variable _transforms : Image -> Rng -> Tensor * Rng.

(** The entries a column of a batch can hold; a batch of examples is a
    dictionary from field names to columns, [gmap string (list cell)]. *)
Inductive cell : Type :=
| ImageCell (img : Image)
| IntCell (z : Z)
| TensorCell (t : Tensor).

(** Code that draws random numbers and may raise. *)
Definition RandM (A : Type) : Type := Rng -> result (A * Rng).

#[global] Instance rand_ret : MRet RandM := fun A a rng => Ok (a, rng).
#[global] Instance rand_bind : MBind RandM := fun A B k m rng =>
  match m rng with
  | Ok (a, rng') => k a rng'
  | Raise e => Raise e
  end.

(** [_transforms(img.convert("RGB"))] for one entry of the column; an
    entry that is no image has no [convert]. *)
Definition pixel_value (c : cell) : RandM Tensor :=
  fun rng =>
    match c with
    | ImageCell img => Ok (_transforms (convert img "RGB") rng)
    | _ => Raise (AttributeError "convert")
    end.

(** [transforms(examples)] (lines 805-808).  The dictionary is updated in
    place and handed back; the result here is its state on return. *)
Definition transforms (examples : gmap string (list cell))
  : RandM (gmap string (list cell)) :=
  fun rng =>
    match examples !! "image" with
    | None => Raise (KeyError "image")
    | Some images =>
        (pixel_values ← mapM pixel_value images;
         mret (delete "image"
                 (<["pixel_values" := TensorCell <$> pixel_values]> examples)))
          rng
    end.

(** The tensors of a list of images, each converted to RGB and
    transformed, drawing from the generator in the order of the list. *)
Fixpoint pixel_values_of (images : list Image) (rng : Rng) : list Tensor * Rng :=
  match images with
  | [] => ([], rng)
  | img :: rest =>
      let (t, rng1) := _transforms (convert img "RGB") rng in
      let (ts, rng2) := pixel_values_of rest rng1 in
      (t :: ts, rng2)
  end.

End Transforms.

Arguments ImageCell {Image Tensor}.
Arguments IntCell {Image Tensor}.
Arguments TensorCell {Image Tensor}.
Arguments pixel_value {Image Tensor Rng}.
Arguments transforms {Image Tensor Rng}.
Arguments pixel_values_of {Image Tensor Rng}.

End ImageClassification.

(** * 10_knowledge_distillation.ipynb *)

Module KnowledgeDistillation.

Import Torch.
Local Open Scope R_scope.

Section Trainer.

(** A batch as the data collator hands it to the model; the notebook never
    looks inside. *)
Variable Inputs : Type.

(** What [model( **inputs)] returns: the logits, the hard-label loss (absent
    when the batch carries no labels), and whether the logits are attached
    to an autograd graph. *)
Record ModelOutput : Type := {
  logits : Tensor2;
  loss : option R;
  tracked : bool;
}.

(** A classification model of the external library: its forward pass, and
    whether any of its parameters requires a gradient. *)
Record Model : Type := {
  forward : Inputs -> Tensor2 * option R;
  trainable : bool;
}.

(** [model( **inputs)]: a graph is recorded only when gradient mode is on. *)
Definition call (m : Model) (inputs : Inputs) : GradM ModelOutput :=
  g ← is_grad_enabled;
  mret {| logits := fst (forward m inputs);
          loss := snd (forward m inputs);
          tracked := g && trainable m |}.

(** The attributes [__init__] stores on the trainer. *)
Record ImageDistilTrainer : Type := {
  teacher : Model;
  student : Model;
  loss_function : KLDivLoss;
  temperature : R;
  lambda_param : R;
}.

(** [ImageDistilTrainer.__init__] (the device placement and [eval()] of the
    teacher do not change the forward function modelled here). *)
Definition init (teacher_model student_model : Model)
    (temperature lambda_param : R) : ImageDistilTrainer :=
  {| teacher := teacher_model;
     student := student_model;
     loss_function := {| kl_reduction := reduction_batchmean |};
     temperature := temperature;
     lambda_param := lambda_param |}.

(** [F.softmax(teacher_output.logits / self.temperature, dim=-1)] *)
Definition soft_teacher (self : ImageDistilTrainer) (teacher_logits : Tensor2)
  : Tensor2 :=
  softmax (div_scalar teacher_logits (temperature self)).

(** [F.log_softmax(student_output.logits / self.temperature, dim=-1)] *)
Definition soft_student (self : ImageDistilTrainer) (student_logits : Tensor2)
  : Tensor2 :=
  log_softmax (div_scalar student_logits (temperature self)).

(** [self.loss_function(soft_student, soft_teacher) * (self.temperature ** 2)] *)
Definition distillation_loss (self : ImageDistilTrainer)
    (student_logits teacher_logits : Tensor2) : R :=
  kl_div_loss (loss_function self)
    (soft_student self student_logits) (soft_teacher self teacher_logits)
  * temperature self ^ 2.

(** The teacher's forward pass, under [torch.no_grad()]. *)
Definition teacher_output (self : ImageDistilTrainer) (inputs : Inputs)
  : GradM ModelOutput :=
  no_grad (call (teacher self) inputs).

(** The value of [compute_loss]: the loss alone, or with the student's
    output when [return_outputs] is set. *)
Inductive loss_result : Type :=
| LossOnly (l : R)
| LossAndOutputs (l : R) (outputs : ModelOutput).

Definition loss_of (r : loss_result) : R :=
  match r with LossOnly l | LossAndOutputs l _ => l end.

(** [ImageDistilTrainer.compute_loss].  The parameter [student_arg] is the
    method's [student] argument, which the body never reads (it calls
    [self.student]).  [None] stands for the [TypeError] of multiplying by an
    absent loss. *)
Definition compute_loss (self : ImageDistilTrainer) (student_arg : Model)
    (inputs : Inputs) (return_outputs : bool) : GradM (option loss_result) :=
  student_output ← call (student self) inputs;
  teacher_out ← teacher_output self inputs;
  let distillation :=
    distillation_loss self (logits student_output) (logits teacher_out) in
  match loss student_output with
  | None => mret None
  | Some student_target_loss =>
      let l := (1 - lambda_param self) * student_target_loss
               + lambda_param self * distillation in
      mret (Some (if return_outputs
                  then LossAndOutputs l student_output
                  else LossOnly l))
  end.

End Trainer.

Arguments forward {Inputs}.
Arguments trainable {Inputs}.
Arguments call {Inputs}.
Arguments teacher {Inputs}.
Arguments student {Inputs}.
Arguments loss_function {Inputs}.
Arguments temperature {Inputs}.
Arguments lambda_param {Inputs}.
Arguments init {Inputs}.
Arguments soft_teacher {Inputs}.
Arguments soft_student {Inputs}.
Arguments distillation_loss {Inputs}.
Arguments teacher_output {Inputs}.
Arguments compute_loss {Inputs}.

(** ** The formula of the specification

    Written from the words of the specification, to be compared with what
    the code computes. *)

(** Kullback-Leibler divergence [KL(P || Q)] of two discrete
    distributions. *)
Definition KL (P Q : list R) : R :=
  tsum (zip_with (fun p q => p * ln (p / q)) P Q).

(** Cross-entropy of a distribution [P] against log-probabilities. *)
Definition cross_entropy (P logQ : list R) : R :=
  - tsum (zip_with (fun p lq => p * lq) P logQ).

(** Shannon entropy of a distribution. *)
Definition entropy (P : list R) : R :=
  - tsum (map (fun p => p * ln p) P).

(** Mean over the examples of a batch. *)
Definition batch_mean (per_example : list R) : R :=
  tsum per_example / INR (length per_example).

(** The temperature-softened distribution [softmax(z / T)] of each
    example. *)
Definition softened (T : R) (z : Tensor2) : Tensor2 :=
  softmax (div_scalar z T).

(** [KL(softmax(teacher / T) || softmax(student / T))], batch mean. *)
Definition soft_target_KL (T : R) (teacher_logits student_logits : Tensor2) : R :=
  batch_mean (zip_with KL (softened T teacher_logits) (softened T student_logits)).

(** Cross-entropy of the teacher's softened distribution against the
    student's softened log-probabilities, batch mean. *)
Definition soft_cross_entropy (T : R) (teacher_logits student_logits : Tensor2) : R :=
  batch_mean (zip_with cross_entropy (softened T teacher_logits)
                (log_softmax (div_scalar student_logits T))).

(** Entropy of the teacher's softened distribution, batch mean. *)
Definition soft_teacher_entropy (T : R) (teacher_logits : Tensor2) : R :=
  batch_mean (map entropy (softened T teacher_logits)).

(** ** The notebook as a script *)

Section Notebook.

Import Script.
Local Open Scope script_scope.
Local Open Scope Z_scope.

(** The body of [ImageDistilTrainer.__init__] after the call of the
    parent's [__init__], which the construction event stands for. *)
Definition init_body (teacher_model : value) (k : script) : script :=
  let! loss_function :=
    New "nn.KLDivLoss" [] [("reduction", PyStr "batchmean")] in
  let! available := Call "torch.cuda.is_available" [] [] in
  Cond available (fun cuda =>
  let! device :=
    Call "torch.device" [PyStr (if cuda then "cuda" else "cpu")] [] in
  do! CallMethod teacher_model "to" [device] [] in
  do! CallMethod teacher_model "eval" [] [] in
  k).

(** The notebook, code cell after code cell. *)
Definition notebook : script :=
  (* Libraries *)
  do! Shell "pip install transformers datasets accelerate tensorboard evaluate --upgrade" in
  (* Data Load *)
  let! dataset := Call "load_dataset" [PyStr "beans"] [] in
  (* Preprocessing *)
  let! teacher_processor :=
    FromPretrained "AutoImageProcessor" [PyStr "merve/beans-vit-224"] [] in
  let! processed_datasets :=
    CallMethod dataset "map" [PyFun "process"] [("batched", PyBool true)] in
  (* Training *)
  let! training_args :=
    New "TrainingArguments" []
      [("output_dir", PyStr "knowledge_distillation");
       ("num_train_epochs", PyInt 30);
       ("fp16", PyBool true);
       ("eval_strategy", PyStr "epoch");
       ("save_strategy", PyStr "epoch");
       ("load_best_model_at_end", PyBool true);
       ("metric_for_best_model", PyStr "accuracy");
       ("report_to", PyStr "tensorboard");
       ("push_to_hub", PyBool false)] in
  let! train_split := GetItem processed_datasets (PyStr "train") in
  let! features := GetAttr train_split "features" in
  let! labels_feature := GetItem features (PyStr "labels") in
  let! names := GetAttr labels_feature "names" in
  let! num_labels := Call "len" [names] [] in
  let! teacher_model :=
    FromPretrained "AutoModelForImageClassification"
      [PyStr "merve/beans-vit-224"]
      [("num_labels", num_labels); ("ignore_mismatched_sizes", PyBool true)] in
  let! student_config := New "MobileNetV2Config" [] [] in
  do! SetAttr student_config "num_labels" num_labels in
  let! student_model :=
    New "MobileNetV2ForImageClassification" [student_config] [] in
  (* Evaluation *)
  let! accuracy := Call "evaluate.load" [PyStr "accuracy"] [] in
  (* Distillation *)
  let! data_collator := New "DefaultDataCollator" [] [] in
  let! train_dataset := GetItem processed_datasets (PyStr "train") in
  let! eval_dataset := GetItem processed_datasets (PyStr "validation") in
  let! trainer :=
    New "ImageDistilTrainer" []
      [("student_model", student_model);
       ("teacher_model", teacher_model);
       ("training_args", training_args);
       ("train_dataset", train_dataset);
       ("eval_dataset", eval_dataset);
       ("data_collator", data_collator);
       ("tokenizer", teacher_processor);
       ("compute_metrics", PyFun "compute_metrics");
       ("temperature", PyInt 5);
       ("lambda_param", PyFloat (5 # 10))] in
  init_body teacher_model (
  do! CallMethod trainer "train" [] [] in
  let! test_dataset := GetItem processed_datasets (PyStr "test") in
  do! CallMethod trainer "evaluate" [test_dataset] [] in
  Ret PyNone).

End Notebook.

End KnowledgeDistillation.

(** * 11_mask_generation.ipynb *)

Module MaskGeneration.

Import Script.
Local Open Scope script_scope.
Local Open Scope Z_scope.

Definition checkpoint : string := "facebook/sam-vit-huge".

Definition img_url : string :=
  "https://huggingface.co/datasets/huggingface/documentation-images/resolve/main/bee.jpg".

(** [input_points = [[[2592, 1728]]]] *)
Definition input_points : value :=
  PyList [PyList [PyList [PyInt 2592; PyInt 1728]]].

(** [box = [2350, 1600, 2850, 2100]] *)
Definition box : value :=
  PyList [PyInt 2350; PyInt 1600; PyInt 2850; PyInt 2100].

(** [[[[box]]]], the value passed as [input_boxes]. *)
Definition input_boxes : value := PyList [PyList [PyList [box]]].

(** [processor.image_processor.post_process_masks(outputs.pred_masks.cpu(),
    inputs["original_sizes"].cpu(), inputs["reshaped_input_sizes"].cpu())] *)
Definition post_process (processor outputs inputs : value)
    (k : value -> script) : script :=
  let! image_processor := GetAttr processor "image_processor" in
  let! pred_masks := GetAttr outputs "pred_masks" in
  let! pred_masks_cpu := CallMethod pred_masks "cpu" [] [] in
  let! original_sizes := GetItem inputs (PyStr "original_sizes") in
  let! original_sizes_cpu := CallMethod original_sizes "cpu" [] [] in
  let! reshaped_sizes := GetItem inputs (PyStr "reshaped_input_sizes") in
  let! reshaped_sizes_cpu := CallMethod reshaped_sizes "cpu" [] [] in
  let! masks :=
    CallMethod image_processor "post_process_masks"
      [pred_masks_cpu; original_sizes_cpu; reshaped_sizes_cpu] [] in
  k masks.

(** [masks[0][0][j].numpy()] *)
Definition mask_array (masks : value) (j : Z) (k : value -> script) : script :=
  let! m0 := GetItem masks (PyInt 0) in
  let! m00 := GetItem m0 (PyInt 0) in
  let! m00j := GetItem m00 (PyInt j) in
  let! array := CallMethod m00j "numpy" [] [] in
  k array.

(** [overlayed_image[:,:,c] = np.where(mask == 1, v, overlayed_image[:,:,c])] *)
Definition paint_channel (overlayed_image mask : value) (c v : Z)
    (k : script) : script :=
  let channel := PyList [PySlice None None None; PySlice None None None; PyInt c] in
  let! is_mask := BinOp "==" mask (PyInt 1) in
  let! old := GetItem overlayed_image channel in
  let! painted := Call "np.where" [is_mask; PyInt v; old] [] in
  do! SetItem overlayed_image channel painted in
  k.

(** One round of the loop [for i, mask in enumerate(mask_list, start=1)]. *)
Definition show_mask (image axes : value) (i : Z) (mask : value)
    (k : script) : script :=
  let! array := Call "np.array" [image] [] in
  let! overlayed_image := CallMethod array "copy" [] [] in
  paint_channel overlayed_image mask 0 255 (
  paint_channel overlayed_image mask 1 0 (
  paint_channel overlayed_image mask 2 0 (
  let! ax := GetItem axes (PyInt i) in
  do! CallMethod ax "imshow" [overlayed_image] [] in
  let! ax' := GetItem axes (PyInt i) in
  do! CallMethod ax' "set_title" [PyStr ("Mask " +:+ pretty i)] [] in
  k))).

(** The notebook, code cell after code cell. *)
Definition notebook : script :=
  (* Libraries *)
  do! Shell "pip install -q transformers" in
  let! mps_device := Call "torch.device" [PyStr "mps"] [] in
  (* Mask Generation using pipeline() *)
  let! mask_generator :=
    Call "pipeline" []
      [("model", PyStr checkpoint); ("task", PyStr "mask-generation")] in
  let! response := Call "requests.get" [PyStr img_url] [("stream", PyBool true)] in
  let! raw := GetAttr response "raw" in
  let! opened := Call "Image.open" [raw] [] in
  let! image := CallMethod opened "convert" [PyStr "RGB"] [] in
  (* Segment Everything mode *)
  let! masks :=
    CallObj mask_generator [image]
      [("points_per_batch", PyInt 128); ("pred_iou_thresh", PyFloat (88 # 100))] in
  do! Call "plt.imshow" [image] [("cmap", PyStr "gray")] in
  let! all_masks := GetItem masks (PyStr "masks") in
  ForEach all_masks
    (fun i mask =>
       do! Call "plt.imshow" [mask]
             [("cmap", PyStr "viridis"); ("alpha", PyFloat (1 # 10));
              ("vmin", PyInt 0); ("vmax", PyInt 1)] in
       Ret PyNone)
    (fun _ =>
  do! Call "plt.axis" [PyStr "off"] [] in
  do! Call "plt.show" [] [] in
  (* Mask Generation manual process *)
  let! available := Call "torch.cuda.is_available" [] [] in
  Cond available (fun cuda =>
  let! device :=
    Call "torch.device" [PyStr (if cuda then "cuda" else "cpu")] [] in
  let! loaded := FromPretrained "SamModel" [PyStr "facebook/sam-vit-base"] [] in
  let! model := CallMethod loaded "to" [device] [] in
  let! processor :=
    FromPretrained "SamProcessor" [PyStr "facebook/sam-vit-base"] [] in
  (* Point prompting mode *)
  let! encoded :=
    CallObj processor [image]
      [("input_points", input_points); ("return_tensors", PyStr "pt")] in
  let! inputs := CallMethod encoded "to" [device] [] in
  do! Call "torch.no_grad" [] [] in
  let! outputs := CallObj model [] [("**", inputs)] in
  post_process processor outputs inputs (fun masks =>
  let! subplots :=
    Call "plt.subplots" [PyInt 1; PyInt 4]
      [("figsize", PyList [PyInt 15; PyInt 5])] in
  unpack2 subplots (fun fig axes =>
  let! ax0 := GetItem axes (PyInt 0) in
  do! CallMethod ax0 "imshow" [image] [] in
  let! ax0' := GetItem axes (PyInt 0) in
  do! CallMethod ax0' "set_title" [PyStr "Original Image"] [] in
  mask_array masks 0 (fun mask1 =>
  mask_array masks 1 (fun mask2 =>
  mask_array masks 2 (fun mask3 =>
  show_mask image axes 1 mask1 (
  show_mask image axes 2 mask2 (
  show_mask image axes 3 mask3 (
  ForEach axes
    (fun i ax => do! CallMethod ax "axis" [PyStr "off"] [] in Ret PyNone)
    (fun _ =>
  do! Call "plt.show" [] [] in
  (* Box prompting mode *)
  let! encoded :=
    CallObj processor [image]
      [("input_boxes", input_boxes); ("return_tensors", PyStr "pt")] in
  let! inputs := CallMethod encoded "to" [PyStr "cuda"] [] in
  do! Call "torch.no_grad" [] [] in
  let! outputs := CallObj model [] [("**", inputs)] in
  post_process processor outputs inputs (fun masks =>
  mask_array masks 0 (fun mask =>
  let! subplots := Call "plt.subplots" [] [] in
  unpack2 subplots (fun fig ax =>
  do! CallMethod ax "imshow" [image] [] in
  let! rectangle :=
    New "patches.Rectangle"
      [PyList [PyInt 2350; PyInt 1600]; PyInt 500; PyInt 500]
      [("linewidth", PyInt 2); ("edgecolor", PyStr "r");
       ("facecolor", PyStr "none")] in
  do! CallMethod ax "add_patch" [rectangle] [] in
  do! CallMethod ax "axis" [PyStr "off"] [] in
  do! Call "plt.show" [] [] in
  (* Box prompting inference output *)
  let! subplots := Call "plt.subplots" [] [] in
  unpack2 subplots (fun fig ax =>
  do! CallMethod ax "imshow" [image] [] in
  do! CallMethod ax "imshow" [mask]
        [("cmap", PyStr "viridis"); ("alpha", PyFloat (4 # 10))] in
  do! CallMethod ax "axis" [PyStr "off"] [] in
  do! Call "plt.show" [] [] in
  Ret PyNone))))))))))))))).

End MaskGeneration.

(** * Python dictionaries with their order

    A [dict] keeps its items in the order the keys were first inserted;
    [d[k] = v] on a key already present replaces the value where it
    stands.  Loops over [d.items()] and comprehensions see that order. *)

Module Dict.

Section Dict.

Context {K V : Type} `{EqDecision K}.

Definition dict : Type := list (K * V).

(** [d.get(k)] *)
Fixpoint get (d : dict) (k : K) : option V :=
  match d with
  | [] => None
  | (k', v) :: d' => if decide (k = k') then Some v else get d' k
  end.

(** [d[k] = v] *)
Fixpoint setitem (d : dict) (k : K) (v : V) : dict :=
  match d with
  | [] => [(k, v)]
  | (k', v') :: d' =>
      if decide (k = k') then (k', v) :: d' else (k', v') :: setitem d' k v
  end.

(** [d.items()], [d.keys()], [d.values()], [len(d)] *)
Definition items (d : dict) : list (K * V) := d.
Definition keys (d : dict) : list K := d.*1.
Definition values (d : dict) : list V := d.*2.
Definition len (d : dict) : nat := length d.

(** [{k: v for ...}] over the pairs the comprehension yields, in order. *)
Definition comprehension (kvs : list (K * V)) : dict :=
  foldl (fun d kv => setitem d kv.1 kv.2) [] kvs.

End Dict.

Arguments dict : clear implicits.

End Dict.

(** * 02_image_segmentation.ipynb: label files, metrics, custom datasets *)

Module SegmentationData.

Import Python TorchQ.

(** ** The label dictionaries (lines 262-267) *)

Section LabelFile.

(** The built-in [int] on a string: the integer it spells, or
    [ValueError]. *)
Variable int : string -> result Z.

(** [id2label = {int(k): v for k, v in id2label.items()}], on the
    dictionary [json.load] returned (class names by id, ids as strings). *)
Definition id2label (loaded : Dict.dict string string)
  : result (Dict.dict Z string) :=
  pairs ← mapM (fun '(k, v) => i ← int k; mret (i, v)) (Dict.items loaded);
  mret (Dict.comprehension pairs).

(** [label2id = {v: k for k, v in id2label.items()}] *)
Definition label2id (id2label : Dict.dict Z string) : Dict.dict string Z :=
  Dict.comprehension ((fun '(k, v) => (v, k)) <$> Dict.items id2label).

(** [num_labels = len(id2label)] *)
Definition num_labels (id2label : Dict.dict Z string) : nat :=
  Dict.len id2label.

End LabelFile.

(** ** [compute_metrics] (lines 375-397) *)

Section Metrics.

(** Floating-point numbers, arrays of them and the nested lists
    [ndarray.tolist()] makes of arrays belong to the libraries. *)
Variables Float Array Nested : Type.

(** [value.tolist()] *)
Variable tolist : Array -> Nested.

(** What the metric reports under a key. *)
Inductive metric_value : Type :=
| Number (x : Float)
| NdArray (a : Array)
| ListOf (l : Nested).

(** [metric.compute(predictions=pred_labels, references=labels,
    num_labels=num_labels, ignore_index=255, reduce_labels=False)] of the
    metric loaded by [evaluate.load("mean_iou")]. *)
Variable metric_compute :
  IndexTensor3 -> IndexTensor3 -> nat -> Z -> bool ->
  result (Dict.dict string metric_value).

(** [isinstance(value, np.ndarray)] *)
Definition is_ndarray (value : metric_value) : bool :=
  match value with NdArray _ => true | _ => false end.

(** One round of the loop over [metrics.items()]. *)
Definition listify_item (metrics : Dict.dict string metric_value)
    (item : string * metric_value) : Dict.dict string metric_value :=
  match item.2 with
  | NdArray a => Dict.setitem metrics item.1 (ListOf (tolist a))
  | _ => metrics
  end.

(** [for key, value in metrics.items():
       if isinstance(value, np.ndarray): metrics[key] = value.tolist()]
    The loop assigns to keys that are present, so the dictionary keeps
    its size and the iteration goes through the items it started
    with. *)
Definition listify (metrics : Dict.dict string metric_value)
  : Dict.dict string metric_value :=
  foldl listify_item metrics (Dict.items metrics).

(** [labels.shape] of the references, an array [(N, H, W)]. *)
Definition shape3 (t : IndexTensor3) : list nat := [i3_n t; i3_h t; i3_w t].

(** [compute_metrics(eval_pred)] with [eval_pred = (logits, labels)], in
    a kernel with the global names [ns] and [num_labels]. *)
Definition compute_metrics (ns : namespace) (num_labels : nat)
    (logits : Tensor4) (labels : IndexTensor3)
  : result (Dict.dict string metric_value) :=
  pred_labels ← ImageSegmentation.pred_labels ns logits (shape3 labels);
  metrics ← metric_compute pred_labels labels num_labels 255 false;
  mret (listify metrics).

End Metrics.

Arguments Number {Float Array Nested}.
Arguments NdArray {Float Array Nested}.
Arguments ListOf {Float Array Nested}.
Arguments is_ndarray {Float Array Nested}.
Arguments listify_item {Float Array Nested}.
Arguments listify {Float Array Nested}.
Arguments compute_metrics {Float Array Nested}.

(** ** [create_dataset] (lines 740-751) *)

(** What the path lists of the notebook hold: strings, and the
    placeholder [...]. *)
Inductive path_item : Type :=
| PathStr (s : string)
| PathEllipsis.

Definition as_str (x : path_item) : result string :=
  match x with
  | PathStr s => Ok s
  | PathEllipsis => Raise TypeError
  end.

(** [sorted(l)].  A list of fewer than two items is returned without a
    comparison; in a longer list every item is compared with another one,
    and [<] between a string and [...] (or two [...]) raises
    [TypeError]. *)
Definition sorted (l : list path_item) : result (list path_item) :=
  match l with
  | [] | [_] => Ok l
  | _ =>
      strs ← mapM as_str l;
      mret (PathStr <$> merge_sort (fun a b => Is_true (String.leb a b)) strs)
  end.

Section CreateDataset.

(** The dataset library: [Dataset.from_dict], the feature [Image()] and
    [dataset.cast_column]. *)
Variables Dataset Feature : Type.
Variable from_dict : Dict.dict string (list path_item) -> result Dataset.
Variable Image : Feature.
Variable cast_column : Dataset -> string -> Feature -> result Dataset.

Definition create_dataset (image_paths label_paths : list path_item)
  : result Dataset :=
  images ← sorted image_paths;
  labels ← sorted label_paths;
  dataset ← from_dict [("image", images); ("label", labels)];
  dataset ← cast_column dataset "image" Image;
  cast_column dataset "label" Image.

End CreateDataset.

(** The lists of the notebook. *)
Definition image_paths_train : list path_item :=
  [PathStr "path/to/image_1.jpg/jpg"; PathStr "path/to/image_2.jpg/jpg";
   PathEllipsis; PathStr "path/to/image_n.jpg/jpg"].

Definition label_paths_train : list path_item :=
  [PathStr "path/to/annotation_1.png"; PathStr "path/to/annotation_2.png";
   PathEllipsis; PathStr "path/to/annotation_n.png"].

Definition image_paths_validation : list path_item := [PathEllipsis].
Definition label_paths_validation : list path_item := [PathEllipsis].

End SegmentationData.

(** * Arrays with their shape

    The plotting cells compute on arrays of the numeric library.  An
    array carries its shape next to its elements; an operation on two
    arrays first brings their shapes together by the broadcasting rule
    (two sizes agree when they are equal or one of them is 1) and raises
    [ValueError] when it cannot. *)

Module Numpy.

Import Python.

(** An array [(rows, cols)]. *)
Record ndarray2 (A : Type) : Type := {
  rows2 : nat;
  cols2 : nat;
  data2 : list (list A);
}.

(** An array [(rows, cols, channels)]. *)
Record ndarray3 (A : Type) : Type := {
  rows3 : nat;
  cols3 : nat;
  chans3 : nat;
  data3 : list (list (list A));
}.

Arguments rows2 {A}.
Arguments cols2 {A}.
Arguments data2 {A}.
Arguments rows3 {A}.
Arguments cols3 {A}.
Arguments chans3 {A}.
Arguments data3 {A}.

(** The elements agree with the shape. *)
Definition wf2 {A} (a : ndarray2 A) : Prop :=
  length (data2 a) = rows2 a
  /\ Forall (fun row => length row = cols2 a) (data2 a).

Definition wf3 {A} (a : ndarray3 A) : Prop :=
  length (data3 a) = rows3 a
  /\ Forall (fun row =>
       length row = cols3 a
       /\ Forall (fun pixel => length pixel = chans3 a) row) (data3 a).

(** The size two sizes broadcast to. *)
Definition broadcast_dim (m n : nat) : result nat :=
  if decide (m = n) then Ok m
  else if decide (m = 1) then Ok n
  else if decide (n = 1) then Ok m
  else Raise ValueError.

(** A dimension of size 1 repeated to size [n]; any other is left as it
    is. *)
Definition stretch {A} (n : nat) (l : list A) : list A :=
  match l with
  | [x] => replicate n x
  | _ => l
  end.

Definition zip_stretch {A B C} (n : nat) (f : A -> B -> C)
    (a : list A) (b : list B) : list C :=
  zip_with f (stretch n a) (stretch n b).

(** An operation applied element by element to two rank-3 arrays. *)
Definition broadcast3 {A B C} (f : A -> B -> C) (a : ndarray3 A) (b : ndarray3 B)
  : result (ndarray3 C) :=
  rows ← broadcast_dim (rows3 a) (rows3 b);
  cols ← broadcast_dim (cols3 a) (cols3 b);
  chans ← broadcast_dim (chans3 a) (chans3 b);
  mret {| rows3 := rows; cols3 := cols; chans3 := chans;
          data3 := zip_stretch rows (zip_stretch cols (zip_stretch chans f))
                     (data3 a) (data3 b) |}.

(** An operation applied to every element: an array with a scalar, or a
    conversion. *)
Definition map3 {A B} (f : A -> B) (a : ndarray3 A) : ndarray3 B :=
  {| rows3 := rows3 a; cols3 := cols3 a; chans3 := chans3 a;
     data3 := map (map (map f)) (data3 a) |}.

(** [np.zeros((rows, cols, chans), dtype=np.uint8)] *)
Definition zeros3 (rows cols chans : nat) : ndarray3 Z :=
  {| rows3 := rows; cols3 := cols; chans3 := chans;
     data3 := replicate rows (replicate cols (replicate chans 0%Z)) |}.

(** An integer stored into a [uint8] array: its value modulo 256. *)
Definition uint8 (z : Z) : Z := (z mod 256)%Z.

(** [x.astype(np.uint8)] of a float: the fraction is dropped.  The
    conversion is defined for values that land in the range of the type;
    [None] stands for the unspecified byte of any other value. *)
Definition astype_uint8 (x : Q) : option Z :=
  let z := (Qnum x ÷ Z.pos (Qden x))%Z in
  if decide (0 <= z < 256)%Z then Some z else None.

End Numpy.

(** * 02_image_segmentation.ipynb: the overlay of the prediction
    (lines 685-692) *)

Module SegmentationPlot.

Import Python TorchQ Numpy.

(** [palette = np.array(ade_palette())]: one row [[r, g, b]] per class. *)
Definition palette : list (list Z) :=
  map (fun '(r, g, b) => [r; g; b]) ImageSegmentation.ade_palette_rows.

(** [color_seg[pred_seg == label, :] = color] *)
Definition paint (pred_seg : IndexTensor2) (color_seg : ndarray3 Z)
    (label : nat) (color : list Z) : ndarray3 Z :=
  {| rows3 := rows3 color_seg; cols3 := cols3 color_seg;
     chans3 := chans3 color_seg;
     data3 :=
       zip_with (zip_with (fun l pixel =>
                   if decide (l = label) then uint8 <$> color else pixel))
         (i2_data pred_seg) (data3 color_seg) |}.

(** [color_seg[..., ::-1]]: the channels of every pixel in reverse. *)
Definition flip_channels {A} (a : ndarray3 A) : ndarray3 A :=
  {| rows3 := rows3 a; cols3 := cols3 a; chans3 := chans3 a;
     data3 := map (map reverse) (data3 a) |}.

(** [color_seg = np.zeros((pred_seg.shape[0], pred_seg.shape[1], 3),
                           dtype=np.uint8)]
    [for label, color in enumerate(palette):
         color_seg[pred_seg == label, :] = color]
    [color_seg = color_seg[..., ::-1]] *)
Definition color_seg (pred_seg : IndexTensor2) : ndarray3 Z :=
  let zeros := zeros3 (i2_h pred_seg) (i2_w pred_seg) 3 in
  let painted :=
    foldl (fun color_seg '(label, color) => paint pred_seg color_seg label color)
      zeros (enumerate palette) in
  flip_channels painted.

(** [img = np.array(image) * 0.5 + color_seg * 0.5]
    [img = img.astype(np.uint8)]
    Halving an integer below 256 and adding two such halves is exact in
    floating point, so the floats of this cell are the rationals they
    stand for. *)
Definition img (image : ndarray3 Z) (pred_seg : IndexTensor2)
  : result (ndarray3 (option Z)) :=
  let half (z : Z) : Q := (inject_Z z * (1 # 2))%Q in
  blend ← broadcast3 Qplus (map3 half image) (map3 half (color_seg pred_seg));
  mret (map3 astype_uint8 blend).

End SegmentationPlot.

(** * 11_mask_generation.ipynb: the overlay of a mask (lines 185-189) *)

Module MaskOverlay.

Import Python Numpy.

(** The channel [k] of every pixel set by
    [overlayed_image[:,:,k] = np.where(mask == 1, v, overlayed_image[:,:,k])]:
    [IndexError] when the image has no channel [k]; [ValueError] when mask
    and image do not broadcast, or broadcast to a shape the channel cannot
    take. *)
Definition set_channel (overlayed_image : ndarray3 Z) (k : nat)
    (mask : ndarray2 bool) (v : Z) : result (ndarray3 Z) :=
  if decide (chans3 overlayed_image <= k) then Raise IndexError
  else
    rows ← broadcast_dim (rows2 mask) (rows3 overlayed_image);
    cols ← broadcast_dim (cols2 mask) (cols3 overlayed_image);
    if decide (rows = rows3 overlayed_image /\ cols = cols3 overlayed_image)
    then
      mret {| rows3 := rows3 overlayed_image;
              cols3 := cols3 overlayed_image;
              chans3 := chans3 overlayed_image;
              data3 :=
                zip_stretch rows
                  (zip_stretch cols
                     (fun (m : bool) pixel =>
                        if m then <[k := uint8 v]> pixel else pixel))
                  (data2 mask) (data3 overlayed_image) |}
    else Raise ValueError.

(** The body of the loop over the masks, up to the plotting calls:
    [overlayed_image = np.array(image).copy()] and the three assignments
    to its channels.  The copy is the value the function starts from;
    [image] itself is not written to. *)
Definition overlay (image : ndarray3 Z) (mask : ndarray2 bool)
  : result (ndarray3 Z) :=
  overlayed_image ← set_channel image 0 mask 255;
  overlayed_image ← set_channel overlayed_image 1 mask 0;
  set_channel overlayed_image 2 mask 0.

End MaskOverlay.

(** * Tensors of the tensor library, by rank

    A tensor carries its shape next to its elements, which are nested
    lists in the order of the dimensions. *)

Module TorchTensor.

Import Python Numpy.

Record tensor3 (A : Type) : Type := {
  t3_shape : nat * nat * nat;
  t3_data : list (list (list A));
}.

Record tensor4 (A : Type) : Type := {
  t4_shape : nat * nat * nat * nat;
  t4_data : list (list (list (list A)));
}.

Record tensor5 (A : Type) : Type := {
  t5_shape : nat * nat * nat * nat * nat;
  t5_data : list (list (list (list (list A))));
}.

Arguments t3_shape {A}.
Arguments t3_data {A}.
Arguments t4_shape {A}.
Arguments t4_data {A}.
Arguments t5_shape {A}.
Arguments t5_data {A}.

(** The elements of a rank-2 slice agree with [(h, w)]. *)
Definition wf_plane {A} (h w : nat) (plane : list (list A)) : Prop :=
  length plane = h /\ Forall (fun row => length row = w) plane.

(** The elements agree with the shape. *)
Definition wf_tensor4 {A} (t : tensor4 A) : Prop :=
  let '(d0, d1, d2, d3) := t4_shape t in
  length (t4_data t) = d0
  /\ Forall (fun x => length x = d1 /\ Forall (wf_plane d2 d3) x) (t4_data t).

(** [t.permute(1, 0, 2, 3)]: the first two dimensions change places. *)
Definition permute_1023 {A} (t : tensor4 A) : tensor4 A :=
  let '(d0, d1, d2, d3) := t4_shape t in
  {| t4_shape := (d1, d0, d2, d3);
     t4_data := map (fun j => map (fun x => nth j x []) (t4_data t)) (seq 0 d1) |}.

(** [t.permute(1, 2, 0).numpy()]: a tensor [(C, H, W)] as an array
    [(H, W, C)]. *)
Definition permute_120 {A} (t : tensor3 A) : ndarray3 A :=
  let '(d0, d1, d2) := t3_shape t in
  {| rows3 := d1; cols3 := d2; chans3 := d0;
     data3 :=
       map (fun h =>
         map (fun w => omap (fun plane => plane !! h ≫= (.!! w)) (t3_data t))
           (seq 0 d2))
         (seq 0 d1) |}.

(** [for x in t]: the slices along the first dimension. *)
Definition unbind {A} (t : tensor4 A) : list (tensor3 A) :=
  let '(d0, d1, d2, d3) := t4_shape t in
  map (fun x => {| t3_shape := (d1, d2, d3); t3_data := x |}) (t4_data t).

(** [t.unsqueeze(0)] *)
Definition unsqueeze0 {A} (t : tensor4 A) : tensor5 A :=
  let '(d0, d1, d2, d3) := t4_shape t in
  {| t5_shape := (1, d0, d1, d2, d3); t5_data := [t4_data t] |}.

(** [torch.stack(ts)]: [RuntimeError] for an empty list and for tensors
    that differ in shape. *)
Definition stack {A} (ts : list (tensor4 A)) : result (tensor5 A) :=
  match ts with
  | [] => Raise RuntimeError
  | t :: _ =>
      if decide (Forall (fun t' => t4_shape t' = t4_shape t) ts) then
        let '(d0, d1, d2, d3) := t4_shape t in
        Ok {| t5_shape := (length ts, d0, d1, d2, d3);
              t5_data := t4_data <$> ts |}
      else Raise RuntimeError
  end.

End TorchTensor.

(** * 03_video_classification.ipynb: names, batches and the GIF preview *)

Module VideoData.

Import Python Numpy TorchTensor.

(** ** The names of the notebook

    The file holds two notebooks, each with a kernel of its own; this is
    the first, on video classification (lines 1-645). *)

(** The import statements of the notebook (lines 49-57, 90, 292-307);
    [import pytorchvideo.data] binds the name [pytorchvideo]. *)
Definition imports : list import_stmt :=
  [ Import "tarfile";
    Import "pathlib";
    Import "imageio";
    Import "evaluate";
    ImportAs "numpy" "np";
    ImportAs "pytorchvideo" "pytorchvideo";
    FromImport "IPython.display" ["Image"];
    FromImport "transformers"
      ["VideoMAEImageProcessor"; "VideoMAEForVideoClassification";
       "TrainingArguments"; "Trainer"; "pipeline"];
    FromImport "huggingface_hub" ["hf_hub_download"];
    FromImport "pytorchvideo.transforms"
      ["ApplyTransformToKey"; "Normalize"; "RandomShortSideScale"; "RemoveKey";
       "ShortSideScale"; "UniformTemporalSubsample"];
    FromImport "torchvision.transforms"
      ["Compose"; "Lambda"; "RandomCrop"; "RandomHorizontalFlip"; "Resize"] ].

(** Every name a code cell binds at top level by an assignment, a [def]
    or a [with ... as], in the order of the cells. *)
Definition assigned_names : list string :=
  [ "hf_dataset_identifier"; "filename"; "file_path";
    "t";
    "dataset_root_path"; "video_count_train"; "video_count_val";
    "video_count_test"; "video_total"; "all_video_file_paths";
    "class_labels"; "label2id"; "id2label";
    "model_ckpt"; "image_processor"; "model";
    "mean"; "std"; "height"; "width"; "resize_to";
    "num_frames_to_sample"; "sample_rate"; "fps"; "clip_duration";
    "train_transform"; "train_dataset"; "val_transform"; "val_dataset";
    "test_dataset";
    "unnormalize_img"; "create_gif"; "display_gif"; "sample_video";
    "video_tensor";
    "metric"; "compute_metrics";
    "model_name"; "new_model_name"; "num_epochs"; "args";
    "collate_fn";
    "trainer";
    "train_results";
    "sample_test_video";
    "video_cls";
    "run_inference"; "logits"; "predicted_class_idx" ].

(** The kernel's globals once every cell that can run has run: the most
    names the notebook can ever have bound. *)
Definition notebook_globals : namespace :=
  exec_imports (assign_all ∅ assigned_names) imports.

(** ** Batches *)

Section Batches.

(** The elements of a video tensor. *)
Variable Float : Type.

(** An example of the video dataset, as far as the notebook reads it:
    the clip under ["video"], a tensor [(C, T, H, W)], and the class id
    under ["label"]; [None] for a key the example lacks. *)
Record example : Type := {
  video : option (tensor4 Float);
  label : option Z;
}.

(** [example[key]] *)
Definition getitem {A} (field : option A) (key : string) : result A :=
  match field with
  | Some x => Ok x
  | None => Raise (KeyError key)
  end.

(** The dictionary the model is called on. *)
Record batch : Type := {
  pixel_values : tensor5 Float;
  labels : list Z;
}.

(** [torch.name]: the global [torch] is read, then its attribute. *)
Definition torch_attr (ns : namespace) (name : string) : result object :=
  torch ← lookup_name ns "torch";
  match torch with
  | Module_ m =>
      if decide (m = "torch") then Ok (Callable ("torch." +:+ name))
      else Raise (AttributeError name)
  | _ => Raise (AttributeError name)
  end.

(** [collate_fn(examples)] (lines 518-524) *)
Definition collate_fn (ns : namespace) (examples : list example) : result batch :=
  _ ← torch_attr ns "stack";
  videos ← mapM (fun example =>
                   v ← getitem (video example) "video";
                   mret (permute_1023 v)) examples;
  pixel_values ← stack videos;
  _ ← torch_attr ns "tensor";
  labels ← mapM (fun example => getitem (label example) "label") examples;
  mret {| pixel_values := pixel_values; labels := labels |}.

(** The dictionary [inputs] that [run_inference(model, video)] builds
    (lines 597-603); [sample_test_video] is the global of that name. *)
Definition inference_inputs (ns : namespace) (sample_test_video : example)
    (video : tensor4 Float) : result batch :=
  let perumuted_sample_test_video := permute_1023 video in
  let pixel_values := unsqueeze0 perumuted_sample_test_video in
  _ ← torch_attr ns "tensor";
  label ← getitem (label sample_test_video) "label";
  mret {| pixel_values := pixel_values; labels := [label] |}.

(** [run_inference(model, video)] (lines 595-614): the logits of the
    model on [inputs]; moving inputs and model to the device changes no
    value. *)
Definition run_inference {Logits} (ns : namespace) (sample_test_video : example)
    (model : batch -> result Logits) (video : tensor4 Float) : result Logits :=
  inputs ← inference_inputs ns sample_test_video video;
  _ ← torch_attr ns "device";
  _ ← torch_attr ns "cuda";
  _ ← torch_attr ns "no_grad";
  model inputs.

End Batches.

Arguments video {Float}.
Arguments label {Float}.
Arguments pixel_values {Float}.
Arguments labels {Float}.
Arguments collate_fn {Float}.
Arguments inference_inputs {Float}.
Arguments run_inference {Float Logits}.

(** ** The GIF preview (lines 415-439) *)

Section Gif.

(** Floating-point numbers with their product and sum, the float of an
    integer, and the conversion of a float to a byte that
    [astype("uint8")] performs. *)
Variable Float : Type.
Variables fmul fadd : Float -> Float -> Float.
Variable of_Z : Z -> Float.
Variable to_uint8 : Float -> Z.

(** [img * v] and [img + v] for a list [v] of one number per channel:
    the list is broadcast against the last dimension of the array. *)
Definition with_channels (f : Float -> Float -> Float) (img : ndarray3 Float)
    (v : list Float) : result (ndarray3 Float) :=
  chans ← broadcast_dim (chans3 img) (length v);
  mret {| rows3 := rows3 img; cols3 := cols3 img; chans3 := chans;
          data3 := map (map (fun pixel => zip_stretch chans f pixel v))
                     (data3 img) |}.

(** [a.clip(0, 255)] on an array of bytes. *)
Definition clip (a : ndarray3 Z) : ndarray3 Z :=
  map3 (fun z => Z.min (Z.max z 0) 255) a.

(** [unnormalize_img(img)], with the globals [mean] and [std] it reads. *)
Definition unnormalize_img (mean std : list Float) (img : ndarray3 Float)
  : result (ndarray3 Z) :=
  img ← with_channels fmul img std;
  img ← with_channels fadd img mean;
  let img := map3 to_uint8 (map3 (fun x => fmul x (of_Z 255)) img) in
  mret (clip img).

(** What [imageio.mimsave(filename, frames, "GIF", **kargs)] receives. *)
Record gif : Type := {
  gif_filename : string;
  gif_frames : list (ndarray3 Z);
  gif_format : string;
  gif_duration : Q;
}.

(** [create_gif(video_tensor, filename)] on a tensor [(T, C, H, W)]: the
    file written, whose name is returned. *)
Definition create_gif (mean std : list Float) (video_tensor : tensor4 Float)
    (filename : string) : result gif :=
  frames ← mapM (fun video_frame => unnormalize_img mean std (permute_120 video_frame))
             (unbind video_tensor);
  mret {| gif_filename := filename; gif_frames := frames;
          gif_format := "GIF"; gif_duration := 25 # 100 |}.

(** [display_gif(video_tensor, gif_name)] on a clip [(C, T, H, W)]: the
    file shown. *)
Definition display_gif (mean std : list Float) (video_tensor : tensor4 Float)
    (gif_name : string) : result gif :=
  let video_tensor := permute_1023 video_tensor in
  create_gif mean std video_tensor gif_name.

End Gif.

End VideoData.

(** * The accuracy functions of the classification notebooks *)

Module ClassificationMetrics.

Import Python TorchQ Numpy.

(** [np.argmax(predictions, axis=1)] on an array [(N, K)]: for every row
    the index of its first largest element; [ValueError] when the rows
    are empty. *)
Definition argmax_axis1 (predictions : ndarray2 Q) : result (list nat) :=
  if decide (cols2 predictions = 0) then Raise ValueError
  else Ok (argmax_list <$> data2 predictions).

Section Metrics.

(** The numbers a metric reports. *)
Variable Float : Type.

(** [accuracy.compute(predictions=..., references=...)] of the metric
    loaded by [evaluate.load("accuracy")]. *)
Variable accuracy_compute :
  list nat -> list Z -> result (Dict.dict string Float).

(** [compute_metrics] of the video notebook (03, lines 466-468) and of the
    image-classification notebook (03, lines 853-856): the first reads the
    attributes [predictions] and [label_ids] of [eval_pred], the second
    unpacks it. *)
Definition compute_metrics (predictions : ndarray2 Q) (labels : list Z)
  : result (Dict.dict string Float) :=
  predictions ← argmax_axis1 predictions;
  accuracy_compute predictions labels.

(** [compute_metrics] of the distillation notebook (10, lines 299-302):
    [return {"accuracy": acc["accuracy"]}]. *)
Definition compute_metrics_accuracy (predictions : ndarray2 Q) (labels : list Z)
  : result (Dict.dict string Float) :=
  predictions ← argmax_axis1 predictions;
  acc ← accuracy_compute predictions labels;
  match Dict.get acc "accuracy" with
  | Some a => Ok [("accuracy", a)]
  | None => Raise (KeyError "accuracy")
  end.

End Metrics.

Arguments compute_metrics {Float}.
Arguments compute_metrics_accuracy {Float}.

End ClassificationMetrics.

(** * Facts about the tensor operations *)

Module TorchFacts.

Import Torch.
Local Open Scope R_scope.

Lemma tsum_app (a b : list R) : tsum (a ++ b) = tsum a + tsum b.
Proof.
  induction a as [|x a IH]; simpl.
  - lra.
  - rewrite IH. lra.
Qed.

Lemma tsum_concat (t : Tensor2) : tsum (concat t) = tsum (map tsum t).
Proof.
  induction t as [|r t IH]; simpl; [reflexivity|].
  rewrite tsum_app, IH. reflexivity.
Qed.

Lemma tsum_exp_nonneg (x : list R) : 0 <= tsum (map exp x).
Proof.
  induction x as [|a x IH]; simpl; [lra|].
  pose proof (exp_pos a). lra.
Qed.

(** The normaliser of a softmax is positive as soon as the row has an
    element. *)
Lemma tsum_exp_pos (x : list R) (a : R) : a ∈ x -> 0 < tsum (map exp x).
Proof.
  induction 1 as [a x | a b x _ IH]; simpl.
  - pose proof (exp_pos a). pose proof (tsum_exp_nonneg x). lra.
  - pose proof (exp_pos b). lra.
Qed.

Lemma zip_with_ext_elem {A B C} (f g : A -> B -> C) (l : list A) (k : list B) :
  (forall a b, a ∈ l -> b ∈ k -> f a b = g a b) ->
  zip_with f l k = zip_with g l k.
Proof.
  revert k. induction l as [|a l IH]; intros [|b k] H; simpl; try reflexivity.
  f_equal.
  - apply H; constructor.
  - apply IH. intros a' b' Ha Hb. apply H; now constructor.
Qed.

Lemma zip_with_map_both {A A' B B' C} (f : A' -> B' -> C) (g : A -> A')
    (h : B -> B') (l : list A) (k : list B) :
  zip_with f (map g l) (map h k) = zip_with (fun a b => f (g a) (h b)) l k.
Proof.
  revert k. induction l as [|a l IH]; intros [|b k]; simpl; try reflexivity.
  now rewrite IH.
Qed.

Lemma map_zip_with_compose {A B C D} (f : A -> B -> C) (g : C -> D)
    (l : list A) (k : list B) :
  map g (zip_with f l k) = zip_with (fun a b => g (f a b)) l k.
Proof.
  revert k. induction l as [|a l IH]; intros [|b k]; simpl; try reflexivity.
  now rewrite IH.
Qed.

Lemma zip_with_swap {A B C} (f : A -> B -> C) (l : list A) (k : list B) :
  zip_with f l k = zip_with (fun b a => f a b) k l.
Proof.
  revert k. induction l as [|a l IH]; intros [|b k]; simpl; try reflexivity.
  now rewrite IH.
Qed.

Lemma tsum_zip_with_minus (f g : R -> R -> R) (l k : list R) :
  tsum (zip_with (fun a b => f a b - g a b) l k)
  = tsum (zip_with f l k) - tsum (zip_with g l k).
Proof.
  revert k. induction l as [|a l IH]; intros [|b k]; simpl; try lra.
  rewrite IH. lra.
Qed.

Lemma xlogy_self (p : R) : xlogy p p = p * ln p.
Proof.
  unfold xlogy. destruct (Req_dec_T p 0) as [->|_]; lra.
Qed.

(** The logarithm of a softmax entry is the log-softmax entry. *)
Lemma ln_softmax_entry (a S : R) : 0 < S -> ln (exp a / S) = a - ln S.
Proof.
  intros HS. unfold Rdiv.
  rewrite ln_mult by (try apply exp_pos; now apply Rinv_0_lt_compat).
  rewrite ln_exp, ln_Rinv by assumption. lra.
Qed.

Lemma softmax_entry_pos (a S : R) : 0 < S -> 0 < exp a / S.
Proof.
  intros HS. apply Rdiv_lt_0_compat; [apply exp_pos | assumption].
Qed.

(** One term of the loss: the library's pointwise formula on a log-softmax
    input and a softmax target is [p * ln (p / q)]. *)
Lemma kl_div_pointwise_softmax (a b Sa Sb : R) :
  0 < Sa -> 0 < Sb ->
  kl_div_pointwise (a - ln Sa) (exp b / Sb)
  = exp b / Sb * ln ((exp b / Sb) / (exp a / Sa)).
Proof.
  intros Ha Hb. unfold kl_div_pointwise. rewrite xlogy_self.
  pose proof (softmax_entry_pos a Sa Ha) as Hqa.
  pose proof (softmax_entry_pos b Sb Hb) as Hqb.
  replace (exp b / Sb / (exp a / Sa)) with (exp b / Sb * / (exp a / Sa))
    by reflexivity.
  rewrite ln_mult by (try assumption; now apply Rinv_0_lt_compat).
  rewrite ln_Rinv by assumption.
  rewrite (ln_softmax_entry a Sa Ha). lra.
Qed.

Lemma length_softmax (t : Tensor2) : length (softmax t) = length t.
Proof. apply length_map. Qed.

Lemma length_log_softmax (t : Tensor2) : length (log_softmax t) = length t.
Proof. apply length_map. Qed.

Lemma length_div_scalar (t : Tensor2) (c : R) : length (div_scalar t c) = length t.
Proof. apply length_map. Qed.

Lemma same_shape_length (a b : Tensor2) : same_shape a b -> length a = length b.
Proof. apply Forall2_length. Qed.

Lemma same_shape_refl (a : Tensor2) : same_shape a a.
Proof. induction a; constructor; auto. Qed.

End TorchFacts.

(** * Facts about [ImageDistilTrainer] *)

Module KnowledgeDistillationFacts.

Import Torch TorchFacts KnowledgeDistillation.
Local Open Scope R_scope.

(** Per example, the summed pointwise terms are the KL divergence of the
    two softmax distributions. *)
Lemma kl_row (s t : list R) :
  tsum (zip_with kl_div_pointwise (log_softmax_row s) (softmax_row t))
  = KL (softmax_row t) (softmax_row s).
Proof.
  unfold KL, log_softmax_row, softmax_row.
  rewrite !zip_with_map_both.
  rewrite (zip_with_swap _ t s). f_equal.
  apply zip_with_ext_elem. intros a b Ha Hb.
  apply kl_div_pointwise_softmax; eapply tsum_exp_pos; eassumption.
Qed.

(** The sum the loss module takes over the whole batch. *)
Lemma kl_total (S T : Tensor2) :
  tsum (concat (zip_with (zip_with kl_div_pointwise) (log_softmax S) (softmax T)))
  = tsum (zip_with KL (softmax T) (softmax S)).
Proof.
  rewrite tsum_concat, map_zip_with_compose. unfold log_softmax, softmax.
  rewrite !zip_with_map_both, (zip_with_swap _ T S). f_equal.
  apply zip_with_ext_elem. intros s t _ _. apply kl_row.
Qed.

Lemma kl_div_loss_batchmean (S T : Tensor2) :
  same_shape T S ->
  kl_div_loss {| kl_reduction := reduction_batchmean |} (log_softmax S) (softmax T)
  = batch_mean (zip_with KL (softmax T) (softmax S)).
Proof.
  intros Hsh. unfold kl_div_loss, batch_mean; simpl.
  rewrite kl_total. f_equal. f_equal.
  rewrite length_zip_with, !length_softmax, length_log_softmax.
  apply same_shape_length in Hsh. lia.
Qed.

Lemma same_shape_div_scalar (a b : Tensor2) (c : R) :
  same_shape a b -> same_shape (div_scalar a c) (div_scalar b c).
Proof.
  unfold same_shape, div_scalar. intros H.
  induction H; simpl; constructor; auto.
  now rewrite !length_map.
Qed.

(** The distillation term of a trainer built by [__init__]. *)
Lemma distillation_loss_KL {Inputs} (tm sm : Model Inputs) (T lam : R)
    (sl tl : Tensor2) :
  same_shape tl sl ->
  distillation_loss (init tm sm T lam) sl tl = T ^ 2 * soft_target_KL T tl sl.
Proof.
  intros Hsh. unfold distillation_loss, soft_student, soft_teacher; simpl.
  rewrite kl_div_loss_batchmean by now apply same_shape_div_scalar.
  unfold soft_target_KL, softened. lra.
Qed.

(** What [compute_loss] evaluates to when the student reports a loss. *)
Lemma compute_loss_eval {Inputs} (self : ImageDistilTrainer Inputs)
    (student_arg : Model Inputs) (inputs : Inputs) (ro g : bool) (L : R) :
  snd (forward (student self) inputs) = Some L ->
  exists r,
    compute_loss self student_arg inputs ro g = (Some r, g)
    /\ loss_of r
       = (1 - lambda_param self) * L
         + lambda_param self
           * distillation_loss self (fst (forward (student self) inputs))
               (fst (forward (teacher self) inputs)).
Proof.
  intros HL.
  unfold compute_loss, teacher_output, call, no_grad, is_grad_enabled.
  unfold mbind, grad_bind, gbind, mret, grad_ret, gret; simpl.
  rewrite HL. eexists; split; [reflexivity|].
  destruct ro; reflexivity.
Qed.

Lemma teacher_output_untracked {Inputs} (self : ImageDistilTrainer Inputs)
    (inputs : Inputs) (g : bool) :
  tracked (fst (teacher_output self inputs g)) = false
  /\ snd (teacher_output self inputs g) = g.
Proof. split; reflexivity. Qed.

Lemma KL_self (P : list R) : (forall p, p ∈ P -> 0 < p) -> KL P P = 0.
Proof.
  unfold KL. induction P as [|p P IH]; intros Hpos; simpl; [reflexivity|].
  rewrite IH by (intros q Hq; apply Hpos; now constructor).
  assert (0 < p) as Hp by (apply Hpos; constructor).
  unfold Rdiv. rewrite Rinv_r by lra. rewrite ln_1. lra.
Qed.

Lemma softmax_row_pos (x : list R) (p : R) : p ∈ softmax_row x -> 0 < p.
Proof.
  unfold softmax_row. intros Hp.
  apply list_elem_of_fmap in Hp as (a & -> & Ha).
  apply softmax_entry_pos. eapply tsum_exp_pos; eassumption.
Qed.

Lemma soft_target_KL_self (T : R) (z : Tensor2) : soft_target_KL T z z = 0.
Proof.
  unfold soft_target_KL, softened, batch_mean.
  assert (tsum (zip_with KL (softmax (div_scalar z T)) (softmax (div_scalar z T))) = 0)
    as ->.
  { generalize (div_scalar z T) as y. intros y.
    induction y as [|r y IH]; simpl; [reflexivity|].
    rewrite IH, KL_self; [lra|]. apply softmax_row_pos. }
  lra.
Qed.

End KnowledgeDistillationFacts.

(** * Theorems about [ImageDistilTrainer.compute_loss] *)

Module KnowledgeDistillationSpec.

Import Torch TorchFacts KnowledgeDistillation KnowledgeDistillationFacts.
Local Open Scope R_scope.

(** A one-example batch used to instantiate the theorems: the teacher
    answers logits [[1, 2]], the student [[0, 0]] with hard-label loss 1. *)
Definition example_teacher : Model unit :=
  {| forward := fun _ => ([[1; 2]], None); trainable := true |}.

Definition example_student : Model unit :=
  {| forward := fun _ => ([[0; 0]], Some 1); trainable := true |}.

(** KL divergence is cross-entropy minus the entropy of the first
    distribution, for positive distributions of one length. *)
Lemma KL_cross_entropy (P Q : list R) :
  length P = length Q ->
  (forall p, p ∈ P -> 0 < p) -> (forall q, q ∈ Q -> 0 < q) ->
  KL P Q = cross_entropy P (map ln Q) - entropy P.
Proof.
  unfold KL, cross_entropy, entropy.
  revert Q. induction P as [|p P IH]; intros [|q Q] Hlen HP HQ;
    simpl in *; try discriminate; [lra|].
  assert (0 < p) as Hp by (apply HP; constructor).
  assert (0 < q) as Hq by (apply HQ; constructor).
  specialize (IH Q ltac:(lia)
    ltac:(intros x Hx; apply HP; now constructor)
    ltac:(intros x Hx; apply HQ; now constructor)).
  unfold Rdiv at 1.
  rewrite ln_mult by (try assumption; now apply Rinv_0_lt_compat).
  rewrite ln_Rinv by assumption. lra.
Qed.

Lemma log_softmax_row_ln (s : list R) :
  log_softmax_row s = map ln (softmax_row s).
Proof.
  unfold log_softmax_row, softmax_row. rewrite map_map.
  apply map_ext_in. intros a Ha. symmetry. apply ln_softmax_entry.
  apply tsum_exp_pos with a. now apply list_elem_of_In.
Qed.

Lemma KL_softmax_rows (t s : list R) :
  length t = length s ->
  KL (softmax_row t) (softmax_row s)
  = cross_entropy (softmax_row t) (log_softmax_row s) - entropy (softmax_row t).
Proof.
  intros Hlen. rewrite log_softmax_row_ln.
  apply KL_cross_entropy; try apply softmax_row_pos.
  unfold softmax_row. now rewrite !length_map.
Qed.

Lemma soft_target_KL_cross_entropy (T : R) (tl sl : Tensor2) :
  same_shape tl sl ->
  soft_target_KL T tl sl
  = soft_cross_entropy T tl sl - soft_teacher_entropy T tl.
Proof.
  intros Hsh.
  unfold soft_target_KL, soft_cross_entropy, soft_teacher_entropy, softened,
    batch_mean.
  rewrite !length_zip_with, length_map, !length_softmax, length_log_softmax,
    !length_div_scalar.
  rewrite <- (same_shape_length _ _ Hsh), Nat.min_id.
  apply same_shape_div_scalar with (c := T) in Hsh.
  revert Hsh. generalize (div_scalar tl T) (div_scalar sl T). intros a b Hsh.
  assert (tsum (zip_with KL (softmax a) (softmax b))
          = tsum (zip_with cross_entropy (softmax a) (log_softmax b))
            - tsum (map entropy (softmax a))) as ->.
  { induction Hsh as [|ra rb a b Hr _ IH]; simpl; [lra|].
    rewrite IH, (KL_softmax_rows _ _ Hr). lra. }
  unfold Rdiv. lra.
Qed.





(** On the batch [[0, 0]] with [T = 1] the cross-entropy of the softened
    teacher against the softened student is [ln 2]. *)
Lemma soft_cross_entropy_uniform2 :
  soft_cross_entropy 1 [[0; 0]] [[0; 0]] = ln 2.
Proof.
  unfold soft_cross_entropy, batch_mean, cross_entropy, softened; simpl.
  replace (0 / 1) with 0 by lra. rewrite exp_0.
  replace (1 + (1 + 0)) with 2 by lra. lra.
Qed.

(** C2, refuted as stated: with teacher and student logits both [[0, 0]]
    and [T = 1] the distillation term is [0], while [T^2] times the
    cross-entropy of the softened teacher against the softened student is
    [ln 2]. *)
Lemma distillation_loss_not_cross_entropy :
  distillation_loss (init example_teacher example_student 1 (1 / 2))
    [[0; 0]] [[0; 0]]
  <> 1 ^ 2 * soft_cross_entropy 1 [[0; 0]] [[0; 0]].
Proof.
  rewrite distillation_loss_KL by apply same_shape_refl.
  rewrite soft_target_KL_self, soft_cross_entropy_uniform2.
  pose proof ln_lt_2. lra.
Qed.

(** C2, amended.  For a trainer built by [__init__], logits of one shape
    and [T > 0], the distillation term is [T^2] times the difference between
    the cross-entropy of the teacher's softened distribution against the
    student's softened log-probabilities and the entropy of the teacher's
    softened distribution, each averaged over the batch. *)
Theorem distillation_loss_cross_entropy {Inputs}
    (teacher_model student_model : Model Inputs) (T lam : R)
    (student_logits teacher_logits : Tensor2) :
  0 < T ->
  same_shape teacher_logits student_logits ->
  distillation_loss (init teacher_model student_model T lam)
    student_logits teacher_logits
  = T ^ 2 * (soft_cross_entropy T teacher_logits student_logits
             - soft_teacher_entropy T teacher_logits).
Proof.
  intros _ Hsh.
  rewrite distillation_loss_KL by exact Hsh.
  now rewrite soft_target_KL_cross_entropy.
Qed.

Lemma distillation_loss_cross_entropy_witness :
  distillation_loss (init example_teacher example_student 5 (1 / 2))
    [[0; 0]] [[1; 2]]
  = 5 ^ 2 * (soft_cross_entropy 5 [[1; 2]] [[0; 0]]
             - soft_teacher_entropy 5 [[1; 2]]).
Proof.
  apply (distillation_loss_cross_entropy example_teacher example_student 5
           (1 / 2) [[0; 0]] [[1; 2]]).
  - lra.
  - repeat constructor.
Defined.

End KnowledgeDistillationSpec.

(** * Facts about name resolution *)

Module PythonFacts.

Import Python.

Lemma bind_Ok {A B} (a : A) (k : A -> result B) : Ok a ≫= k = k a.
Proof. reflexivity. Qed.

Lemma bind_Raise {A B} (e : exn) (k : A -> result B) : Raise e ≫= k = Raise e.
Proof. reflexivity. Qed.

Lemma getattr_torch_nn : getattr (Module_ "torch") "nn" = Ok (Module_ "torch.nn").
Proof. reflexivity. Qed.

Lemma getattr_torch_from_numpy :
  getattr (Module_ "torch") "from_numpy" = Ok (Callable "torch.from_numpy").
Proof. reflexivity. Qed.

Lemma getattr_nn_functional :
  getattr (Module_ "torch.nn") "functional" = Ok (Module_ "torch.nn.functional").
Proof. reflexivity. Qed.

Lemma getattr_functional_interpolate :
  getattr (Module_ "torch.nn.functional") "interpolate"
  = Ok (Callable "torch.nn.functional.interpolate").
Proof. reflexivity. Qed.

End PythonFacts.

(** * Facts about bilinear interpolation and argmax *)

Module TorchQFacts.

Import Python TorchQ.

Lemma argmax_from_bound (l : list Q) (best_i i : nat) (best : Q) :
  best_i < i -> argmax_from best_i best i l < i + length l.
Proof.
  revert best_i i best. induction l as [|x l IH]; intros best_i i best Hlt; simpl.
  - lia.
  - destruct (Qlt_le_dec best x).
    + specialize (IH i (S i) x). lia.
    + specialize (IH best_i (S i) best). lia.
Qed.

(** The index [argmax] returns addresses an element of the list. *)
Lemma argmax_list_bound (l : list Q) : l <> [] -> argmax_list l < length l.
Proof.
  destruct l as [|x l]; [congruence|]. intros _. simpl.
  pose proof (argmax_from_bound l 0 1 x). lia.
Qed.

Lemma length_upsample_bilinear2d (in_h in_w out_h out_w : nat)
    (plane : list (list Q)) :
  length (upsample_bilinear2d in_h in_w out_h out_w plane) = out_h
  /\ Forall (fun row => length row = out_w)
       (upsample_bilinear2d in_h in_w out_h out_w plane).
Proof.
  unfold upsample_bilinear2d. split.
  - now rewrite length_map, length_seq.
  - apply Forall_map, Forall_forall. intros y _.
    destruct (source_index_and_lambda in_h out_h y) as [[[h0 h1] l0] l1].
    now rewrite length_map, length_seq.
Qed.

(** [interpolate] answers a tensor of the requested spatial size, and its
    elements agree with that shape. *)
Lemma interpolate_shape (input : Tensor4) (out_h out_w : nat) :
  wf4 input ->
  t4_h input <> 0 -> t4_w input <> 0 -> out_h <> 0 -> out_w <> 0 ->
  exists output,
    interpolate input [out_h; out_w] = Ok output
    /\ wf4 output
    /\ t4_n output = t4_n input /\ t4_c output = t4_c input
    /\ t4_h output = out_h /\ t4_w output = out_w.
Proof.
  intros [Hn Hdata] Hh Hw Hoh How. unfold interpolate.
  destruct (decide _) as [Hbad|_]; [lia|].
  eexists; split; [reflexivity|]. split; [|now simpl].
  split; simpl.
  - now rewrite length_map.
  - apply Forall_map. eapply Forall_impl; [exact Hdata|].
    intros sample [Hc _]. simpl. split.
    + now rewrite length_map.
    + apply Forall_map, Forall_forall. intros plane _.
      apply length_upsample_bilinear2d.
Qed.

(** [argmax(dim=1)] keeps the batch and spatial sizes and yields channel
    indices. *)
Lemma argmax_dim1_shape (t : Tensor4) :
  wf4 t -> t4_c t <> 0 ->
  exists labels,
    argmax_dim1 t = Ok labels
    /\ i3_n labels = t4_n t /\ i3_h labels = t4_h t /\ i3_w labels = t4_w t
    /\ length (i3_data labels) = t4_n t
    /\ Forall (fun sample =>
         length sample = t4_h t
         /\ Forall (fun row =>
              length row = t4_w t /\ Forall (fun l => l < t4_c t) row) sample)
       (i3_data labels).
Proof.
  intros [Hn Hdata] Hc. unfold argmax_dim1.
  destruct (decide _) as [Hbad|_]; [lia|].
  eexists; split; [reflexivity|]. simpl.
  repeat split; try reflexivity.
  - now rewrite length_map.
  - apply Forall_map. eapply Forall_impl; [exact Hdata|].
    intros sample [Hsample _]. simpl. split.
    + now rewrite length_map, length_seq.
    + apply Forall_map, Forall_forall. intros y _. split.
      * now rewrite length_map, length_seq.
      * apply Forall_map, Forall_forall. intros x _.
        rewrite <- Hsample.
        rewrite <- (length_map (fun plane => get2 plane y x) sample).
        apply argmax_list_bound.
        destruct sample; [simpl in Hsample; lia | discriminate].
Qed.

Lemma call_interpolate_resolved (input : Tensor4) (size : list nat) :
  call_interpolate (Callable "torch.nn.functional.interpolate") input size
  = interpolate input size.
Proof. reflexivity. Qed.

End TorchQFacts.

(** * Theorems about the segmentation notebook *)

Module ImageSegmentationSpec.

Import Python PythonFacts TorchQ TorchQFacts ImageSegmentation.

(** No cell of the notebook binds [nn]. *)
Lemma nn_unbound : notebook_globals !! "nn" = None.
Proof. vm_compute. reflexivity. Qed.

(** [torch] is bound to the module by the import cell. *)
Lemma torch_bound : notebook_globals !! "torch" = Some (Module_ "torch").
Proof. vm_compute. reflexivity. Qed.

(** C3, the code at work: in the notebook's own namespace the inference
    cell stops with [NameError: name 'nn' is not defined] before [pred_seg]
    is assigned, for every image and every logits. *)
Theorem pred_seg_NameError (image : PILImage) (logits : Tensor4) :
  pred_seg notebook_globals image logits = Raise (NameError "nn").
Proof.
  unfold pred_seg, lookup_name. rewrite nn_unbound. reflexivity.
Qed.

(** The evaluation path reaches the same function through
    [torch.nn.functional] and does run. *)
Lemma pred_labels_runs (logits : Tensor4) (labels_shape : list nat) :
  pred_labels notebook_globals logits labels_shape
  = (interpolate logits (drop (length labels_shape - 2) labels_shape)
     ≫= argmax_dim1).
Proof.
  unfold pred_labels, lookup_name. rewrite torch_bound, bind_Ok.
  rewrite getattr_torch_from_numpy, bind_Ok.
  rewrite getattr_torch_nn, bind_Ok.
  rewrite getattr_nn_functional, bind_Ok.
  rewrite getattr_functional_interpolate, bind_Ok.
  now rewrite call_interpolate_resolved.
Qed.

(** The globals after [from torch import nn]. *)
Definition globals_with_nn : namespace :=
  exec_import notebook_globals (FromImport "torch" ["nn"]).

Lemma nn_bound : lookup_name globals_with_nn "nn" = Ok (Module_ "torch.nn").
Proof. vm_compute. reflexivity. Qed.

(** With [nn] bound to [torch.nn], the cell computes what C3 describes:
    for logits of shape [(N, C, h, w)] with no empty dimension and an image
    of positive width and height, [pred_seg] is a [(height, width)] map
    whose every entry is a label below [C]. *)
Lemma pred_seg_with_nn (image : PILImage) (logits : Tensor4) :
  wf4 logits ->
  t4_n logits <> 0 -> t4_c logits <> 0 ->
  t4_h logits <> 0 -> t4_w logits <> 0 ->
  width image <> 0 -> height image <> 0 ->
  exists p,
    pred_seg globals_with_nn image logits = Ok p
    /\ labels_every_pixel p (height image) (width image) (t4_c logits).
Proof.
  intros Hwf Hn Hc Hh Hw Hwi Hhe.
  destruct (interpolate_shape logits (height image) (width image)
              Hwf Hh Hw Hhe Hwi)
    as (up & Hup & Hwfup & Hupn & Hupc & Huph & Hupw).
  destruct (argmax_dim1_shape up Hwfup ltac:(lia))
    as (labels & Hlab & Hln & Hlh & Hlw & Hlen & Hall).
  unfold pred_seg. rewrite nn_bound, bind_Ok.
  rewrite getattr_nn_functional, bind_Ok.
  rewrite getattr_functional_interpolate, bind_Ok.
  rewrite call_interpolate_resolved.
  change (reverse (size image)) with [height image; width image].
  rewrite Hup, bind_Ok, Hlab, bind_Ok.
  unfold index0.
  destruct (i3_data labels) as [|first rest] eqn:Hdata.
  - simpl in Hlen. lia.
  - eexists; split; [reflexivity|].
    apply Forall_cons in Hall as [[Hfirst Hrows] _].
    unfold labels_every_pixel; simpl.
    rewrite Hlh, Hlw, Huph, Hupw. split; [reflexivity|].
    split; [reflexivity|]. split; [lia|].
    eapply Forall_impl; [exact Hrows|]. simpl.
    intros row [Hrow Hl]. split; [lia|].
    eapply Forall_impl; [exact Hl|]. simpl. intros l. lia.
Qed.

End ImageSegmentationSpec.

(** * Facts about the built-ins *)

Module BuiltinFacts.

Import Python.

Lemma dict_of_snoc `{Countable K} {V} (kvs : list (K * V)) (k : K) (v : V) :
  dict_of (kvs ++ [(k, v)]) = <[k := v]> (dict_of kvs).
Proof. unfold dict_of. now rewrite foldl_app. Qed.

(** With pairwise distinct keys a comprehension holds exactly its pairs. *)
Lemma dict_of_lookup `{Countable K} {V} (kvs : list (K * V)) (k : K) (v : V) :
  NoDup kvs.*1 -> dict_of kvs !! k = Some v <-> (k, v) ∈ kvs.
Proof.
  induction kvs as [|[k' v'] kvs IH] using rev_ind; intros Hnd.
  - unfold dict_of; simpl. rewrite lookup_empty, elem_of_nil. split; [discriminate | tauto].
  - rewrite fmap_app in Hnd. apply NoDup_app in Hnd as (Hnd & Hfresh & _).
    rewrite dict_of_snoc, elem_of_app, list_elem_of_singleton.
    destruct (decide (k' = k)) as [->|Hne].
    + rewrite lookup_insert_eq. split.
      * intros [= ->]. now right.
      * intros [Hin | [= ->]]; [|reflexivity].
        exfalso. apply (Hfresh k); [|simpl; constructor].
        apply list_elem_of_fmap. now exists (k, v).
    + rewrite lookup_insert_ne by exact Hne. rewrite (IH Hnd).
      split; [tauto|]. intros [Hin | [= -> ->]]; [exact Hin | congruence].
Qed.

Lemma elem_of_enumerate {A} (l : list A) (i : nat) (x : A) :
  (i, x) ∈ enumerate l <-> l !! i = Some x.
Proof.
  unfold enumerate. rewrite elem_of_lookup_imap. split.
  - intros (j & y & [= -> ->] & Hl). exact Hl.
  - intros Hl. now exists i, x.
Qed.

Lemma enumerate_snoc {A} (l : list A) (x : A) :
  enumerate (l ++ [x]) = enumerate l ++ [(length l, x)].
Proof.
  unfold enumerate. rewrite imap_app. simpl. now rewrite Nat.add_0_r.
Qed.

Lemma enumerate_fmap_snd {A} (l : list A) : (enumerate l).*2 = l.
Proof.
  induction l as [|x l IH] using rev_ind; [reflexivity|].
  now rewrite enumerate_snoc, fmap_app, IH.
Qed.

Lemma enumerate_fmap_fst {A} (l : list A) : (enumerate l).*1 = seq 0 (length l).
Proof.
  induction l as [|x l IH] using rev_ind; [reflexivity|].
  rewrite enumerate_snoc, fmap_app, IH, length_app, seq_app. reflexivity.
Qed.

Lemma enumerate_values_keys {A B} (f : nat -> B) (l : list A) :
  ((fun '(i, x) => (x, f i)) <$> enumerate l).*1 = l.
Proof.
  induction l as [|x l IH] using rev_ind; [reflexivity|].
  now rewrite enumerate_snoc, !fmap_app, IH.
Qed.

Lemma enumerate_index_keys {A B} (f : nat -> B) (l : list A) :
  ((fun '(i, x) => (f i, x)) <$> enumerate l).*1 = f <$> seq 0 (length l).
Proof.
  induction l as [|x l IH] using rev_ind; [reflexivity|].
  rewrite enumerate_snoc, !fmap_app, IH, length_app, seq_app, fmap_app.
  reflexivity.
Qed.

Lemma sorted_Permutation (s : gset string) : sorted s ≡ₚ elements s.
Proof. apply merge_sort_Permutation. Qed.

Lemma NoDup_sorted (s : gset string) : NoDup (sorted s).
Proof. rewrite sorted_Permutation. apply NoDup_elements. Qed.

Lemma elem_of_sorted (s : gset string) (x : string) : x ∈ sorted s <-> x ∈ s.
Proof. rewrite sorted_Permutation. apply elem_of_elements. Qed.

End BuiltinFacts.

(** * Facts about the label dictionaries *)

Module LabelFacts.

Import Python BuiltinFacts Labels.

Lemma video_label2id_lookup (cl : list string) (l : string) (i : nat) :
  NoDup cl ->
  VideoClassification.label2id cl !! l = Some i <-> cl !! i = Some l.
Proof.
  intros Hnd. unfold VideoClassification.label2id.
  rewrite dict_of_lookup.
  - rewrite list_elem_of_fmap. split.
    + intros ([j x] & [= -> ->] & Hin). now apply elem_of_enumerate.
    + intros Hl. exists (i, l). split; [reflexivity|]. now apply elem_of_enumerate.
  - now rewrite (enumerate_values_keys (fun i => i)).
Qed.

(** Swapping the items of a dictionary whose values are pairwise distinct
    inverts it. *)
Lemma video_id2label_lookup (m : gmap string nat) (i : nat) (l : string) :
  (forall l1 l2 j, m !! l1 = Some j -> m !! l2 = Some j -> l1 = l2) ->
  VideoClassification.id2label m !! i = Some l <-> m !! l = Some i.
Proof.
  intros Hinj. unfold VideoClassification.id2label.
  rewrite dict_of_lookup.
  - rewrite list_elem_of_fmap. split.
    + intros ([l' j] & [= -> ->] & Hin). now apply elem_of_map_to_list.
    + intros Hm. exists (l, i). split; [reflexivity|].
      now apply elem_of_map_to_list.
  - rewrite <- list_fmap_compose.
    apply NoDup_fmap_2_strong; [|apply NoDup_map_to_list].
    intros [l1 j1] [l2 j2] H1 H2; simpl. intros <-.
    apply elem_of_map_to_list in H1, H2. f_equal. eauto.
Qed.

Lemma video_maps_inverse (cl : list string) :
  NoDup cl ->
  mutually_inverse cl (VideoClassification.label2id cl)
    (VideoClassification.id2label (VideoClassification.label2id cl)).
Proof.
  intros Hnd.
  assert (forall l1 l2 j,
            VideoClassification.label2id cl !! l1 = Some j ->
            VideoClassification.label2id cl !! l2 = Some j -> l1 = l2) as Hinj.
  { intros l1 l2 j H1 H2.
    apply video_label2id_lookup in H1, H2; try assumption. congruence. }
  split.
  - intros l Hl. apply list_elem_of_lookup in Hl as [i Hi].
    exists i. split.
    + now apply video_label2id_lookup.
    + apply video_id2label_lookup; [exact Hinj|].
      now apply video_label2id_lookup.
  - intros i [l Hl]. exists l. split; [exact Hl|].
    now apply video_id2label_lookup in Hl.
Qed.

(** What [class_labels] returns has no repeated label and holds exactly
    the class directories of the paths. *)
Lemma class_labels_Ok (paths cl : list string) :
  VideoClassification.class_labels paths = Ok cl ->
  NoDup cl
  /\ forall l, l ∈ cl <->
       exists p, p ∈ paths /\ VideoClassification.label_of_path p = Ok l.
Proof.
  unfold VideoClassification.class_labels. intros Hcl.
  destruct (mapM VideoClassification.label_of_path paths) as [labels|e] eqn:Hm;
    [|discriminate].
  injection Hcl as <-. split; [apply NoDup_sorted|].
  intros l. rewrite elem_of_sorted, elem_of_list_to_set.
  clear -Hm. revert labels Hm.
  induction paths as [|p paths IH]; intros labels Hm; simpl in Hm.
  - injection Hm as <-. rewrite elem_of_nil. split; [tauto|].
    intros (p & Hp & _). now apply elem_of_nil in Hp.
  - destruct (VideoClassification.label_of_path p) as [lp|] eqn:Hp; [|discriminate].
    simpl in Hm.
    destruct (mapM VideoClassification.label_of_path paths) as [ls|] eqn:Hps;
      [|discriminate].
    injection Hm as <-. rewrite elem_of_cons, (IH ls eq_refl). split.
    + intros [->|(q & Hq & Hl)].
      * exists p. split; [constructor | exact Hp].
      * exists q. split; [now constructor | exact Hl].
    + intros (q & Hq & Hl). apply elem_of_cons in Hq as [->|Hq].
      * left. congruence.
      * right. now exists q.
Qed.

Lemma label_of_path_total (p : string) :
  3 <= length (split "/" p) ->
  exists l, VideoClassification.label_of_path p = Ok l.
Proof.
  intros Hp. unfold VideoClassification.label_of_path.
  destruct (lookup_lt_is_Some_2 (split "/" p) 2 ltac:(lia)) as [l ->].
  now eexists.
Qed.

(** [class_labels] returns as soon as every path has a third component. *)
Lemma class_labels_total (paths : list string) :
  Forall (fun p => 3 <= length (split "/" p)) paths ->
  exists cl, VideoClassification.class_labels paths = Ok cl.
Proof.
  intros Hall. unfold VideoClassification.class_labels.
  assert (exists labels, mapM VideoClassification.label_of_path paths = Ok labels)
    as [labels ->].
  { induction Hall as [|p paths Hp _ [labels IH]].
    - now eexists.
    - destruct (label_of_path_total p Hp) as [l Hl].
      cbn [mapM]. rewrite Hl, IH. now eexists. }
  now eexists.
Qed.

(** The loop of the image-classification notebook fills the two
    dictionaries like two comprehensions over [enumerate(labels)]. *)
Lemma label_maps_dict_of (labels : list string) :
  ImageClassification.label_maps labels
  = (dict_of ((fun '(i, label) => (label, str i)) <$> enumerate labels),
     dict_of ((fun '(i, label) => (str i, label)) <$> enumerate labels)).
Proof.
  unfold ImageClassification.label_maps.
  induction labels as [|x labels IH] using rev_ind; [reflexivity|].
  rewrite enumerate_snoc, foldl_app, IH, !fmap_app. simpl.
  now rewrite !dict_of_snoc.
Qed.

Lemma image_label2id_lookup (labels : list string) (l s : string) :
  NoDup labels ->
  ImageClassification.label2id labels !! l = Some s
  <-> exists i, s = str i /\ labels !! i = Some l.
Proof.
  intros Hnd. unfold ImageClassification.label2id.
  rewrite label_maps_dict_of. simpl. rewrite dict_of_lookup.
  - rewrite list_elem_of_fmap. split.
    + intros ([j x] & [= -> ->] & Hin). exists j.
      split; [reflexivity | now apply elem_of_enumerate].
    + intros (i & -> & Hl). exists (i, l).
      split; [reflexivity | now apply elem_of_enumerate].
  - now rewrite (enumerate_values_keys str).
Qed.

Lemma image_id2label_lookup (labels : list string) (l s : string) :
  ImageClassification.id2label labels !! s = Some l
  <-> exists i, s = str i /\ labels !! i = Some l.
Proof.
  unfold ImageClassification.id2label.
  rewrite label_maps_dict_of. simpl. rewrite dict_of_lookup.
  - rewrite list_elem_of_fmap. split.
    + intros ([j x] & [= -> ->] & Hin). exists j.
      split; [reflexivity | now apply elem_of_enumerate].
    + intros (i & -> & Hl). exists (i, l).
      split; [reflexivity | now apply elem_of_enumerate].
  - rewrite (enumerate_index_keys str).
    apply NoDup_fmap_2; [apply pretty_nat_inj | apply NoDup_seq].
Qed.

Lemma image_maps_inverse (labels : list string) :
  NoDup labels ->
  mutually_inverse labels (ImageClassification.label2id labels)
    (ImageClassification.id2label labels).
Proof.
  intros Hnd. split.
  - intros l Hl. apply list_elem_of_lookup in Hl as [i Hi].
    exists (str i). split.
    + apply image_label2id_lookup; [exact Hnd|]. now exists i.
    + apply image_id2label_lookup. now exists i.
  - intros s [l Hl]. exists l. split; [exact Hl|].
    apply image_id2label_lookup in Hl as (i & -> & Hi).
    apply image_label2id_lookup; [exact Hnd|]. now exists i.
Qed.

End LabelFacts.

(** * Theorems about the classification notebooks *)

Module ClassificationSpec.

Import Python BuiltinFacts Labels LabelFacts.

(** C9.  In the video-classification notebook, for the class labels
    computed from any list of video paths, and in the image-classification
    notebook, for any list of pairwise distinct label names (the dataset
    library refuses repeated names), [label2id] and [id2label] are mutually
    inverse: every class label has an id which [id2label] maps back to it,
    and every id of [id2label] maps to a label whose id it is. *)
Theorem label_dictionaries_inverse
    (all_video_file_paths class_labels labels : list string) :
  VideoClassification.class_labels all_video_file_paths = Ok class_labels ->
  NoDup labels ->
  mutually_inverse class_labels
    (VideoClassification.label2id class_labels)
    (VideoClassification.id2label (VideoClassification.label2id class_labels))
  /\ mutually_inverse labels
       (ImageClassification.label2id labels)
       (ImageClassification.id2label labels).
Proof.
  intros Hcl Hnd. split.
  - apply video_maps_inverse. now apply class_labels_Ok in Hcl as [? _].
  - now apply image_maps_inverse.
Qed.

Lemma label_dictionaries_inverse_witness :
  mutually_inverse ["Archery"; "BandMarching"]
    (VideoClassification.label2id ["Archery"; "BandMarching"])
    (VideoClassification.id2label
       (VideoClassification.label2id ["Archery"; "BandMarching"]))
  /\ mutually_inverse ["apple_pie"; "baby_back_ribs"]
       (ImageClassification.label2id ["apple_pie"; "baby_back_ribs"])
       (ImageClassification.id2label ["apple_pie"; "baby_back_ribs"]).
Proof.
  apply (label_dictionaries_inverse
           ["UCF101_subset/train/BandMarching/v_BandMarching_g01_c01.avi";
            "UCF101_subset/train/Archery/v_Archery_g01_c01.avi";
            "UCF101_subset/val/Archery/v_Archery_g02_c01.avi"]).
  - vm_compute. reflexivity.
  - apply (bool_decide_unpack _). vm_compute. exact I.
Defined.

Section Frame.

Context {Image Tensor Rng : Type}.
Variable convert : Image -> string -> Image.
Variable _transforms : Image -> Rng -> Tensor * Rng.

Import ImageClassification.

(** On a column of images the comprehension of [transforms] yields the
    tensors of [pixel_values_of]. *)
Lemma mapM_pixel_value (images : list Image) (rng : Rng) :
  mapM (pixel_value convert _transforms) (ImageCell <$> images) rng
  = Ok (pixel_values_of convert _transforms images rng).
Proof.
  revert rng. induction images as [|img images IH]; intros rng; [reflexivity|].
  cbn [fmap list_fmap mapM]. unfold mbind at 1.
  unfold rand_bind. cbn [pixel_value].
  simpl. destruct (_transforms (convert img "RGB") rng) as [t rng1].
  unfold mbind. rewrite IH.
  destruct (pixel_values_of convert _transforms images rng1) as [ts rng2].
  reflexivity.
Qed.

(** C10.  On a batch whose ["image"] field is a column of images,
    [transforms] returns; the returned batch has no ["image"] field, its
    ["pixel_values"] field holds the tensors computed from the images (each
    converted to RGB and passed through [_transforms], in order), and every
    other field, ["label"] among them, is as it was. *)
Theorem transforms_frame (examples : gmap string (list (cell Image Tensor)))
    (images : list Image) (rng : Rng) :
  examples !! "image" = Some (ImageCell <$> images) ->
  exists out,
    transforms convert _transforms examples rng
    = Ok (out, (pixel_values_of convert _transforms images rng).2)
    /\ out !! "image" = None
    /\ out !! "pixel_values"
       = Some (TensorCell <$> (pixel_values_of convert _transforms images rng).1)
    /\ (forall field, field <> "image" -> field <> "pixel_values" ->
          out !! field = examples !! field)
    /\ out !! "label" = examples !! "label".
Proof.
  intros Himage. unfold transforms. rewrite Himage.
  unfold mbind, rand_bind. rewrite mapM_pixel_value.
  destruct (pixel_values_of convert _transforms images rng) as [pv rng'].
  exists (delete "image" (<["pixel_values" := TensorCell <$> pv]> examples)).
  split; [reflexivity|]. cbn [fst snd].
  split; [apply lookup_delete_eq|].
  split; [rewrite lookup_delete_ne by discriminate; apply lookup_insert_eq|].
  split.
  - intros field Hi Hp.
    rewrite lookup_delete_ne by congruence.
    now rewrite lookup_insert_ne by congruence.
  - rewrite lookup_delete_ne by discriminate.
    now rewrite lookup_insert_ne by discriminate.
Qed.

End Frame.

(** A batch of two examples over a toy library: images and tensors are
    numbers, [convert] keeps the image, [_transforms] adds the generator
    state to it and advances the generator. *)
Definition example_batch : gmap string (list (ImageClassification.cell nat nat)) :=
  {[ "image" := [ImageClassification.ImageCell 10; ImageClassification.ImageCell 20];
     "label" := [ImageClassification.IntCell 6; ImageClassification.IntCell 3] ]}.

Definition example_convert (img : nat) (mode : string) : nat := img.

Definition example_transforms (img rng : nat) : nat * nat := (img + rng, S rng).

Lemma transforms_frame_witness :
  exists out,
    ImageClassification.transforms example_convert example_transforms
      example_batch 0
    = Ok (out, 2)
    /\ out !! "image" = None
    /\ out !! "pixel_values"
       = Some [ImageClassification.TensorCell 10; ImageClassification.TensorCell 21]
    /\ (forall field, field <> "image" -> field <> "pixel_values" ->
          out !! field = example_batch !! field)
    /\ out !! "label" = example_batch !! "label".
Proof.
  apply (transforms_frame example_convert example_transforms example_batch
           [10; 20] 0).
  reflexivity.
Defined.

End ClassificationSpec.

(** * Facts about running scripts *)

Module ScriptFacts.

Import Script.

(** ** Observations

    A selection of events and the list of phases are both obtained by
    mapping every event to a list and appending the lists. *)

Definition select (f : event -> bool) (e : event) : list event :=
  if f e then [e] else [].

Definition phase_obs (e : event) : list phase := option_list (phase_of e.1).

Lemma filter_flat_map (f : event -> bool) (l : list event) :
  List.filter f l = flat_map (select f) l.
Proof.
  induction l as [|e l IH]; simpl; [reflexivity|].
  unfold select at 1. destruct (f e); simpl; now rewrite IH.
Qed.

Lemma phases_flat_map (l : list event) :
  phases l.*1 = flat_map phase_obs l.
Proof.
  unfold phases. induction l as [|e l IH]; [reflexivity|].
  change ((e :: l).*1) with (e.1 :: l.*1).
  cbn [omap list_omap flat_map]. rewrite IH.
  change (phase_obs e) with (option_list (phase_of e.1)).
  destruct (phase_of e.1); reflexivity.
Qed.

(** ** Loops

    The state a loop of a script ends in.  It is sealed: a proof reads it
    through the lemmas below, not through its definition. *)

Definition loop_state_def (w : world) (body : nat -> value -> script) (n : nat)
  : run_state :=
  loop_fold (fun i x m => run w (body i x) m)
    (fresh "" (S n) (iter_len w n)) (S n + iter_len w n).

Definition loop_state_aux : seal (@loop_state_def).
Proof. by eexists. Qed.

Definition loop_state := loop_state_aux.(unseal).

Lemma loop_state_unseal : loop_state = loop_state_def.
Proof. exact (seal_eq loop_state_aux). Qed.

Section Observe.

Context {B : Type} (obs : event -> list B).

Lemma observe_Ret (w : world) (v : value) (n : nat) :
  flat_map obs (events_from w (Ret v) n) = [].
Proof. reflexivity. Qed.

Lemma observe_Do (w : world) (c : call) (k : value -> script) (n : nat) :
  flat_map obs (events_from w (Do c k) n)
  = obs (c, respond n c)
    ++ flat_map obs (events_from w (k (respond n c)) (allocates c + n)).
Proof. reflexivity. Qed.

Lemma observe_Cond (w : world) (v : value) (k : bool -> script) (n : nat) :
  flat_map obs (events_from w (Cond v k) n)
  = obs (Truth v, PyBool (truth w n))
    ++ flat_map obs (events_from w (k (truth w n)) (S n)).
Proof. reflexivity. Qed.

Lemma observe_ForEach (w : world) (iterable : value)
    (body : nat -> value -> script) (k : value -> script) (n : nat) :
  flat_map obs (events_from w (ForEach iterable body k) n)
  = obs (Iter iterable, PyList (fresh "" (S n) (iter_len w n)))
    ++ flat_map obs (loop_state w body n).1.1
    ++ flat_map obs
         (events_from w (k (PyList (loop_state w body n).1.2))
            (loop_state w body n).2).
Proof.
  rewrite loop_state_unseal. unfold events_from; simpl.
  now rewrite flat_map_app.
Qed.

(** When every round is observed alike, the loop is observed as that many
    repetitions. *)
Lemma observe_loop_fold
    (round : nat -> value -> nat -> list event * value * nat)
    (elems : list value) (n : nat) (r : list B) (P : value -> Prop) :
  Forall P elems ->
  (forall i x m, P x -> flat_map obs (round i x m).1.1 = r) ->
  flat_map obs (loop_fold round elems n).1.1
  = concat (replicate (length elems) r).
Proof.
  intros Helems Hround. unfold loop_fold.
  rewrite <- (length_imap pair elems).
  assert (Forall (fun ix : nat * value => P ix.2) (imap pair elems)) as Hl.
  { apply Forall_forall. intros [i x] Hix.
    apply elem_of_lookup_imap in Hix as (j & y & [= -> ->] & Hy).
    eapply Forall_forall; [exact Helems|].
    eapply list_elem_of_lookup_2; exact Hy. }
  revert Hl. generalize (imap pair elems). intros l Hl.
  assert (forall (st : run_state),
            flat_map obs
              (foldl (fun (st : run_state) (ix : nat * value) =>
                        let r := round ix.1 ix.2 st.2 in
                        (st.1.1 ++ r.1.1, st.1.2 ++ [r.1.2], r.2)) st l).1.1
            = flat_map obs st.1.1 ++ concat (replicate (length l) r)) as H.
  { induction Hl as [|[i x] l Hx _ IH]; intros st; simpl.
    - now rewrite app_nil_r.
    - rewrite IH. simpl. rewrite flat_map_app, (Hround _ _ _ Hx), <- app_assoc.
      reflexivity. }
  apply H.
Qed.

(** The elements of a loop of a script are fresh objects. *)
Lemma observe_loop (w : world) (body : nat -> value -> script) (n : nat)
    (r : list B) :
  (forall i j m, flat_map obs (events_from w (body i (PyObj "" j)) m) = r) ->
  flat_map obs (loop_state w body n).1.1
  = concat (replicate (iter_len w n) r).
Proof.
  intros H. rewrite loop_state_unseal. unfold loop_state_def.
  rewrite (observe_loop_fold _ _ _ r (fun x => exists j, x = PyObj "" j)).
  - unfold fresh. now rewrite length_map, length_seq.
  - unfold fresh. apply Forall_forall. intros x Hx.
    apply list_elem_of_fmap in Hx as (j & -> & _). now exists j.
  - intros i x m [j ->]. apply H.
Qed.

End Observe.

Lemma concat_replicate_nil {A} (k : nat) :
  concat (replicate k ([] : list A)) = [].
Proof. induction k; simpl; auto. Qed.

Lemma concat_replicate_singleton {A} (k : nat) (x : A) :
  concat (replicate k [x]) = replicate k x.
Proof. induction k; simpl; congruence. Qed.

End ScriptFacts.

(** One step of a run under an observation: the call at the head of the
    script is answered and observed, and the script goes on. *)
Ltac script_hnf :=
  lazymatch goal with
  | |- context [flat_map _ (Script.events_from _ ?s _)] =>
      let s' := eval hnf in s in
      change s with s'
  end.

Ltac observe_do :=
  lazymatch goal with
  | |- context [flat_map ?obs (Script.events_from ?w (Script.Do ?c ?k) ?n)] =>
      let v := eval vm_compute in (Script.respond n c) in
      let n' := eval cbn [Script.allocates Nat.add] in (Script.allocates c + n) in
      let o := eval vm_compute in (obs (c, v)) in
      rewrite (ScriptFacts.observe_Do obs w c k n);
      change (Script.respond n c) with v;
      change (obs (c, v)) with o;
      change (Script.allocates c + n) with n';
      script_hnf
  end.

(** A branch: both truth values are followed. *)
Ltac observe_cond :=
  lazymatch goal with
  | |- context [flat_map ?obs (Script.events_from ?w (Script.Cond ?v ?k) ?n)] =>
      let o := eval vm_compute in (obs (Script.Truth v, Script.PyBool true)) in
      rewrite (ScriptFacts.observe_Cond obs w v k n);
      replace (obs (Script.Truth v, Script.PyBool (Script.truth w n))) with o
        by (destruct (Script.truth w n); vm_compute; reflexivity);
      script_hnf
  end.

(** A branch between two scripts: one goal for each truth value. *)
Ltac observe_branch :=
  lazymatch goal with
  | |- context [flat_map ?obs (Script.events_from ?w (Script.Cond ?v ?k) ?n)] =>
      let o := eval vm_compute in (obs (Script.Truth v, Script.PyBool true)) in
      rewrite (ScriptFacts.observe_Cond obs w v k n);
      replace (obs (Script.Truth v, Script.PyBool (Script.truth w n))) with o
        by (destruct (Script.truth w n); vm_compute; reflexivity);
      destruct (Script.truth w n);
      script_hnf
  end.

(** A loop whose rounds are all observed as [r]. *)
Ltac observe_for r :=
  lazymatch goal with
  | |- context [flat_map ?obs
                  (Script.events_from ?w (Script.ForEach ?it ?body ?k) ?n)] =>
      let o := eval vm_compute in
                 (obs (Script.Iter it, Script.PyList [])) in
      rewrite (ScriptFacts.observe_ForEach obs w it body k n);
      replace (obs (Script.Iter it,
                    Script.PyList (Script.fresh "" (S n) (Script.iter_len w n))))
        with o by reflexivity;
      rewrite (ScriptFacts.observe_loop obs w body n r);
      [ let vals := fresh "vals" in
        let next := fresh "next" in
        generalize ((ScriptFacts.loop_state w body n).1.2); intros vals;
        generalize ((ScriptFacts.loop_state w body n).2); intros next;
        script_hnf
      | let i := fresh "i" in let j := fresh "j" in let m := fresh "m" in
        intros i j m;
        script_hnf;
        repeat observe_do;
        rewrite ScriptFacts.observe_Ret; reflexivity ]
  end.

Ltac observe_ret := rewrite ScriptFacts.observe_Ret.

(** * Theorems about the notebooks as scripts *)

Module NotebookSpec.

Import Script ScriptFacts.

Ltac start_phases nb :=
  unfold calls, events; rewrite phases_flat_map;
  let s := eval hnf in nb in change nb with s.

Ltac start_events nb :=
  unfold events_on, pipeline_events, events_named, events;
  rewrite filter_flat_map;
  let s := eval hnf in nb in change nb with s.

Ltac finish :=
  observe_ret;
  rewrite ?concat_replicate_nil, ?concat_replicate_singleton;
  cbn [app].

(** ** The phases of each notebook *)

Lemma phases_knowledge_distillation (w : world) :
  phases (calls w KnowledgeDistillation.notebook)
  = [Install; LoadCheckpoint; Preprocess; LoadCheckpoint; RunModel; RunModel].
Proof.
  start_phases KnowledgeDistillation.notebook.
  repeat observe_do. observe_cond. repeat observe_do. finish.
  reflexivity.
Qed.

Lemma phases_image_segmentation (w : world) :
  phases (calls w ImageSegmentation.notebook)
  = [Install; LoadCheckpoint; RunModel; LoadCheckpoint; RunModel;
     LoadCheckpoint; RunModel; LoadCheckpoint; Preprocess; Preprocess;
     Preprocess; LoadCheckpoint; RunModel; Preprocess; RunModel; Visualize;
     Visualize; Visualize].
Proof.
  start_phases ImageSegmentation.notebook.
  repeat observe_do. observe_for (@nil phase). repeat observe_do.
  observe_for (@nil phase). repeat observe_do. observe_cond. repeat observe_do.
  observe_for (@nil phase). repeat observe_do. finish.
  reflexivity.
Qed.

Lemma phases_video_classification (w : world) :
  phases (calls w VideoClassification.notebook)
  = [Install; LoadCheckpoint; LoadCheckpoint] ++ replicate 16 Preprocess
    ++ [RunModel; LoadCheckpoint; RunModel].
Proof.
  start_phases VideoClassification.notebook.
  repeat observe_do. observe_for (@nil phase). repeat observe_do.
  observe_for (@nil phase). repeat observe_do.
  observe_branch; repeat observe_do; (observe_for (@nil phase));
    repeat observe_do; observe_cond; repeat observe_do; finish;
    reflexivity.
Qed.

Lemma phases_image_classification (w : world) :
  phases (calls w ImageClassification.notebook)
  = [Install; LoadCheckpoint; Preprocess; Preprocess; Preprocess; Preprocess;
     Preprocess; LoadCheckpoint; RunModel; LoadCheckpoint; RunModel;
     LoadCheckpoint; Preprocess; LoadCheckpoint; RunModel].
Proof.
  start_phases ImageClassification.notebook.
  repeat observe_do. observe_for (@nil phase). repeat observe_do.
  observe_branch; repeat observe_do; finish; reflexivity.
Qed.

Lemma phases_mask_generation (w : world) :
  exists masks axes : nat,
    phases (calls w MaskGeneration.notebook)
    = [Install; LoadCheckpoint; RunModel; Visualize]
      ++ replicate masks Visualize
      ++ [Visualize; Visualize; LoadCheckpoint; LoadCheckpoint; Preprocess;
          RunModel] ++ replicate 9 Visualize
      ++ replicate axes Visualize
      ++ [Visualize; Preprocess; RunModel] ++ replicate 10 Visualize
      ++ [Visualize].
Proof.
  start_phases MaskGeneration.notebook.
  repeat observe_do. observe_for [Visualize]. repeat observe_do.
  observe_cond. repeat observe_do.
  observe_for [Visualize]. repeat observe_do. finish.
  eexists _, _. reflexivity.
Qed.

(** ** The order of the phases *)

(** The notebooks of the repository. *)
Definition notebooks : list script :=
  [ImageSegmentation.notebook; VideoClassification.notebook;
   ImageClassification.notebook; KnowledgeDistillation.notebook;
   MaskGeneration.notebook].



(** ** Selected events *)

Lemma filter_refine {A} (f g : A -> bool) (l : list A) :
  (forall x, f x = true -> g x = true) ->
  List.filter f l = List.filter f (List.filter g l).
Proof.
  intros Hfg. induction l as [|x l IH]; simpl; [reflexivity|].
  destruct (f x) eqn:Hf.
  - rewrite (Hfg x Hf). simpl. now rewrite Hf, IH.
  - destruct (g x); simpl; [rewrite Hf|]; exact IH.
Qed.

(** An event selected by one of several selections. *)
Definition any_of (fs : list (event -> bool)) (e : event) : bool :=
  existsb (fun f => f e) fs.

Lemma any_of_intro (fs : list (event -> bool)) (f : event -> bool) (e : event) :
  In f fs -> f e = true -> any_of fs e = true.
Proof.
  intros Hin Hf. unfold any_of. apply existsb_exists. now exists f.
Qed.

(** The events of the mask-generation notebook that C4 speaks of. *)
Definition mask_selections : list (event -> bool) :=
  [is_named "convert"; is_pipeline_call; is_call_on "Pipeline";
   is_call_on "SamProcessor"; is_call_on "SamModel"].

Lemma mask_generation_events (w : world) :
  exists processor model point_inputs point_outputs box_inputs box_outputs,
    List.filter (any_of mask_selections) (events w MaskGeneration.notebook)
    = [ (Call "pipeline" []
           [("model", PyStr "facebook/sam-vit-huge");
            ("task", PyStr "mask-generation")],
         PyObj "Pipeline" 2);
        (CallMethod (PyObj "" 5) "convert" [PyStr "RGB"] [], PyObj "" 6);
        (CallObj (PyObj "Pipeline" 2) [PyObj "" 6]
           [("points_per_batch", PyInt 128);
            ("pred_iou_thresh", PyFloat (88 # 100))],
         PyObj "" 7);
        (CallObj (PyObj "SamProcessor" processor) [PyObj "" 6]
           [("input_points", PyList [PyList [PyList [PyInt 2592; PyInt 1728]]]);
            ("return_tensors", PyStr "pt")],
         point_inputs);
        (CallObj (PyObj "SamModel" model) [] [("**", point_inputs)],
         point_outputs);
        (CallObj (PyObj "SamProcessor" processor) [PyObj "" 6]
           [("input_boxes",
             PyList [PyList [PyList
               [PyList [PyInt 2350; PyInt 1600; PyInt 2850; PyInt 2100]]]]);
            ("return_tensors", PyStr "pt")],
         box_inputs);
        (CallObj (PyObj "SamModel" model) [] [("**", box_inputs)],
         box_outputs) ].
Proof.
  unfold events. rewrite filter_flat_map.
  let s := eval hnf in MaskGeneration.notebook in
  change MaskGeneration.notebook with s.
  repeat observe_do. observe_for (@nil event). repeat observe_do.
  observe_cond. repeat observe_do.
  observe_for (@nil event). repeat observe_do. finish.
  eexists _, _, _, _, _, _. reflexivity.
Qed.


(** The events of the image-segmentation notebook that C5 speaks of. *)
Definition segmentation_selections : list (event -> bool) :=
  [is_named "Image.open"; is_pipeline_call; is_call_on "Pipeline"].

Lemma image_segmentation_events (w : world) :
  exists semantic instance panoptic semantic_results instance_results
         panoptic_results,
    List.filter (any_of segmentation_selections)
      (events w ImageSegmentation.notebook)
    = [ (Call "Image.open" [PyObj "" 2] [], PyObj "" 3);
        (Call "pipeline"
           [PyStr "image-segmentation";
            PyStr "nvidia/segformer-b1-finetuned-cityscapes-1024-1024"] [],
         PyObj "Pipeline" semantic);
        (CallObj (PyObj "Pipeline" semantic) [PyObj "" 3] [], semantic_results);
        (Call "pipeline"
           [PyStr "image-segmentation";
            PyStr "facebook/mask2former-swin-large-cityscapes-instance"] [],
         PyObj "Pipeline" instance);
        (CallObj (PyObj "Pipeline" instance) [PyObj "" 3] [], instance_results);
        (Call "pipeline"
           [PyStr "image-segmentation";
            PyStr "facebook/mask2former-swin-large-cityscapes-panoptic"] [],
         PyObj "Pipeline" panoptic);
        (CallObj (PyObj "Pipeline" panoptic) [PyObj "" 3] [], panoptic_results) ].
Proof.
  unfold events. rewrite filter_flat_map.
  let s := eval hnf in ImageSegmentation.notebook in
  change ImageSegmentation.notebook with s.
  repeat observe_do. observe_for (@nil event). repeat observe_do.
  observe_for (@nil event). repeat observe_do. observe_cond. repeat observe_do.
  observe_for (@nil event). repeat observe_do. finish.
  eexists _, _, _, _, _, _. reflexivity.
Qed.

(** C5.  In every world the image-segmentation notebook opens one image
    and builds three pipelines for the task ["image-segmentation"], from
    three different checkpoints: a semantic-segmentation model (SegFormer),
    an instance-segmentation model and a panoptic-segmentation model
    (Mask2Former); each pipeline is called once, on that image, and no
    pipeline is called on anything else. *)
Theorem three_tasks_on_one_image (w : world) :
  exists raw image semantic instance panoptic semantic_results
         instance_results panoptic_results,
    let es := events w ImageSegmentation.notebook in
    events_named "Image.open" es = [(Call "Image.open" [raw] [], image)]
    /\ pipeline_events es
       = [(Call "pipeline"
             [PyStr "image-segmentation";
              PyStr "nvidia/segformer-b1-finetuned-cityscapes-1024-1024"] [],
           semantic);
          (Call "pipeline"
             [PyStr "image-segmentation";
              PyStr "facebook/mask2former-swin-large-cityscapes-instance"] [],
           instance);
          (Call "pipeline"
             [PyStr "image-segmentation";
              PyStr "facebook/mask2former-swin-large-cityscapes-panoptic"] [],
           panoptic)]
    /\ events_on "Pipeline" es
       = [(CallObj semantic [image] [], semantic_results);
          (CallObj instance [image] [], instance_results);
          (CallObj panoptic [image] [], panoptic_results)]
    /\ NoDup ["nvidia/segformer-b1-finetuned-cityscapes-1024-1024";
              "facebook/mask2former-swin-large-cityscapes-instance";
              "facebook/mask2former-swin-large-cityscapes-panoptic"].
Proof.
  destruct (image_segmentation_events w)
    as (semantic & instance & panoptic & semantic_results & instance_results
        & panoptic_results & Hevents).
  exists (PyObj "" 2), (PyObj "" 3), (PyObj "Pipeline" semantic),
    (PyObj "Pipeline" instance), (PyObj "Pipeline" panoptic),
    semantic_results, instance_results, panoptic_results.
  cbv zeta. unfold events_named, pipeline_events, events_on.
  split; [|split; [|split]];
    try (rewrite (filter_refine _ (any_of segmentation_selections))
           by (intros e He; eapply any_of_intro; [|exact He]; simpl; tauto);
         rewrite Hevents; reflexivity).
  apply (bool_decide_unpack _). vm_compute. exact I.
Qed.

End NotebookSpec.

(** * Further properties of the distillation loss *)

Module DistillationProperties.

Import Torch TorchFacts KnowledgeDistillation KnowledgeDistillationFacts.
Local Open Scope R_scope.

(** [logits + c], a constant added to every logit of an example, one
    constant per example. *)
Definition shift_rows (cs : list R) (t : Tensor2) : Tensor2 :=
  zip_with (fun c row => map (fun x => x + c) row) cs t.

Lemma ln_ge_one_minus_inv (x : R) : 0 < x -> 1 - / x <= ln x.
Proof.
  intros Hx. pose proof (exp_ineq1_le (- ln x)) as H.
  rewrite exp_Ropp, exp_ln in H by exact Hx. lra.
Qed.

Lemma ln_eq_one_minus_inv (x : R) : 0 < x -> ln x <= 1 - / x -> x = 1.
Proof.
  intros Hx Hle. destruct (Req_dec_T (ln x) 0) as [H0|Hn].
  - rewrite <- (exp_ln x Hx), H0. apply exp_0.
  - pose proof (exp_ineq1 (- ln x) ltac:(lra)) as H.
    rewrite exp_Ropp, exp_ln in H by exact Hx. lra.
Qed.

(** One term of the divergence against the difference of the two
    probabilities. *)
Lemma KL_term_ge (p q : R) : 0 < p -> 0 < q -> p - q <= p * ln (p / q).
Proof.
  intros Hp Hq.
  assert (0 < p / q) as Hpq by now apply Rdiv_lt_0_compat.
  pose proof (ln_ge_one_minus_inv (p / q) Hpq) as H.
  replace (/ (p / q)) with (q / p) in H by (field; lra).
  apply (Rmult_le_compat_l p) in H; [|lra].
  replace (p * (1 - q / p)) with (p - q) in H by (field; lra). exact H.
Qed.

Lemma KL_term_eq (p q : R) : 0 < p -> 0 < q -> p * ln (p / q) <= p - q -> p = q.
Proof.
  intros Hp Hq H.
  assert (0 < p / q) as Hpq by now apply Rdiv_lt_0_compat.
  assert (ln (p / q) <= 1 - / (p / q)) as Hle.
  { replace (/ (p / q)) with (q / p) by (field; lra).
    apply (Rmult_le_reg_l p); [exact Hp|].
    replace (p * (1 - q / p)) with (p - q) by (field; lra). exact H. }
  apply ln_eq_one_minus_inv in Hle; [|exact Hpq].
  apply (f_equal (fun x => x * q)) in Hle.
  replace (p / q * q) with p in Hle by (field; lra). lra.
Qed.

Definition positive_pairs : list R -> list R -> Prop :=
  Forall2 (fun p q => 0 < p /\ 0 < q).

(** Gibbs' inequality, before normalisation. *)
Lemma KL_ge_mass (P Q : list R) :
  positive_pairs P Q -> tsum P - tsum Q <= KL P Q.
Proof.
  unfold KL. induction 1 as [|p q P Q [Hp Hq] _ IH]; simpl; [lra|].
  pose proof (KL_term_ge p q Hp Hq). lra.
Qed.

Lemma KL_eq_mass (P Q : list R) :
  positive_pairs P Q -> KL P Q <= tsum P - tsum Q -> P = Q.
Proof.
  unfold KL. induction 1 as [|p q P Q [Hp Hq] HPQ IH]; simpl; [reflexivity|].
  intros Hle.
  pose proof (KL_term_ge p q Hp Hq).
  pose proof (KL_ge_mass P Q HPQ) as HPQ'. unfold KL in HPQ'.
  f_equal; [apply KL_term_eq; lra | apply IH; lra].
Qed.

Lemma tsum_map_div (x : list R) (S : R) :
  tsum (map (fun a => a / S) x) = tsum x / S.
Proof. induction x as [|a x IH]; simpl; [lra | rewrite IH; lra]. Qed.

(** The probabilities of an example with at least one class sum to one. *)
Lemma tsum_softmax_row (x : list R) : x <> [] -> tsum (softmax_row x) = 1.
Proof.
  intros Hx. unfold softmax_row.
  rewrite <- (map_map exp (fun e => e / tsum (map exp x))), tsum_map_div.
  destruct x as [|a x]; [congruence|].
  pose proof (tsum_exp_pos (a :: x) a ltac:(constructor)). field. lra.
Qed.

Lemma positive_pairs_softmax (t s : list R) :
  length t = length s -> positive_pairs (softmax_row t) (softmax_row s).
Proof.
  intros Hlen. apply Forall2_same_length_lookup_2.
  - unfold softmax_row. now rewrite !length_map.
  - intros i p q Hp Hq. split; eapply softmax_row_pos, list_elem_of_lookup_2; eassumption.
Qed.

Lemma tsum_softmax_rows_eq (t s : list R) :
  length t = length s -> tsum (softmax_row t) = tsum (softmax_row s).
Proof.
  intros Hlen. destruct t as [|a t], s as [|b s]; try discriminate; [reflexivity|].
  now rewrite !tsum_softmax_row.
Qed.

Lemma KL_softmax_nonneg (t s : list R) :
  length t = length s -> 0 <= KL (softmax_row t) (softmax_row s).
Proof.
  intros Hlen. pose proof (KL_ge_mass _ _ (positive_pairs_softmax t s Hlen)).
  rewrite (tsum_softmax_rows_eq t s Hlen) in H. lra.
Qed.

Lemma KL_softmax_zero (t s : list R) :
  length t = length s ->
  KL (softmax_row t) (softmax_row s) = 0 -> softmax_row t = softmax_row s.
Proof.
  intros Hlen H0. apply KL_eq_mass; [now apply positive_pairs_softmax|].
  rewrite (tsum_softmax_rows_eq t s Hlen). lra.
Qed.

(** The summed divergences of a batch. *)
Lemma tsum_KL_nonneg (tl sl : Tensor2) :
  same_shape tl sl -> 0 <= tsum (zip_with KL (softmax tl) (softmax sl)).
Proof.
  induction 1 as [|t s tl sl Hlen _ IH]; simpl; [lra|].
  pose proof (KL_softmax_nonneg t s Hlen). lra.
Qed.

Lemma tsum_KL_zero (tl sl : Tensor2) :
  same_shape tl sl ->
  tsum (zip_with KL (softmax tl) (softmax sl)) = 0 -> softmax tl = softmax sl.
Proof.
  induction 1 as [|t s tl sl Hlen Hsh IH]; simpl; [reflexivity|].
  intros H0.
  pose proof (KL_softmax_nonneg t s Hlen).
  pose proof (tsum_KL_nonneg tl sl Hsh).
  f_equal; [apply KL_softmax_zero; [exact Hlen | lra] | apply IH; lra].
Qed.

Lemma tsum_KL_same (x : Tensor2) : tsum (zip_with KL (softmax x) (softmax x)) = 0.
Proof.
  induction x as [|r x IH]; simpl; [reflexivity|].
  rewrite IH, KL_self; [lra | apply softmax_row_pos].
Qed.

Lemma length_zip_KL (tl sl : Tensor2) :
  same_shape tl sl -> length (zip_with KL (softmax tl) (softmax sl)) = length tl.
Proof.
  intros Hsh. rewrite length_zip_with, !length_softmax.
  apply same_shape_length in Hsh. lia.
Qed.

(** ** Softmax and log-softmax do not see a constant added to an example *)

Lemma softmax_row_shift (x : list R) (c : R) :
  softmax_row (map (fun a => a + c) x) = softmax_row x.
Proof.
  unfold softmax_row. rewrite !map_map.
  apply map_ext_in. intros a Ha.
  assert (tsum (map (fun a => exp (a + c)) x) = exp c * tsum (map exp x)) as ->.
  { clear. induction x as [|a x IH]; simpl; [lra|].
    rewrite IH, exp_plus. lra. }
  pose proof (tsum_exp_pos x a ltac:(now apply list_elem_of_In)).
  pose proof (exp_pos c). rewrite exp_plus. field. lra.
Qed.

Lemma log_softmax_row_shift (x : list R) (c : R) :
  log_softmax_row (map (fun a => a + c) x) = log_softmax_row x.
Proof.
  unfold log_softmax_row. rewrite !map_map.
  apply map_ext_in. intros a Ha.
  assert (tsum (map (fun a => exp (a + c)) x) = exp c * tsum (map exp x)) as ->.
  { clear. induction x as [|a x IH]; simpl; [lra|].
    rewrite IH, exp_plus. lra. }
  pose proof (tsum_exp_pos x a ltac:(now apply list_elem_of_In)).
  rewrite ln_mult, ln_exp by (try apply exp_pos; lra). lra.
Qed.

Lemma div_scalar_shift_rows (cs : list R) (t : Tensor2) (T : R) :
  div_scalar (shift_rows cs t) T
  = shift_rows (map (fun c => c / T) cs) (div_scalar t T).
Proof.
  unfold div_scalar, shift_rows. revert t.
  induction cs as [|c cs IH]; intros [|row t]; simpl; try reflexivity.
  rewrite IH. f_equal. rewrite !map_map. apply map_ext. intros a. lra.
Qed.

Lemma softmax_shift_rows (cs : list R) (t : Tensor2) :
  length cs = length t -> softmax (shift_rows cs t) = softmax t.
Proof.
  unfold softmax, shift_rows. revert t.
  induction cs as [|c cs IH]; intros [|row t] Hlen; simpl in *; try lia; [reflexivity|].
  rewrite softmax_row_shift, IH by lia. reflexivity.
Qed.

Lemma log_softmax_shift_rows (cs : list R) (t : Tensor2) :
  length cs = length t -> log_softmax (shift_rows cs t) = log_softmax t.
Proof.
  unfold log_softmax, shift_rows. revert t.
  induction cs as [|c cs IH]; intros [|row t] Hlen; simpl in *; try lia; [reflexivity|].
  rewrite log_softmax_row_shift, IH by lia. reflexivity.
Qed.

Definition teacher_232 : Model unit :=
  {| forward := fun _ => ([[2; 3; 2]; [0; 1; 5]], None); trainable := false |}.

Definition student_010 : Model unit :=
  {| forward := fun _ => ([[0; 1; 0]; [1; 1; 1]], Some 3); trainable := true |}.







End DistillationProperties.

(** * Facts about dictionaries and the order of strings *)

Module DictFacts.

Import Dict.

Section DictFacts.

Context {K V : Type} `{EqDecision K}.

Implicit Types (d : dict K V) (k : K) (v : V).

Lemma get_setitem d k v k' :
  get (setitem d k v) k' = if decide (k' = k) then Some v else get d k'.
Proof.
  induction d as [|[k0 v0] d IH]; simpl.
  - reflexivity.
  - destruct (decide (k = k0)) as [->|Hne]; simpl.
    + destruct (decide (k' = k0)); reflexivity.
    + rewrite IH. destruct (decide (k' = k0)) as [->|]; [|reflexivity].
      destruct (decide (k0 = k)); [congruence | reflexivity].
Qed.

Lemma keys_setitem_in d k v : k ∈ keys d -> keys (setitem d k v) = keys d.
Proof.
  unfold keys. induction d as [|[k0 v0] d IH]; simpl; intros Hin.
  - now apply elem_of_nil in Hin.
  - destruct (decide (k = k0)) as [->|Hne]; [reflexivity|]. simpl.
    apply elem_of_cons in Hin as [?|Hin]; [congruence|]. f_equal. now apply IH.
Qed.

Lemma setitem_fresh d k v : k ∉ keys d -> setitem d k v = d ++ [(k, v)].
Proof.
  unfold keys. induction d as [|[k0 v0] d IH]; simpl; intros Hnin.
  - reflexivity.
  - rewrite not_elem_of_cons in Hnin. destruct Hnin as [Hne Hnin].
    destruct (decide (k = k0)); [congruence|]. f_equal. now apply IH.
Qed.

(** Assigning to a key replaces its value where the item stands. *)
Lemma setitem_middle (pre suf : dict K V) k v v' :
  k ∉ keys pre -> setitem (pre ++ (k, v) :: suf) k v' = pre ++ (k, v') :: suf.
Proof.
  unfold keys. induction pre as [|[k0 v0] pre IH]; simpl; intros Hnin.
  - destruct (decide (k = k)); [reflexivity | congruence].
  - rewrite not_elem_of_cons in Hnin. destruct Hnin as [Hne Hnin].
    destruct (decide (k = k0)); [congruence|]. f_equal. now apply IH.
Qed.

Lemma comprehension_snoc (kvs : list (K * V)) k v :
  comprehension (kvs ++ [(k, v)]) = setitem (comprehension kvs) k v.
Proof. unfold comprehension. now rewrite foldl_app. Qed.

Lemma NoDup_keys_setitem d k v : NoDup (keys d) -> NoDup (keys (setitem d k v)).
Proof.
  intros Hnd. destruct (decide (k ∈ keys d)) as [Hin|Hnin].
  - now rewrite keys_setitem_in.
  - rewrite setitem_fresh by exact Hnin. unfold keys in *.
    rewrite fmap_app. simpl. apply NoDup_app. split; [exact Hnd|].
    split; [|apply NoDup_singleton].
    intros x Hx Hx'. apply list_elem_of_singleton in Hx'. congruence.
Qed.

(** A dictionary built by a comprehension has pairwise distinct keys. *)
Lemma NoDup_keys_comprehension (kvs : list (K * V)) :
  NoDup (keys (comprehension kvs)).
Proof.
  induction kvs as [|[k v] kvs IH] using rev_ind; [constructor|].
  rewrite comprehension_snoc. now apply NoDup_keys_setitem.
Qed.

Lemma elem_of_keys_setitem d k v k' :
  k' ∈ keys (setitem d k v) <-> k' = k \/ k' ∈ keys d.
Proof.
  destruct (decide (k ∈ keys d)) as [Hin|Hnin].
  - rewrite keys_setitem_in by exact Hin. split; [tauto|].
    intros [->|?]; assumption.
  - rewrite setitem_fresh by exact Hnin. unfold keys.
    rewrite fmap_app, elem_of_app. simpl. rewrite list_elem_of_singleton. tauto.
Qed.

Lemma elem_of_keys_comprehension (kvs : list (K * V)) k :
  k ∈ keys (comprehension kvs) <-> k ∈ kvs.*1.
Proof.
  induction kvs as [|[k0 v0] kvs IH] using rev_ind.
  - reflexivity.
  - rewrite comprehension_snoc, elem_of_keys_setitem, IH, fmap_app, elem_of_app.
    simpl. rewrite list_elem_of_singleton. tauto.
Qed.

(** Pairs with distinct keys are kept as they come. *)
Lemma comprehension_NoDup (kvs : list (K * V)) :
  NoDup kvs.*1 -> comprehension kvs = kvs.
Proof.
  induction kvs as [|[k v] kvs IH] using rev_ind; intros Hnd; [reflexivity|].
  rewrite fmap_app in Hnd. apply NoDup_app in Hnd as (Hnd & Hdisj & _).
  rewrite comprehension_snoc, IH by exact Hnd.
  apply setitem_fresh. intros Hin. apply (Hdisj k Hin). simpl. constructor.
Qed.

Lemma get_Some_elem_of d k v : get d k = Some v -> (k, v) ∈ d.
Proof.
  induction d as [|[k0 v0] d IH]; simpl; [discriminate|].
  destruct (decide (k = k0)) as [->|Hne].
  - intros [= ->]. constructor.
  - intros Hg. constructor. now apply IH.
Qed.

Lemma elem_of_get d k v : NoDup (keys d) -> (k, v) ∈ d -> get d k = Some v.
Proof.
  unfold keys. induction d as [|[k0 v0] d IH]; simpl; intros Hnd Hin.
  - now apply elem_of_nil in Hin.
  - apply NoDup_cons in Hnd as [Hnin Hnd].
    apply elem_of_cons in Hin as [[= -> ->]|Hin].
    + destruct (decide (k0 = k0)); [reflexivity | congruence].
    + destruct (decide (k = k0)) as [->|Hne]; [|now apply IH].
      exfalso. apply Hnin. apply list_elem_of_fmap. now exists (k0, v).
Qed.

Lemma get_comprehension_elem_of (kvs : list (K * V)) k v :
  get (comprehension kvs) k = Some v -> (k, v) ∈ kvs.
Proof.
  induction kvs as [|[k0 v0] kvs IH] using rev_ind; [discriminate|].
  rewrite comprehension_snoc, get_setitem, elem_of_app.
  destruct (decide (k = k0)) as [->|Hne].
  - intros [= ->]. right. constructor.
  - intros Hg. left. now apply IH.
Qed.

(** A comprehension has as many items as its pairs have distinct keys:
    all of them exactly when no key repeats. *)
Lemma len_comprehension (kvs : list (K * V)) :
  len (comprehension kvs) <= length kvs
  /\ (len (comprehension kvs) = length kvs <-> NoDup kvs.*1).
Proof.
  assert (keys (comprehension kvs) ⊆+ kvs.*1) as Hsub.
  { apply NoDup_submseteq; [apply NoDup_keys_comprehension|].
    intros k. apply elem_of_keys_comprehension. }
  assert (len (comprehension kvs) = length (keys (comprehension kvs))) as ->.
  { unfold keys, len. now rewrite length_fmap. }
  assert (length kvs = length kvs.*1) as -> by now rewrite length_fmap.
  split; [now apply submseteq_length|]. split.
  - intros Hlen. apply submseteq_length_Permutation in Hsub; [|lia].
    rewrite <- Hsub. apply NoDup_keys_comprehension.
  - intros Hnd. now rewrite comprehension_NoDup.
Qed.

End DictFacts.

End DictFacts.

Module StringOrder.

Lemma ascii_compare_lt (a b : ascii) :
  Ascii.compare a b = Lt <-> (N_of_ascii a < N_of_ascii b)%N.
Proof. unfold Ascii.compare. apply N.compare_lt_iff. Qed.

Lemma ascii_compare_gt (a b : ascii) :
  Ascii.compare a b = Gt <-> (N_of_ascii b < N_of_ascii a)%N.
Proof. unfold Ascii.compare. apply N.compare_gt_iff. Qed.

Lemma ascii_compare_eq (a b : ascii) : Ascii.compare a b = Eq <-> a = b.
Proof.
  split; [apply Ascii.compare_eq_iff|]. intros ->.
  unfold Ascii.compare. apply N.compare_refl.
Qed.

Lemma leb_trans (s1 s2 s3 : string) :
  String.leb s1 s2 = true -> String.leb s2 s3 = true -> String.leb s1 s3 = true.
Proof.
  unfold String.leb. revert s2 s3.
  induction s1 as [|a s1 IH]; intros [|b s2] [|c s3]; simpl; try congruence.
  destruct (Ascii.compare a b) eqn:Hab; try congruence;
    destruct (Ascii.compare b c) eqn:Hbc; try congruence.
  - apply ascii_compare_eq in Hab, Hbc. subst.
    rewrite (proj2 (ascii_compare_eq c c) eq_refl). apply IH.
  - apply ascii_compare_eq in Hab. subst. now rewrite Hbc.
  - apply ascii_compare_eq in Hbc. subst. now rewrite Hab.
  - apply ascii_compare_lt in Hab. apply ascii_compare_lt in Hbc.
    assert (Ascii.compare a c = Lt) as ->; [|reflexivity].
    apply ascii_compare_lt. eapply N.lt_trans; eassumption.
Qed.

Definition le (a b : string) : Prop := Is_true (String.leb a b).

#[global] Instance le_dec (a b : string) : Decision (le a b) := _.

#[global] Instance le_total : Total le.
Proof.
  intros a b. unfold le.
  destruct (String.leb_total a b) as [->| ->]; [left | right]; exact I.
Qed.

#[global] Instance le_trans : Transitive le.
Proof.
  intros a b c Hab Hbc. unfold le in *.
  apply Is_true_true in Hab, Hbc. apply Is_true_true. eapply leb_trans; eassumption.
Qed.

#[global] Instance le_antisym : AntiSymm eq le.
Proof.
  intros a b Hab Hba. unfold le in *.
  apply Is_true_true in Hab, Hba. now apply String.leb_antisym.
Qed.

(** Sorting strings gives one list for all orders of the input. *)
Lemma merge_sort_Permutation_eq (l k : list string) :
  l ≡ₚ k -> merge_sort le l = merge_sort le k.
Proof.
  intros Hp. apply (StronglySorted_unique le).
  - apply StronglySorted_merge_sort; apply _.
  - apply StronglySorted_merge_sort; apply _.
  - now rewrite !merge_sort_Permutation.
Qed.

End StringOrder.

(** * Properties of the segmentation notebook's data handling *)

Module SegmentationDataSpec.

Import Python PythonFacts TorchQ TorchQFacts Dict DictFacts SegmentationData.

(** ** Label dictionaries *)

Lemma id2label_NoDup (int : string -> result Z) (loaded : dict string string)
    (d : dict Z string) :
  id2label int loaded = Ok d -> NoDup (keys d).
Proof.
  unfold id2label. intros Hd.
  destruct (mapM _ (items loaded)) as [pairs|e]; [|discriminate].
  injection Hd as <-. apply NoDup_keys_comprehension.
Qed.

Definition int_digit (s : string) : result Z :=
  if decide (s = "0") then Ok 0%Z
  else if decide (s = "1") then Ok 1%Z
  else if decide (s = "2") then Ok 2%Z
  else Raise ValueError.

(** X4.  For the dictionary [id2label] the cell computes: every entry of
    [label2id] is an entry of [id2label] read backwards; [label2id] never
    has more entries than [num_labels]; and when the class names are
    pairwise distinct it has exactly [num_labels] entries and is the
    inverse of [id2label]. *)
Theorem label2id_inverts_id2label (int : string -> result Z)
    (loaded : dict string string) (d : dict Z string) :
  id2label int loaded = Ok d ->
  (forall l i, get (label2id d) l = Some i -> get d i = Some l)
  /\ len (label2id d) <= num_labels d
  /\ (len (label2id d) = num_labels d <-> NoDup (values d))
  /\ (NoDup (values d) ->
      forall i l, get d i = Some l -> get (label2id d) l = Some i).
Proof.
  intros Hd. pose proof (id2label_NoDup int loaded d Hd) as Hnd.
  set (swapped := (fun '(k, v) => (v, k)) <$> items d).
  assert (swapped.*1 = values d) as Hkeys.
  { unfold swapped, values, items. rewrite <- list_fmap_compose.
    apply list_fmap_ext. now intros ? [k v] ?. }
  assert (forall l i, (l, i) ∈ swapped <-> (i, l) ∈ d) as Hsw.
  { intros l i. unfold swapped, items. rewrite list_elem_of_fmap. split.
    - now intros ([k v] & [= -> ->] & Hin).
    - intros Hin. now exists (i, l). }
  assert (length swapped = num_labels d) as Hlen.
  { unfold swapped, num_labels, len, items. now rewrite length_fmap. }
  split; [|split; [|split]].
  - intros l i Hg. apply get_comprehension_elem_of in Hg.
    apply elem_of_get; [exact Hnd|]. now apply Hsw.
  - rewrite <- Hlen. apply len_comprehension.
  - rewrite <- Hlen, <- Hkeys. apply len_comprehension.
  - intros Hval i l Hg. unfold label2id. fold swapped.
    rewrite comprehension_NoDup by now rewrite Hkeys.
    apply elem_of_get; [unfold keys; now rewrite Hkeys|].
    apply Hsw. now apply get_Some_elem_of.
Qed.

Lemma label2id_inverts_id2label_witness :
  let d := [(0%Z, "wall"); (1%Z, "building"); (2%Z, "wall")] in
  (forall l i, get (label2id d) l = Some i -> get d i = Some l)
  /\ len (label2id d) <= num_labels d
  /\ (len (label2id d) = num_labels d <-> NoDup (values d))
  /\ (NoDup (values d) ->
      forall i l, get d i = Some l -> get (label2id d) l = Some i).
Proof.
  apply (label2id_inverts_id2label int_digit
           [("0", "wall"); ("1", "building"); ("2", "wall")]).
  reflexivity.
Defined.

(** ** The metrics *)

Section Metrics.

Context {Float Array Nested : Type}.
Variable tolist : Array -> Nested.

(** What the loop leaves under a key. *)
Definition listed (value : metric_value Float Array Nested)
  : metric_value Float Array Nested :=
  match value with
  | NdArray a => ListOf (tolist a)
  | _ => value
  end.

Definition listed_item (item : string * metric_value Float Array Nested)
  : string * metric_value Float Array Nested :=
  (item.1, listed item.2).

Lemma listify_from (pre suf : dict string (metric_value Float Array Nested)) :
  NoDup (keys (pre ++ suf)) ->
  foldl (listify_item tolist) (pre ++ suf) suf
  = pre ++ (listed_item <$> items suf).
Proof.
  revert pre. induction suf as [|[k v] suf IH]; intros pre Hnd; [reflexivity|].
  assert (k ∉ keys pre) as Hk.
  { unfold keys in *. rewrite fmap_app in Hnd.
    apply NoDup_app in Hnd as (_ & Hdisj & _).
    intros Hin. apply (Hdisj k Hin). simpl. constructor. }
  assert (listify_item tolist (pre ++ (k, v) :: suf) (k, v)
          = (pre ++ [(k, listed v)]) ++ suf) as Hstep.
  { rewrite <- app_assoc. unfold listify_item; simpl.
    destruct v; simpl; try reflexivity. now apply setitem_middle. }
  cbn [foldl]. rewrite Hstep, IH.
  - now rewrite <- app_assoc.
  - unfold keys in *. rewrite <- app_assoc. simpl.
    now rewrite fmap_app in *.
Qed.

(** X6.  The loop at the end of [compute_metrics] keeps every key where it
    stands, turns each array into the list [tolist] makes of it and leaves
    every other value alone; no array is left in the result. *)
Theorem listify_result (metrics : dict string (metric_value Float Array Nested)) :
  NoDup (keys metrics) ->
  listify tolist metrics = (listed_item <$> items metrics)
  /\ keys (listify tolist metrics) = keys metrics
  /\ Forall (fun item => is_ndarray item.2 = false) (listify tolist metrics).
Proof.
  intros Hnd.
  assert (listify tolist metrics = (listed_item <$> items metrics)) as ->.
  { unfold listify, items. apply (listify_from [] metrics Hnd). }
  split; [reflexivity|]. split.
  - unfold keys. rewrite <- list_fmap_compose.
    apply list_fmap_ext. now intros ? [k v] ?.
  - apply Forall_fmap, Forall_forall. intros [k v] _. now destruct v.
Qed.

End Metrics.

Lemma listify_result_witness :
  let metrics : dict string (metric_value Z (list Z) (list Z)) :=
    [("mean_iou", Number 1%Z); ("per_category_iou", NdArray [1%Z; 0%Z])] in
  listify Datatypes.id metrics = (listed_item Datatypes.id <$> items metrics)
  /\ keys (listify Datatypes.id metrics) = keys metrics
  /\ Forall (fun item => is_ndarray item.2 = false) (listify Datatypes.id metrics).
Proof.
  apply (listify_result Datatypes.id).
  apply (bool_decide_unpack (NoDup ["mean_iou"; "per_category_iou"])).
  vm_compute. exact I.
Defined.

Section Predictions.

Context {Float Array Nested : Type}.
Variable tolist : Array -> Nested.
Variable metric_compute :
  IndexTensor3 -> IndexTensor3 -> nat -> Z -> bool ->
  result (dict string (metric_value Float Array Nested)).


End Predictions.

Definition logits_1222 : Tensor4 :=
  {| t4_n := 1; t4_c := 2; t4_h := 2; t4_w := 2;
     t4_data := [[[[0; 1]; [2; 3]]; [[3; 2]; [1; 0]]]]%Q |}.

Definition references_134 : IndexTensor3 :=
  {| i3_n := 1; i3_h := 3; i3_w := 4;
     i3_data := [[[0; 0; 1; 1]; [0; 0; 1; 1]; [1; 1; 1; 1]]] |}.

Definition no_metrics (p r : IndexTensor3) (n : nat) (ignore : Z) (reduce : bool)
  : result (dict string (metric_value Z (list Z) (list Z))) := Ok [].


(** ** The inference cell with its import in place *)

(** X7.  In a kernel where [nn] is bound to [torch.nn] (after
    [from torch import nn]), the inference cell labels every pixel: for
    logits [(N, C, h, w)] with no empty dimension and an image of positive
    width and height, [pred_seg] is a map [(height, width)] whose every
    entry is a label below [C]. *)
Theorem pred_seg_labels_every_pixel (ns : namespace)
    (image : ImageSegmentation.PILImage) (logits : Tensor4) :
  ns !! "nn" = Some (Module_ "torch.nn") ->
  wf4 logits ->
  t4_n logits <> 0 -> t4_c logits <> 0 ->
  t4_h logits <> 0 -> t4_w logits <> 0 ->
  ImageSegmentation.width image <> 0 -> ImageSegmentation.height image <> 0 ->
  exists p,
    ImageSegmentation.pred_seg ns image logits = Ok p
    /\ ImageSegmentation.labels_every_pixel p
         (ImageSegmentation.height image) (ImageSegmentation.width image)
         (t4_c logits).
Proof.
  intros Hnn Hwf Hn Hc Hh Hw Hwi Hhe.
  destruct (interpolate_shape logits (ImageSegmentation.height image)
              (ImageSegmentation.width image) Hwf Hh Hw Hhe Hwi)
    as (up & Hup & Hwfup & Hupn & Hupc & Huph & Hupw).
  destruct (argmax_dim1_shape up Hwfup ltac:(lia))
    as (labels & Hlab & Hln & Hlh & Hlw & Hlen & Hall).
  unfold ImageSegmentation.pred_seg, lookup_name. rewrite Hnn, bind_Ok.
  rewrite getattr_nn_functional, bind_Ok.
  rewrite getattr_functional_interpolate, bind_Ok.
  rewrite call_interpolate_resolved.
  change (reverse (ImageSegmentation.size image))
    with [ImageSegmentation.height image; ImageSegmentation.width image].
  rewrite Hup, bind_Ok, Hlab, bind_Ok.
  unfold index0.
  destruct (i3_data labels) as [|first rest] eqn:Hdata.
  - simpl in Hlen. lia.
  - eexists; split; [reflexivity|].
    apply Forall_cons in Hall as [[Hfirst Hrows] _].
    unfold ImageSegmentation.labels_every_pixel; simpl.
    rewrite Hlh, Hlw, Huph, Hupw. split; [reflexivity|].
    split; [reflexivity|]. split; [lia|].
    eapply Forall_impl; [exact Hrows|]. simpl.
    intros row [Hrow Hl]. split; [lia|].
    eapply Forall_impl; [exact Hl|]. simpl. intros l. lia.
Qed.

Lemma pred_seg_labels_every_pixel_witness :
  exists p,
    ImageSegmentation.pred_seg ImageSegmentationSpec.globals_with_nn
      {| ImageSegmentation.width := 4; ImageSegmentation.height := 3 |}
      logits_1222
    = Ok p
    /\ ImageSegmentation.labels_every_pixel p 3 4 2.
Proof.
  apply (pred_seg_labels_every_pixel ImageSegmentationSpec.globals_with_nn
           {| ImageSegmentation.width := 4; ImageSegmentation.height := 3 |}
           logits_1222).
  - vm_compute. reflexivity.
  - split; [reflexivity|]. repeat constructor.
  - discriminate.
  - discriminate.
  - discriminate.
  - discriminate.
  - discriminate.
  - discriminate.
Defined.

(** ** Custom datasets *)

#[global] Instance path_item_eq_dec : EqDecision path_item.
Proof. solve_decision. Defined.

Definition str_of (x : path_item) : option string :=
  match x with PathStr s => Some s | PathEllipsis => None end.

Lemma mapM_as_str (l : list path_item) :
  mapM as_str l
  = if decide (PathEllipsis ∈ l) then Raise TypeError else Ok (omap str_of l).
Proof.
  induction l as [|x l IH]; cbn [mapM].
  - destruct (decide _) as [Hin|_]; [now apply elem_of_nil in Hin | reflexivity].
  - rewrite IH.
    destruct (decide (PathEllipsis ∈ l)) as [Hin|Hnin],
      (decide (PathEllipsis ∈ x :: l)) as [Hin'|Hnin'], x as [s|];
      try reflexivity.
    + exfalso. apply Hnin'. now constructor.
    + exfalso. apply Hnin'. constructor.
    + exfalso. apply elem_of_cons in Hin' as [?|?]; [discriminate | tauto].
    + exfalso. apply Hnin'. constructor.
Qed.

Lemma sorted_paths_Permutation (l k : list path_item) :
  l ≡ₚ k -> sorted l = sorted k.
Proof.
  intros Hp. pose proof (Permutation_length Hp) as Hlen.
  destruct l as [|x [|y l]], k as [|x' [|y' k]]; try discriminate Hlen.
  - reflexivity.
  - apply Permutation_singleton_l in Hp. now rewrite Hp.
  - unfold sorted. rewrite !mapM_as_str.
    destruct (decide (PathEllipsis ∈ x :: y :: l)) as [Hin|Hnin].
    + rewrite decide_True by now rewrite <- Hp. reflexivity.
    + rewrite decide_False by now rewrite <- Hp.
      rewrite !bind_Ok. do 2 f_equal.
      apply StringOrder.merge_sort_Permutation_eq. now rewrite Hp.
Qed.

Lemma sorted_placeholder (l : list path_item) :
  PathEllipsis ∈ l -> 2 <= length l -> sorted l = Raise TypeError.
Proof.
  intros Hin Hlen. destruct l as [|x [|y l]]; simpl in Hlen; try lia.
  unfold sorted. rewrite mapM_as_str, decide_True by exact Hin. reflexivity.
Qed.

Lemma sorted_Ok_or_TypeError (l : list path_item) :
  (exists k, sorted l = Ok k) \/ sorted l = Raise TypeError.
Proof.
  destruct l as [|x [|y l]]; [left; now eexists ..|].
  unfold sorted. rewrite mapM_as_str.
  destruct (decide _); [right | left; eexists]; reflexivity.
Qed.

Section CreateDataset.

Context {Dataset Feature : Type}.
Variable from_dict : dict string (list path_item) -> result Dataset.
Variable Image : Feature.
Variable cast_column : Dataset -> string -> Feature -> result Dataset.

(** X8.  [create_dataset] pairs the i-th smallest image path with the i-th
    smallest label path: the order in which the paths are listed does not
    matter. *)
Theorem create_dataset_order_independent
    (image_paths image_paths' label_paths label_paths' : list path_item) :
  image_paths ≡ₚ image_paths' ->
  label_paths ≡ₚ label_paths' ->
  create_dataset Dataset Feature from_dict Image cast_column
    image_paths label_paths
  = create_dataset Dataset Feature from_dict Image cast_column
      image_paths' label_paths'.
Proof.
  intros Hi Hl. unfold create_dataset.
  now rewrite (sorted_paths_Permutation _ _ Hi), (sorted_paths_Permutation _ _ Hl).
Qed.

(** X9.  A list of two or more paths that still holds the placeholder [...]
    cannot be sorted: [create_dataset] raises [TypeError] before the
    dataset library is called. *)
Theorem create_dataset_placeholder (image_paths label_paths : list path_item) :
  (PathEllipsis ∈ image_paths /\ 2 <= length image_paths)
  \/ (PathEllipsis ∈ label_paths /\ 2 <= length label_paths) ->
  create_dataset Dataset Feature from_dict Image cast_column
    image_paths label_paths
  = Raise TypeError.
Proof.
  unfold create_dataset. intros [[Hin Hlen]|[Hin Hlen]].
  - rewrite (sorted_placeholder image_paths) by assumption. reflexivity.
  - rewrite (sorted_placeholder label_paths) by assumption.
    destruct (sorted_Ok_or_TypeError image_paths) as [[k ->]| ->]; reflexivity.
Qed.

End CreateDataset.

Definition table_of (columns : dict string (list path_item))
  : result (dict string (list path_item)) := Ok columns.

Definition cast_table (table : dict string (list path_item)) (column : string)
    (feature : unit) : result (dict string (list path_item)) := Ok table.

Lemma create_dataset_order_independent_witness :
  create_dataset _ _ table_of tt cast_table
    [PathStr "b.jpg"; PathStr "a.jpg"] [PathStr "a.png"; PathStr "b.png"]
  = create_dataset _ _ table_of tt cast_table
      [PathStr "a.jpg"; PathStr "b.jpg"] [PathStr "b.png"; PathStr "a.png"].
Proof.
  apply (create_dataset_order_independent table_of tt cast_table).
  - apply perm_swap.
  - apply perm_swap.
Defined.

Lemma create_dataset_placeholder_witness :
  create_dataset _ _ table_of tt cast_table image_paths_train label_paths_train
  = Raise TypeError.
Proof.
  apply (create_dataset_placeholder table_of tt cast_table).
  left. split.
  - unfold image_paths_train. do 2 constructor. constructor 1.
  - simpl. lia.
Defined.

End SegmentationDataSpec.

(** * Facts about arrays *)

Module NumpyFacts.

Import Python PythonFacts Numpy.

Lemma broadcast_dim_same (n : nat) : broadcast_dim n n = Ok n.
Proof. unfold broadcast_dim. now rewrite decide_True. Qed.

Lemma stretch_same {A} (n : nat) (l : list A) : length l = n -> stretch n l = l.
Proof. destruct l as [|x [|y l]]; simpl; intros <-; reflexivity. Qed.

Lemma zip_stretch_same {A B C} (n : nat) (f : A -> B -> C)
    (a : list A) (b : list B) :
  length a = n -> length b = n -> zip_stretch n f a b = zip_with f a b.
Proof. intros Ha Hb. unfold zip_stretch. now rewrite !stretch_same. Qed.

Lemma zip_with_ext_Forall {A B C} (P : A -> Prop) (Q : B -> Prop)
    (f g : A -> B -> C) (a : list A) (b : list B) :
  Forall P a -> Forall Q b ->
  (forall x y, P x -> Q y -> f x y = g x y) ->
  zip_with f a b = zip_with g a b.
Proof.
  intros Ha. revert b. induction Ha as [|x a Hx _ IH]; intros b Hb Hfg.
  - reflexivity.
  - destruct Hb as [|y b Hy Hb]; [reflexivity|]. simpl.
    rewrite (Hfg x y Hx Hy). f_equal. now apply IH.
Qed.

Lemma zip_with_map_r_same {A B C} (f : A -> B -> C) (g : A -> B) (l : list A) :
  zip_with f l (map g l) = map (fun x => f x (g x)) l.
Proof. induction l as [|x l IH]; simpl; [reflexivity | now rewrite IH]. Qed.

Lemma zip_with_zip_with_r {A B} (f g : A -> B -> B) (a : list A) (b : list B) :
  zip_with f a (zip_with g a b) = zip_with (fun x y => f x (g x y)) a b.
Proof.
  revert b. induction a as [|x a IH]; intros [|y b]; simpl; try reflexivity.
  now rewrite IH.
Qed.

Lemma length_zip_with_same {A B C} (f : A -> B -> C) (a : list A) (b : list B)
    (n : nat) :
  length a = n -> length b = n -> length (zip_with f a b) = n.
Proof. intros Ha Hb. rewrite length_zip_with. lia. Qed.

Lemma Forall_zip_with_r {A B C} (P : B -> Prop) (Q : C -> Prop)
    (f : A -> B -> C) (a : list A) (b : list B) :
  Forall P b -> (forall x y, P y -> Q (f x y)) -> Forall Q (zip_with f a b).
Proof.
  intros Hb Hf. revert a. induction Hb as [|y b Hy _ IH]; intros [|x a]; simpl;
    constructor; auto.
Qed.

End NumpyFacts.

(** * The overlay of the segmentation notebook *)

Module SegmentationPlotSpec.

Import Python PythonFacts BuiltinFacts TorchQ Numpy NumpyFacts SegmentationPlot.
Local Open Scope Z_scope.

(** The colour a label is shown in: its row of the palette with the
    channels reversed, black for a label the palette has no row for. *)
Definition colour_of (label : nat) : list Z :=
  reverse (default [0; 0; 0] (palette !! label)).

Definition byte_range (z : Z) : Prop := 0 <= z < 256.

#[global] Instance byte_range_dec (z : Z) : Decision (byte_range z) := _.

(** The pixels of a label map agree with its shape. *)
Definition wf_labels (p : IndexTensor2) : Prop :=
  length (i2_data p) = i2_h p
  /\ Forall (fun row => length row = i2_w p) (i2_data p).

Lemma palette_rows :
  Forall (fun row => length row = 3%nat /\ Forall byte_range row) palette.
Proof.
  apply (bool_decide_unpack
           (Forall (fun row => length row = 3%nat /\ Forall byte_range row)
              palette)).
  vm_compute. exact I.
Qed.

Lemma uint8_byte (z : Z) : byte_range z -> uint8 z = z.
Proof. unfold byte_range, uint8. intros Hz. now apply Z.mod_small. Qed.

Lemma colour_of_row (label : nat) :
  length (colour_of label) = 3%nat /\ Forall byte_range (colour_of label).
Proof.
  unfold colour_of. rewrite length_reverse.
  destruct (palette !! label) as [row|] eqn:Hrow; simpl.
  - pose proof palette_rows as Hpal.
    rewrite Forall_forall in Hpal.
    destruct (Hpal row (list_elem_of_lookup_2 _ _ _ Hrow)) as [Hlen Hb].
    split; [exact Hlen|]. now rewrite Forall_reverse.
  - split; [reflexivity|]. repeat constructor; unfold byte_range; lia.
Qed.

(** The state of the loop after the rows [pal] of a palette. *)
Lemma paint_rows (pred_seg : IndexTensor2) (pal : list (list Z)) :
  wf_labels pred_seg ->
  data3 (foldl (fun color_seg '(label, color) =>
                  paint pred_seg color_seg label color)
           (zeros3 (i2_h pred_seg) (i2_w pred_seg) 3) (enumerate pal))
  = map (map (fun l => default [0; 0; 0] ((fmap (M:=list) uint8 <$> pal) !! l)))
      (i2_data pred_seg).
Proof.
  intros [Hh Hw]. induction pal as [|color pal IH] using rev_ind.
  - simpl. rewrite <- Hh. clear Hh.
    induction Hw as [|row rows Hrow _ IHrows]; simpl; [reflexivity|].
    f_equal; [|exact IHrows]. rewrite <- Hrow. clear.
    induction row; simpl; [reflexivity | now f_equal].
  - rewrite enumerate_snoc, foldl_app. cbn [foldl paint data3].
    rewrite IH, zip_with_map_r_same. apply map_ext. intros row.
    rewrite zip_with_map_r_same. apply map_ext. intros l.
    rewrite fmap_app.
    destruct (decide (l = length pal)) as [->|Hne].
    + rewrite lookup_app_r by (rewrite length_fmap; lia).
      now rewrite length_fmap, Nat.sub_diag.
    + destruct (decide (l < length pal)%nat) as [Hlt|Hge].
      * now rewrite lookup_app_l by (rewrite length_fmap; lia).
      * rewrite !lookup_ge_None_2; [reflexivity | |];
          rewrite ?length_app, !length_fmap; simpl; lia.
Qed.

Lemma stored_palette : (fmap (M:=list) uint8 <$> palette) = palette.
Proof.
  pose proof palette_rows as Hpal.
  induction Hpal as [|row rows [_ Hb] _ IH]; [reflexivity|].
  cbn [fmap list_fmap]. f_equal; [|exact IH].
  clear -Hb. induction Hb as [|z zs Hz _ IH]; [reflexivity|].
  cbn [fmap list_fmap] in *. now rewrite uint8_byte, IH.
Qed.

Lemma color_seg_data (pred_seg : IndexTensor2) :
  wf_labels pred_seg ->
  color_seg pred_seg
  = {| rows3 := i2_h pred_seg; cols3 := i2_w pred_seg; chans3 := 3;
       data3 := map (map colour_of) (i2_data pred_seg) |}.
Proof.
  intros Hwf. unfold color_seg, flip_channels.
  assert (forall pal,
    let painted :=
      foldl (fun color_seg '(label, color) =>
               paint pred_seg color_seg label color)
        (zeros3 (i2_h pred_seg) (i2_w pred_seg) 3) (enumerate pal) in
    rows3 painted = i2_h pred_seg /\ cols3 painted = i2_w pred_seg
    /\ chans3 painted = 3%nat) as Hshape.
  { intros pal. induction pal as [|color pal IH] using rev_ind.
    - now simpl.
    - rewrite enumerate_snoc, foldl_app. exact IH. }
  destruct (Hshape palette) as (-> & -> & ->).
  f_equal. rewrite (paint_rows pred_seg palette Hwf), stored_palette, map_map.
  apply map_ext. intros row. now rewrite map_map.
Qed.

Definition pred_23 : IndexTensor2 :=
  {| i2_h := 2; i2_w := 3; i2_data := [[0; 1; 2]; [150; 151; 7]]%nat |}.

Lemma colour_of_palette (label : nat) :
  match ImageSegmentation.ade_palette_rows !! label with
  | Some (r, g, b) => colour_of label = [b; g; r]
  | None => colour_of label = [0; 0; 0]
  end.
Proof.
  unfold colour_of, palette.
  change (map ?f ?l) with (f <$> l). rewrite list_lookup_fmap.
  destruct (ImageSegmentation.ade_palette_rows !! label) as [[[r g] b]|];
    reflexivity.
Qed.

(** X10.  The loop over the palette is a table lookup: for a label map
    that agrees with its shape, [color_seg] has the shape of the map with
    three channels, and the pixel of label [l] holds row [l] of
    [ade_palette()] with its channels reversed, [[b, g, r]] for the row
    [[r, g, b]]; the palette has 151 rows, and a label beyond them is left
    at [[0, 0, 0]]. *)
Theorem color_seg_lookup (pred_seg : IndexTensor2) :
  wf_labels pred_seg ->
  color_seg pred_seg
  = {| rows3 := i2_h pred_seg; cols3 := i2_w pred_seg; chans3 := 3;
       data3 := map (map colour_of) (i2_data pred_seg) |}
  /\ length ImageSegmentation.ade_palette_rows = 151%nat
  /\ (forall l r g b,
        ImageSegmentation.ade_palette_rows !! l = Some (r, g, b) ->
        colour_of l = [b; g; r])
  /\ (forall l, (151 <= l)%nat -> colour_of l = [0; 0; 0]).
Proof.
  intros Hwf. split; [now apply color_seg_data|].
  split; [reflexivity|]. split.
  - intros l r g b Hrow. pose proof (colour_of_palette l) as H.
    now rewrite Hrow in H.
  - intros l Hl. pose proof (colour_of_palette l) as H.
    rewrite lookup_ge_None_2 in H; [exact H|].
    change (length ImageSegmentation.ade_palette_rows) with 151%nat. exact Hl.
Qed.

Lemma color_seg_lookup_witness :
  color_seg pred_23
  = {| rows3 := 2; cols3 := 3; chans3 := 3;
       data3 := map (map colour_of) [[0; 1; 2]; [150; 151; 7]]%nat |}
  /\ length ImageSegmentation.ade_palette_rows = 151%nat
  /\ (forall l r g b,
        ImageSegmentation.ade_palette_rows !! l = Some (r, g, b) ->
        colour_of l = [b; g; r])
  /\ (forall l, (151 <= l)%nat -> colour_of l = [0; 0; 0]).
Proof.
  apply (color_seg_lookup pred_23).
  split; [reflexivity|]. repeat constructor.
Defined.

(** An array of bytes. *)
Definition bytes3 (a : ndarray3 Z) : Prop :=
  Forall (Forall (Forall byte_range)) (data3 a).

Lemma Qquot_halves (a b : Z) :
  0 <= a -> 0 <= b ->
  (Qnum (inject_Z a * (1 # 2) + inject_Z b * (1 # 2))
   ÷ Z.pos (Qden (inject_Z a * (1 # 2) + inject_Z b * (1 # 2))))
  = (a + b) / 2.
Proof.
  intros Ha Hb. cbn [Qnum Qden Qplus Qmult inject_Z].
  change (Z.pos (1 * 2 * (1 * 2))) with (2 * 2).
  change (Z.pos (1 * 2)) with 2.
  rewrite Z.quot_div_nonneg by lia.
  replace (a * 1 * 2 + b * 1 * 2) with ((a + b) * 2) by lia.
  rewrite Z.div_mul_cancel_r by lia. reflexivity.
Qed.

Lemma astype_halves (a b : Z) :
  byte_range a -> byte_range b ->
  astype_uint8 (inject_Z a * (1 # 2) + inject_Z b * (1 # 2))%Q
  = Some ((a + b) / 2).
Proof.
  unfold byte_range. intros Ha Hb. unfold astype_uint8.
  rewrite Qquot_halves by lia.
  rewrite decide_True; [reflexivity|].
  split; [apply Z.div_pos; lia | apply Z.div_lt_upper_bound; lia].
Qed.

(** X11.  The blend of an image with the coloured prediction stays within a
    byte: for an image [(H, W, 3)] of bytes and a label map [(H, W)],
    [img] is the array [(H, W, 3)] whose every element is the sum of the
    image's and the colour's byte halved and rounded down; the conversion
    to [uint8] never leaves its range. *)
Theorem img_blend (image : ndarray3 Z) (pred_seg : IndexTensor2) :
  wf_labels pred_seg -> wf3 image -> bytes3 image ->
  rows3 image = i2_h pred_seg -> cols3 image = i2_w pred_seg ->
  chans3 image = 3%nat ->
  img image pred_seg
  = Ok {| rows3 := i2_h pred_seg; cols3 := i2_w pred_seg; chans3 := 3;
          data3 :=
            zip_with (zip_with (zip_with (fun a b => Some ((a + b) / 2))))
              (data3 image) (map (map colour_of) (i2_data pred_seg)) |}.
Proof.
  intros Hwf [Hrows Hdata] Hbytes Hh Hw Hc. unfold img.
  rewrite (color_seg_data pred_seg Hwf). unfold broadcast3; simpl.
  rewrite Hh, Hw, Hc, !broadcast_dim_same, !bind_Ok.
  unfold mret, result_ret, map3; simpl. do 2 f_equal.
  destruct Hwf as [Hph Hpw].
  assert (Forall (fun row => length row = i2_w pred_seg
                   /\ Forall (fun pixel => length pixel = 3%nat
                                /\ Forall byte_range pixel) row)
            (data3 image)) as Himg.
  { unfold bytes3 in Hbytes. rewrite Hw, Hc in Hdata.
    clear -Hdata Hbytes.
    induction Hdata as [|row rows [Hrow Hpix] _ IH]; [constructor|].
    apply Forall_cons in Hbytes as [Hb Hbs]. constructor; [|now apply IH].
    split; [exact Hrow|]. clear -Hpix Hb.
    induction Hpix as [|pixel row Hlen _ IH]; [constructor|].
    apply Forall_cons in Hb as [Hb Hbs]. constructor; [|now apply IH].
    now split. }
  assert (Forall (fun row => length row = i2_w pred_seg
                   /\ Forall (fun pixel => length pixel = 3%nat
                                /\ Forall byte_range pixel) row)
            (map (map colour_of) (i2_data pred_seg))) as Hcol.
  { apply Forall_map. eapply Forall_impl; [exact Hpw|].
    intros row Hrow. simpl. rewrite length_map. split; [exact Hrow|].
    apply Forall_map, Forall_forall. intros l _. apply colour_of_row. }
  rewrite zip_stretch_same by (rewrite !length_map; congruence).
  rewrite TorchFacts.zip_with_map_both, TorchFacts.map_zip_with_compose.
  apply (zip_with_ext_Forall _ _ _ _ _ _ Himg Hcol).
  intros row crow [Hrow Hpix] [Hcrow Hcpix].
  rewrite zip_stretch_same by (rewrite !length_map; congruence).
  rewrite TorchFacts.zip_with_map_both, TorchFacts.map_zip_with_compose.
  apply (zip_with_ext_Forall _ _ _ _ _ _ Hpix Hcpix).
  intros pixel cpixel [Hlen Hb] [Hclen Hcb].
  rewrite zip_stretch_same by (rewrite !length_map; congruence).
  rewrite TorchFacts.zip_with_map_both, TorchFacts.map_zip_with_compose.
  apply (zip_with_ext_Forall _ _ _ _ _ _ Hb Hcb).
  intros a b Ha Hbb. now apply astype_halves.
Qed.

Definition image_23 : ndarray3 Z :=
  {| rows3 := 2; cols3 := 3; chans3 := 3;
     data3 := [[[255; 255; 255]; [0; 0; 0]; [10; 20; 30]];
               [[1; 2; 3]; [4; 5; 6]; [7; 8; 9]]] |}.

Lemma img_blend_witness :
  img image_23 pred_23
  = Ok {| rows3 := 2; cols3 := 3; chans3 := 3;
          data3 :=
            zip_with (zip_with (zip_with (fun a b => Some ((a + b) / 2))))
              (data3 image_23)
              (map (map colour_of) [[0; 1; 2]; [150; 151; 7]]%nat) |}.
Proof.
  apply (img_blend image_23 pred_23).
  - split; [reflexivity|]. repeat constructor.
  - split; [reflexivity|]. repeat constructor.
  - unfold bytes3, byte_range. simpl. repeat constructor; lia.
  - reflexivity.
  - reflexivity.
  - reflexivity.
Defined.

End SegmentationPlotSpec.

(** * The overlay of the mask-generation notebook *)

Module MaskOverlaySpec.

Import Python PythonFacts Numpy NumpyFacts MaskOverlay.
Local Open Scope Z_scope.

(** Mask and image of one height and width. *)
Definition same_size (mask : ndarray2 bool) (image : ndarray3 Z) : Prop :=
  rows2 mask = rows3 image /\ cols2 mask = cols3 image.

(** One assignment to a channel, on a mask of the size of the image. *)
Lemma set_channel_same_size (image : ndarray3 Z) (k : nat)
    (mask : ndarray2 bool) (v : Z) :
  wf3 image -> wf2 mask -> same_size mask image ->
  (k < chans3 image)%nat ->
  exists out,
    set_channel image k mask v = Ok out
    /\ wf3 out
    /\ rows3 out = rows3 image /\ cols3 out = cols3 image
    /\ chans3 out = chans3 image
    /\ data3 out
       = zip_with (zip_with (fun (m : bool) pixel =>
                     if m then <[k := uint8 v]> pixel else pixel))
           (data2 mask) (data3 image).
Proof.
  intros [Hrows Hdata] [Hmrows Hmdata] [Hr Hc] Hk. unfold set_channel.
  rewrite decide_False by lia.
  rewrite Hr, Hc, !broadcast_dim_same, !bind_Ok.
  rewrite decide_True by tauto.
  eexists. split; [reflexivity|]. unfold wf3. simpl.
  rewrite zip_stretch_same by lia.
  assert (zip_with
            (zip_stretch (cols3 image)
               (fun (m : bool) pixel =>
                  if m then <[k := uint8 v]> pixel else pixel))
            (data2 mask) (data3 image)
          = zip_with (zip_with (fun (m : bool) pixel =>
                        if m then <[k := uint8 v]> pixel else pixel))
              (data2 mask) (data3 image)) as ->.
  { apply (zip_with_ext_Forall _ _ _ _ _ _ Hmdata Hdata).
    intros mrow row Hmrow [Hrow _]. simpl in Hmrow.
    apply zip_stretch_same; lia. }
  repeat split; try reflexivity.
  - apply length_zip_with_same; lia.
  - clear Hrows Hmrows. revert Hmdata.
    generalize (data2 mask) as mrows.
    induction Hdata as [|row rows [Hrow Hpix] _ IH];
      intros [|mrow mrows] Hm; simpl; constructor.
    + apply Forall_cons in Hm as [Hmrow _]. split.
      * apply length_zip_with_same; lia.
      * eapply Forall_zip_with_r; [exact Hpix|].
        intros m pixel Hlen. simpl in Hlen.
        destruct m; [now rewrite length_insert | exact Hlen].
    + apply Forall_cons in Hm as [_ Hm]. now apply IH.
Qed.

Definition red : list Z := [255; 0; 0].

(** X12.  The three assignments of the loop colour the pixels of the mask red
    and leave all other pixels as they are: for an RGB image and a mask of
    its height and width, [overlay] is the image with [[255, 0, 0]] at the
    pixels where the mask is set. *)
Theorem overlay_paints_mask_red (image : ndarray3 Z) (mask : ndarray2 bool) :
  wf3 image -> wf2 mask -> same_size mask image -> chans3 image = 3%nat ->
  overlay image mask
  = Ok {| rows3 := rows3 image; cols3 := cols3 image; chans3 := 3;
          data3 :=
            zip_with (zip_with (fun (m : bool) pixel =>
                        if m then red else pixel))
              (data2 mask) (data3 image) |}.
Proof.
  intros Hwf Hmwf Hsize Hc. unfold overlay.
  destruct (set_channel_same_size image 0 mask 255 Hwf Hmwf Hsize ltac:(lia))
    as (a1 & -> & Hwf1 & Hr1 & Hc1 & Hch1 & Hd1).
  rewrite bind_Ok.
  assert (same_size mask a1) as Hsize1.
  { destruct Hsize. split; congruence. }
  destruct (set_channel_same_size a1 1 mask 0 Hwf1 Hmwf Hsize1 ltac:(lia))
    as (a2 & -> & Hwf2 & Hr2 & Hc2 & Hch2 & Hd2).
  rewrite bind_Ok.
  assert (same_size mask a2) as Hsize2.
  { destruct Hsize1. split; congruence. }
  destruct (set_channel_same_size a2 2 mask 0 Hwf2 Hmwf Hsize2 ltac:(lia))
    as (a3 & -> & Hwf3 & Hr3 & Hc3 & Hch3 & Hd3).
  destruct a3 as [r3 c3 ch3 d3]. simpl in *. subst.
  rewrite Hr2, Hr1, Hc2, Hc1, Hch2, Hch1, Hc. f_equal. f_equal.
  rewrite Hd2, Hd1.
  rewrite zip_with_zip_with_r, zip_with_zip_with_r.
  destruct Hwf as [_ Hdata]. destruct Hmwf as [_ Hmdata].
  apply (zip_with_ext_Forall _ _ _ _ _ _ Hmdata Hdata).
  intros mrow row _ [_ Hpix].
  rewrite zip_with_zip_with_r, zip_with_zip_with_r.
  apply (zip_with_ext_Forall (fun _ => True) _ _ _ _ _
           ltac:(now apply Forall_true) Hpix).
  intros m pixel _ Hlen. rewrite Hc in Hlen.
  destruct m; [|reflexivity].
  destruct pixel as [|r [|g [|b [|]]]]; try discriminate. reflexivity.
Qed.

Definition image_22 : ndarray3 Z :=
  {| rows3 := 2; cols3 := 2; chans3 := 3;
     data3 := [[[1; 2; 3]; [4; 5; 6]]; [[7; 8; 9]; [10; 11; 12]]] |}.

Definition mask_22 : ndarray2 bool :=
  {| rows2 := 2; cols2 := 2; data2 := [[true; false]; [false; true]] |}.

Lemma overlay_paints_mask_red_witness :
  overlay image_22 mask_22
  = Ok {| rows3 := 2; cols3 := 2; chans3 := 3;
          data3 := [[[255; 0; 0]; [4; 5; 6]]; [[7; 8; 9]; [255; 0; 0]]] |}.
Proof.
  apply (overlay_paints_mask_red image_22 mask_22).
  - split; [reflexivity|]. repeat constructor.
  - split; [reflexivity|]. repeat constructor.
  - split; reflexivity.
  - reflexivity.
Defined.

End MaskOverlaySpec.

(** * Facts about tensors by rank *)

Module TorchTensorFacts.

Import Python PythonFacts Numpy TorchTensor.

(** The element at an index of nested lists, if there is one. *)
Definition at2 {A} (l : list (list A)) (i j : nat) : option A :=
  l !! i ≫= (.!! j).

Definition at3 {A} (l : list (list (list A))) (i j k : nat) : option A :=
  at2 l i j ≫= (.!! k).

Definition at4 {A} (l : list (list (list (list A)))) (i j k m : nat) : option A :=
  at3 l i j k ≫= (.!! m).

Lemma mapM_Ok {A B} (f : A -> result B) (l : list A) (k : list B) :
  Forall2 (fun x y => f x = Ok y) l k -> mapM f l = Ok k.
Proof.
  induction 1 as [|x y l k Hxy _ IH]; [reflexivity|].
  cbn [mapM]. now rewrite Hxy, bind_Ok, IH.
Qed.

Lemma lookup_tabulate {A} (f : nat -> A) (n i : nat) :
  i < n -> map f (seq 0 n) !! i = Some (f i).
Proof.
  intros Hi. change (map f (seq 0 n)) with (f <$> seq 0 n).
  now rewrite list_lookup_fmap, lookup_seq_lt.
Qed.

Lemma lookup_nth {A} (l : list A) (i : nat) (d : A) :
  i < length l -> l !! i = Some (nth i l d).
Proof.
  intros Hi. destruct (lookup_lt_is_Some_2 l i Hi) as [x Hx].
  rewrite Hx. f_equal. symmetry. now apply nth_lookup_Some.
Qed.

(** After [permute(1, 0, 2, 3)] the slice at [(j, i)] is the slice the
    tensor had at [(i, j)]. *)
Lemma permute_1023_lookup {A} (t : tensor4 A) (d0 d1 d2 d3 i j : nat) :
  t4_shape t = (d0, d1, d2, d3) -> wf_tensor4 t ->
  i < d0 -> j < d1 ->
  at2 (t4_data (permute_1023 t)) j i = at2 (t4_data t) i j.
Proof.
  unfold at2, wf_tensor4, permute_1023. intros -> [Hlen Hall] Hi Hj. simpl.
  rewrite lookup_tabulate by exact Hj. simpl.
  change (map (fun x => nth j x []) (t4_data t))
    with ((fun x => nth j x []) <$> t4_data t).
  rewrite list_lookup_fmap.
  destruct (lookup_lt_is_Some_2 (t4_data t) i ltac:(lia)) as [x Hx].
  rewrite Hx. simpl.
  rewrite Forall_forall in Hall.
  destruct (Hall x (list_elem_of_lookup_2 _ _ _ Hx)) as [Hx1 _].
  symmetry. apply lookup_nth. lia.
Qed.

Lemma permute_1023_shape {A} (t : tensor4 A) (d0 d1 d2 d3 : nat) :
  t4_shape t = (d0, d1, d2, d3) ->
  t4_shape (permute_1023 t) = (d1, d0, d2, d3).
Proof. unfold permute_1023. now intros ->. Qed.

Lemma permute_1023_wf {A} (t : tensor4 A) : wf_tensor4 t -> wf_tensor4 (permute_1023 t).
Proof.
  unfold wf_tensor4, permute_1023.
  destruct (t4_shape t) as [[[d0 d1] d2] d3]. simpl. intros [Hlen Hall].
  split; [now rewrite length_map, length_seq|].
  apply Forall_map, Forall_forall. intros j Hj. apply elem_of_seq in Hj.
  simpl. split; [now rewrite length_map|].
  apply Forall_map. eapply Forall_impl; [exact Hall|].
  intros x [Hx Hplanes]. simpl.
  rewrite Forall_forall in Hplanes. apply Hplanes.
  apply list_elem_of_In, nth_In. lia.
Qed.

Lemma at2_map {A B} (f : A -> B) (l : list (list A)) (i j : nat) :
  at2 (map (map f) l) i j = f <$> at2 l i j.
Proof.
  unfold at2. change (map (map f) l) with (map f <$> l).
  rewrite list_lookup_fmap. destruct (l !! i) as [row|]; [|reflexivity]. simpl.
  change (map f row) with (f <$> row). apply list_lookup_fmap.
Qed.

(** Where [g] answers on every element, [omap g] keeps the positions. *)
Lemma omap_total {A B} (g : A -> option B) (l : list A) :
  Forall (fun a => is_Some (g a)) l ->
  length (omap g l) = length l /\ forall c, omap g l !! c = l !! c ≫= g.
Proof.
  induction 1 as [|a l [b Hb] _ [IHlen IH]]; [split; [reflexivity | now intros []]|].
  cbn [omap list_omap]. rewrite Hb. split; [simpl; now rewrite <- IHlen|].
  intros [|c]; simpl; [now rewrite Hb | apply IH].
Qed.

Section Permute120.

Context {A : Type}.
Variables (frame : tensor3 A) (C H W : nat).
Hypothesis Hshape : t3_shape frame = (C, H, W).
Hypothesis Hlen : length (t3_data frame) = C.
Hypothesis Hplanes : Forall (wf_plane H W) (t3_data frame).

Lemma pixel_total (h w : nat) :
  h < H -> w < W ->
  Forall (fun plane : list (list A) => is_Some (plane !! h ≫= (.!! w)))
    (t3_data frame).
Proof.
  intros Hh Hw. eapply Forall_impl; [exact Hplanes|].
  intros plane [Hrows Hcols]. simpl.
  destruct (lookup_lt_is_Some_2 plane h ltac:(lia)) as [row Hrow].
  rewrite Hrow. simpl. apply lookup_lt_is_Some_2.
  rewrite Forall_forall in Hcols.
  rewrite (Hcols row (list_elem_of_lookup_2 _ _ _ Hrow)). exact Hw.
Qed.

Lemma permute_120_shape :
  rows3 (permute_120 frame) = H /\ cols3 (permute_120 frame) = W
  /\ chans3 (permute_120 frame) = C.
Proof. unfold permute_120. rewrite Hshape. now simpl. Qed.

Lemma permute_120_wf : wf3 (permute_120 frame).
Proof.
  unfold wf3, permute_120. rewrite Hshape. simpl. split.
  - now rewrite length_map, length_seq.
  - apply Forall_map, Forall_forall. intros h Hh. apply elem_of_seq in Hh.
    simpl. split; [now rewrite length_map, length_seq|].
    apply Forall_map, Forall_forall. intros w Hw. apply elem_of_seq in Hw.
    simpl. rewrite <- Hlen.
    apply (omap_total _ _ (pixel_total h w ltac:(lia) ltac:(lia))).
Qed.

(** After [permute(1, 2, 0)] the element at [(h, w, c)] is the element
    the tensor had at [(c, h, w)]. *)
Lemma permute_120_lookup (h w c : nat) :
  h < H -> w < W ->
  at3 (data3 (permute_120 frame)) h w c = at3 (t3_data frame) c h w.
Proof.
  intros Hh Hw. unfold at3, at2, permute_120. rewrite Hshape. simpl.
  rewrite lookup_tabulate by exact Hh. simpl.
  rewrite lookup_tabulate by exact Hw. simpl.
  rewrite (proj2 (omap_total _ _ (pixel_total h w Hh Hw))).
  destruct (t3_data frame !! c) as [plane|]; reflexivity.
Qed.

End Permute120.

End TorchTensorFacts.

(** * Properties of the video notebook's names, batches and preview *)

Module VideoDataSpec.

Import Python PythonFacts Numpy NumpyFacts TorchTensor TorchTensorFacts VideoData.

(** ** Names *)

Lemma torch_unbound : notebook_globals !! "torch" = None.
Proof. vm_compute. reflexivity. Qed.

(** X13.  Four names that cells of the notebook read are bound by no cell:
    [os] (read by [os.path.join] where the datasets are built, lines 346,
    370 and 377), [batch_size] (read where the training arguments are
    built, lines 499-505), [torch] (lines 520-523 and 600-610) and
    [trained_model] (line 617).  Reading any of them raises [NameError],
    whatever cells have run before. *)
Theorem names_unbound :
  lookup_name notebook_globals "os" = Raise (NameError "os")
  /\ lookup_name notebook_globals "batch_size" = Raise (NameError "batch_size")
  /\ lookup_name notebook_globals "torch" = Raise (NameError "torch")
  /\ lookup_name notebook_globals "trained_model"
     = Raise (NameError "trained_model").
Proof. repeat split; vm_compute; reflexivity. Qed.

(** X14.  [collate_fn] and [run_inference] stop at their first use of [torch],
    which the notebook never imports: in the notebook's namespace both
    raise [NameError] on every input. *)
Theorem collate_fn_NameError {Float Logits} (examples : list (example Float))
    (sample_test_video : example Float)
    (model : batch Float -> result Logits) (video_clip : tensor4 Float) :
  collate_fn notebook_globals examples = Raise (NameError "torch")
  /\ run_inference notebook_globals sample_test_video model video_clip
     = Raise (NameError "torch").
Proof.
  unfold collate_fn, run_inference, inference_inputs, torch_attr, lookup_name.
  rewrite torch_unbound. split; reflexivity.
Qed.

(** ** Batches *)

Lemma torch_attr_bound (ns : namespace) (name : string) :
  ns !! "torch" = Some (Module_ "torch") ->
  torch_attr ns name = Ok (Callable ("torch." +:+ name)).
Proof. unfold torch_attr, lookup_name. now intros ->. Qed.

Lemma stack_same_shape {A} (ts : list (tensor4 A)) (d0 d1 d2 d3 : nat) :
  ts <> [] ->
  Forall (fun t => t4_shape t = (d0, d1, d2, d3)) ts ->
  stack ts = Ok {| t5_shape := (length ts, d0, d1, d2, d3);
                   t5_data := t4_data <$> ts |}.
Proof.
  intros Hne Hall. destruct ts as [|t ts]; [congruence|]. unfold stack.
  pose proof (Forall_inv Hall) as Ht. simpl in Ht.
  rewrite decide_True.
  - now rewrite Ht.
  - eapply Forall_impl; [exact Hall|]. simpl. intros t' ->. now rewrite Ht.
Qed.


Lemma mapM_Raise {A B} (f : A -> result B) (l : list A) (e : exn) :
  Forall (fun x => is_Ok (f x) = true \/ f x = Raise e) l ->
  Exists (fun x => f x = Raise e) l ->
  mapM f l = Raise e.
Proof.
  intros Hall Hex. induction Hall as [|x l Hx Hall IH]; [inversion Hex|].
  cbn [mapM]. destruct Hx as [Hx|Hx].
  - destruct (f x) as [y|e'] eqn:Hfx; [|discriminate]. rewrite bind_Ok.
    apply Exists_cons in Hex as [Hex|Hex]; [congruence|].
    now rewrite (IH Hex).
  - now rewrite Hx.
Qed.

Definition clip_1222 : tensor4 Z :=
  {| t4_shape := (1, 2, 2, 2);
     t4_data := [[[[1; 2]; [3; 4]]; [[5; 6]; [7; 8]]]]%Z |}.

Definition sample_1222 : example Z :=
  {| video := Some clip_1222; label := Some 3%Z |}.

Definition globals_with_torch : namespace :=
  exec_import notebook_globals (Import "torch").


Definition clip_1122 : tensor4 Z :=
  {| t4_shape := (1, 1, 2, 2); t4_data := [[[[1; 2]; [3; 4]]]]%Z |}.

(** X23.  With [torch] imported, [collate_fn] has no batch to give for an
    empty list of examples ([torch.stack] raises [RuntimeError]); it
    raises [KeyError] for ["video"] when an example lacks its clip; and
    it raises [RuntimeError] when the clips are not all of one shape. *)
Theorem collate_fn_errors {Float} (ns : namespace)
    (examples : list (example Float)) :
  ns !! "torch" = Some (Module_ "torch") ->
  (examples = [] -> collate_fn ns examples = Raise RuntimeError)
  /\ (Exists (fun e => video e = None) examples ->
      collate_fn ns examples = Raise (KeyError "video"))
  /\ (forall clip clips,
        Forall2 (fun e v => video e = Some v) examples (clip :: clips) ->
        Exists (fun v => t4_shape v <> t4_shape clip) clips ->
        collate_fn ns examples = Raise RuntimeError).
Proof.
  intros Htorch. unfold collate_fn.
  rewrite !torch_attr_bound by exact Htorch. rewrite bind_Ok.
  split; [|split].
  - intros ->. reflexivity.
  - intros Hex.
    rewrite (mapM_Raise
               (fun example : example Float =>
                  getitem (video example) "video"
                  ≫= fun v => mret (permute_1023 v))
               _ (KeyError "video")); [reflexivity | |].
    + apply Forall_forall. intros e _.
      destruct (video e); [left | right]; reflexivity.
    + eapply Exists_impl; [exact Hex|]. simpl. now intros e ->.
  - intros clip clips Hvideos Hex.
    rewrite (mapM_Ok _ examples (permute_1023 <$> clip :: clips)).
    2:{ clear -Hvideos.
        induction Hvideos as [|e v es vs Hv _ IH]; constructor; [|exact IH].
        now rewrite Hv. }
    rewrite bind_Ok. cbn [fmap list_fmap]. unfold stack.
    rewrite decide_False; [reflexivity|].
    intros Hall. apply Forall_cons in Hall as [_ Hall].
    apply Exists_exists in Hex as (v & Hv & Hne).
    rewrite Forall_forall in Hall.
    specialize (Hall (permute_1023 v)
                  ltac:(apply list_elem_of_fmap; now exists v)).
    apply Hne. unfold permute_1023 in Hall.
    destruct (t4_shape v) as [[[a b] c] d], (t4_shape clip) as [[[a' b'] c'] d'].
    simpl in Hall. congruence.
Qed.

Definition sample_1122 : example Z :=
  {| video := Some clip_1122; label := Some 1%Z |}.

Definition sample_without_clip : example Z :=
  {| video := None; label := Some 1%Z |}.

Lemma collate_fn_errors_witness :
  collate_fn globals_with_torch (@nil (example Z)) = Raise RuntimeError
  /\ collate_fn globals_with_torch [sample_1222; sample_without_clip]
     = Raise (KeyError "video")
  /\ collate_fn globals_with_torch [sample_1222; sample_1122]
     = Raise RuntimeError.
Proof.
  assert (globals_with_torch !! "torch" = Some (Module_ "torch")) as Htorch
    by (vm_compute; reflexivity).
  split; [|split].
  - apply (collate_fn_errors globals_with_torch [] Htorch). reflexivity.
  - apply (collate_fn_errors globals_with_torch
             [sample_1222; sample_without_clip] Htorch).
    apply Exists_cons_tl, Exists_cons_hd. reflexivity.
  - apply (proj2 (proj2 (collate_fn_errors globals_with_torch
                            [sample_1222; sample_1122] Htorch))
             clip_1222 [clip_1122]).
    + repeat constructor.
    + apply Exists_cons_hd. discriminate.
Defined.

(** X16.  Inference feeds the model what training does: with [torch] imported,
    the [inputs] of [run_inference] on the clip of an example are the
    batch [collate_fn] makes of that example alone. *)
Theorem inference_inputs_collate {Float} (ns : namespace)
    (sample_test_video : example Float) (clip : tensor4 Float) (id : Z) :
  ns !! "torch" = Some (Module_ "torch") ->
  video sample_test_video = Some clip ->
  label sample_test_video = Some id ->
  inference_inputs ns sample_test_video clip = collate_fn ns [sample_test_video].
Proof.
  intros Htorch Hv Hl. unfold inference_inputs, collate_fn.
  rewrite !torch_attr_bound by exact Htorch. rewrite !bind_Ok.
  cbn [mapM]. rewrite Hv, Hl. simpl. rewrite ?bind_Ok.
  destruct (t4_shape (permute_1023 clip)) as [[[d0 d1] d2] d3] eqn:Hsh.
  unfold stack. rewrite decide_True by (constructor; [exact Hsh | constructor]).
  unfold unsqueeze0. rewrite Hsh. reflexivity.
Qed.

Lemma inference_inputs_collate_witness :
  inference_inputs globals_with_torch sample_1222 clip_1222
  = collate_fn globals_with_torch [sample_1222].
Proof.
  apply (inference_inputs_collate globals_with_torch sample_1222 clip_1222 3%Z).
  - vm_compute. reflexivity.
  - reflexivity.
  - reflexivity.
Defined.

(** ** The GIF preview *)

Section Gif.

Context {Float : Type}.
Variables fmul fadd : Float -> Float -> Float.
Variable of_Z : Z -> Float.
Variable to_uint8 : Float -> Z.

(** The conversion to [uint8] yields a byte. *)
Hypothesis to_uint8_byte : forall x, (0 <= to_uint8 x < 256)%Z.

(** The byte shown for the element [x] of a channel with the statistics
    [s] and [m]. *)
Definition shown (x s m : Float) : Z :=
  to_uint8 (fmul (fadd (fmul x s) m) (of_Z 255)).

Lemma clip_byte (x : Float) :
  Z.min (Z.max (to_uint8 x) 0) 255 = to_uint8 x.
Proof. pose proof (to_uint8_byte x). lia. Qed.

Lemma unnormalize_img_same_channels (mean std : list Float)
    (img : ndarray3 Float) :
  wf3 img -> length std = chans3 img -> length mean = chans3 img ->
  exists out,
    unnormalize_img Float fmul fadd of_Z to_uint8 mean std img = Ok out
    /\ rows3 out = rows3 img /\ cols3 out = cols3 img
    /\ chans3 out = chans3 img
    /\ forall h w c x s m,
         at3 (data3 img) h w c = Some x ->
         std !! c = Some s -> mean !! c = Some m ->
         at3 (data3 out) h w c = Some (shown x s m).
Proof.
  intros [Hrows Hdata] Hstd Hmean.
  unfold unnormalize_img, with_channels. simpl.
  rewrite Hstd, broadcast_dim_same, bind_Ok. simpl.
  rewrite Hmean, broadcast_dim_same, bind_Ok. simpl.
  eexists. split; [reflexivity|]. simpl.
  split; [reflexivity|]. split; [reflexivity|]. split; [reflexivity|].
  intros h w c x s m Hx Hs Hm. unfold at3 in *.
  rewrite !at2_map.
  destruct (at2 (data3 img) h w) as [pixel|] eqn:Hpixel; [|discriminate].
  simpl in *.
  assert (length pixel = chans3 img) as Hlen.
  { unfold at2 in Hpixel.
    destruct (data3 img !! h) as [row|] eqn:Hrow; [|discriminate].
    simpl in Hpixel. rewrite Forall_forall in Hdata.
    destruct (Hdata row (list_elem_of_lookup_2 _ _ _ Hrow)) as [_ Hpix].
    rewrite Forall_forall in Hpix.
    exact (Hpix pixel (list_elem_of_lookup_2 _ _ _ Hpixel)). }
  rewrite (zip_stretch_same (chans3 img) fmul pixel std Hlen Hstd).
  rewrite zip_stretch_same; [| |exact Hmean].
  2:{ rewrite length_zip_with. lia. }
  change (map ?f ?l) with (f <$> l).
  rewrite !list_lookup_fmap, !lookup_zip_with, Hx. simpl.
  rewrite Hs. simpl. rewrite Hm. simpl. f_equal. apply clip_byte.
Qed.


End Gif.

Definition byte_of (z : Z) : Z := (z mod 256)%Z.


End VideoDataSpec.

(** * Further properties of the label dictionaries *)

Module LabelSpec.

Import Python PythonFacts BuiltinFacts LabelFacts StringOrder.

(** ** Paths *)

(** [sep.join(parts)] *)
Fixpoint join (sep : ascii) (parts : list string) : string :=
  match parts with
  | [] => ""
  | [p] => p
  | p :: rest => p +:+ String sep (join sep rest)
  end.

(** The character occurs in the string. *)
Fixpoint occurs_in (c : ascii) (s : string) : bool :=
  match s with
  | EmptyString => false
  | String c' s' => bool_decide (c' = c) || occurs_in c s'
  end.

Lemma split_without (sep : ascii) (p : string) :
  occurs_in sep p = false -> split sep p = [p].
Proof.
  induction p as [|c p IH]; simpl; [reflexivity|].
  intros H. apply orb_false_iff in H as [Hc Hp].
  apply bool_decide_eq_false in Hc.
  rewrite decide_False by exact Hc. now rewrite IH.
Qed.

Lemma split_app_sep (sep : ascii) (p s : string) :
  occurs_in sep p = false ->
  split sep (p +:+ String sep s) = p :: split sep s.
Proof.
  induction p as [|c p IH]; simpl.
  - intros _. now rewrite decide_True.
  - intros H. apply orb_false_iff in H as [Hc Hp].
    apply bool_decide_eq_false in Hc.
    rewrite decide_False by exact Hc.
    change (String.append p (String sep s)) with (p +:+ String sep s).
    now rewrite IH.
Qed.

(** Splitting a joined path gives its components back. *)
Lemma split_join (sep : ascii) (parts : list string) :
  parts <> [] -> Forall (fun p => occurs_in sep p = false) parts ->
  split sep (join sep parts) = parts.
Proof.
  intros Hne Hall. induction Hall as [|p parts Hp Hall IH]; [congruence|].
  destruct parts as [|q parts].
  - simpl. now apply split_without.
  - change (join sep (p :: q :: parts))
      with (p +:+ String sep (join sep (q :: parts))).
    rewrite split_app_sep by exact Hp. f_equal. now apply IH.
Qed.

(** X18.  The label of a video is the third component of its path: the class
    directory for a path [root/split/class/file] whose [root] is one
    directory name; for a path of fewer than three components the lookup
    raises [IndexError], and under a root of several components the third
    component is not the class directory. *)
Theorem label_of_path_third_component (parts : list string) :
  parts <> [] ->
  Forall (fun p => occurs_in "/" p = false) parts ->
  VideoClassification.label_of_path (join "/" parts)
  = match parts !! 2 with
    | Some label => Ok label
    | None => Raise IndexError
    end.
Proof.
  intros Hne Hall. unfold VideoClassification.label_of_path.
  now rewrite split_join.
Qed.

Lemma label_of_path_third_component_witness :
  VideoClassification.label_of_path
    (join "/" ["UCF101_subset"; "train"; "BalanceBeam"; "v_BalanceBeam_g02_c03.avi"])
  = Ok "BalanceBeam"
  /\ VideoClassification.label_of_path (join "/" ["train"; "v.avi"])
     = Raise IndexError
  /\ VideoClassification.label_of_path
       (join "/" ["data"; "UCF101_subset"; "train"; "BalanceBeam"; "v.avi"])
     = Ok "train".
Proof.
  split; [|split].
  - apply (label_of_path_third_component
             ["UCF101_subset"; "train"; "BalanceBeam"; "v_BalanceBeam_g02_c03.avi"]).
    + discriminate.
    + repeat constructor.
  - apply (label_of_path_third_component ["train"; "v.avi"]).
    + discriminate.
    + repeat constructor.
  - apply (label_of_path_third_component
             ["data"; "UCF101_subset"; "train"; "BalanceBeam"; "v.avi"]).
    + discriminate.
    + repeat constructor.
Defined.

(** ** The class labels of the video notebook *)

Lemma sorted_StronglySorted (s : gset string) : StronglySorted le (sorted s).
Proof.
  unfold sorted. apply (StronglySorted_merge_sort le); apply _.
Qed.

Lemma StronglySorted_lookup {A} (R : relation A) (l : list A) (i j : nat) (a b : A) :
  StronglySorted R l -> i < j -> l !! i = Some a -> l !! j = Some b -> R a b.
Proof.
  intros Hs. revert i j. induction Hs as [|x l _ IH Hx]; intros i j Hij Ha Hb.
  - discriminate.
  - destruct j as [|j]; [lia|]. destruct i as [|i]; simpl in *.
    + injection Ha as <-. rewrite Forall_forall in Hx. apply Hx.
      eapply list_elem_of_lookup_2. exact Hb.
    + apply (IH i j); [lia | assumption ..].
Qed.

Lemma class_labels_sorted (paths cl : list string) :
  VideoClassification.class_labels paths = Ok cl -> StronglySorted le cl.
Proof.
  unfold VideoClassification.class_labels. intros Hcl.
  destruct (mapM VideoClassification.label_of_path paths) as [labels|e];
    [|discriminate].
  injection Hcl as <-. apply sorted_StronglySorted.
Qed.

(** [mapM label_of_path] answers when every path has a label and raises
    [IndexError] otherwise. *)
Lemma mapM_label_of_path (paths : list string) :
  (Forall (fun p => is_Ok (VideoClassification.label_of_path p) = true) paths
   /\ exists labels, mapM VideoClassification.label_of_path paths = Ok labels)
  \/ (~ Forall (fun p => is_Ok (VideoClassification.label_of_path p) = true) paths
      /\ mapM VideoClassification.label_of_path paths = Raise IndexError).
Proof.
  induction paths as [|p paths IH].
  - left. split; [constructor | now eexists].
  - cbn [mapM].
    destruct (VideoClassification.label_of_path p) as [l|e] eqn:Hp.
    + destruct IH as [[Hall [labels Hl]]|[Hnall He]].
      * left. split; [constructor; [now rewrite Hp | exact Hall]|].
        rewrite Hl. now eexists.
      * right. split; [|now rewrite He].
        intros Hall. apply Hnall. now apply Forall_inv_tail in Hall.
    + right. split.
      * intros Hall. apply Forall_inv in Hall. now rewrite Hp in Hall.
      * unfold VideoClassification.label_of_path in Hp.
        destruct (split "/" p !! 2); [discriminate|]. now injection Hp as <-.
Qed.

Lemma class_labels_cases (paths : list string) :
  (Forall (fun p => is_Ok (VideoClassification.label_of_path p) = true) paths
   /\ exists cl, VideoClassification.class_labels paths = Ok cl)
  \/ (~ Forall (fun p => is_Ok (VideoClassification.label_of_path p) = true) paths
      /\ VideoClassification.class_labels paths = Raise IndexError).
Proof.
  unfold VideoClassification.class_labels.
  destruct (mapM_label_of_path paths) as [[Hall [labels ->]]|[Hnall ->]].
  - left. split; [exact Hall | now eexists].
  - right. now split.
Qed.

(** X19.  The ids follow the alphabet: [class_labels] is sorted without
    repetition, [label2id] numbers it from 0, and of two labels the one
    that sorts first has the smaller id. *)
Theorem label2id_alphabetical (paths cl : list string) :
  VideoClassification.class_labels paths = Ok cl ->
  forall a b i j,
    VideoClassification.label2id cl !! a = Some i ->
    VideoClassification.label2id cl !! b = Some j ->
    i < length cl /\ (i <= j <-> String.leb a b = true).
Proof.
  intros Hcl a b i j Ha Hb.
  destruct (class_labels_Ok paths cl Hcl) as [Hnd _].
  pose proof (class_labels_sorted paths cl Hcl) as Hsorted.
  apply video_label2id_lookup in Ha, Hb; try exact Hnd.
  split; [now apply lookup_lt_Some in Ha|]. split.
  - intros Hij. destruct (decide (i = j)) as [->|Hne].
    + assert (a = b) as -> by congruence.
      destruct (String.leb_total b b) as [H|H]; exact H.
    + apply Is_true_true.
      apply (StronglySorted_lookup le cl i j a b Hsorted); [lia | assumption ..].
  - intros Hab. destruct (decide (i <= j)) as [Hij|Hji]; [exact Hij|].
    exfalso.
    assert (le b a) as Hba.
    { apply (StronglySorted_lookup le cl j i b a Hsorted); [lia | assumption ..]. }
    assert (a = b) as ->.
    { apply String.leb_antisym; [exact Hab | now apply Is_true_true]. }
    pose proof (NoDup_lookup _ _ _ _ Hnd Ha Hb). lia.
Qed.

Lemma label2id_alphabetical_witness :
  1 < 2 /\ (1 <= 0 <-> String.leb "BalanceBeam" "Archery" = true).
Proof.
  apply (label2id_alphabetical
           ["UCF101_subset/train/BalanceBeam/v_1.avi";
            "UCF101_subset/train/Archery/v_2.avi";
            "UCF101_subset/val/BalanceBeam/v_3.avi"]
           ["Archery"; "BalanceBeam"] eq_refl "BalanceBeam" "Archery" 1 0).
  - reflexivity.
  - reflexivity.
Defined.

(** X20.  The class labels depend on the set of paths alone: listing the files
    in another order, or a file twice, changes neither [class_labels] nor
    the error it raises. *)
Theorem class_labels_of_set (paths paths' : list string) :
  (forall p, p ∈ paths <-> p ∈ paths') ->
  VideoClassification.class_labels paths
  = VideoClassification.class_labels paths'.
Proof.
  intros Hsame.
  destruct (class_labels_cases paths) as [[Hall [cl Hcl]]|[Hnall Hcl]],
    (class_labels_cases paths') as [[Hall' [cl' Hcl']]|[Hnall' Hcl']].
  - rewrite Hcl, Hcl'. f_equal.
    destruct (class_labels_Ok paths cl Hcl) as [Hnd Hin].
    destruct (class_labels_Ok paths' cl' Hcl') as [Hnd' Hin'].
    apply (StronglySorted_unique le);
      [eapply class_labels_sorted; eassumption ..|].
    apply NoDup_Permutation; [assumption ..|].
    intros l. rewrite Hin, Hin'. split; intros (p & Hp & Hl); exists p;
      (split; [now apply Hsame | exact Hl]).
  - exfalso. apply Hnall'. rewrite Forall_forall in *.
    intros p Hp. apply Hall. now apply Hsame.
  - exfalso. apply Hnall. rewrite Forall_forall in *.
    intros p Hp. apply Hall'. now apply Hsame.
  - now rewrite Hcl, Hcl'.
Qed.

Lemma class_labels_of_set_witness :
  VideoClassification.class_labels ["r/train/B/v1.avi"; "r/val/A/v2.avi"]
  = VideoClassification.class_labels
      ["r/val/A/v2.avi"; "r/train/B/v1.avi"; "r/val/A/v2.avi"].
Proof.
  apply (class_labels_of_set ["r/train/B/v1.avi"; "r/val/A/v2.avi"]
           ["r/val/A/v2.avi"; "r/train/B/v1.avi"; "r/val/A/v2.avi"]).
  intros p. rewrite !elem_of_cons, !elem_of_nil. tauto.
Defined.

(** ** The label loop of the image-classification notebook *)

Lemma image_label2id_snoc (labels : list string) (x : string) :
  ImageClassification.label2id (labels ++ [x])
  = <[x := str (length labels)]> (ImageClassification.label2id labels).
Proof.
  unfold ImageClassification.label2id.
  rewrite !label_maps_dict_of. cbn [fst].
  rewrite enumerate_snoc, fmap_app. apply dict_of_snoc.
Qed.

(** X21.  Without any assumption on the names: [id2label[str(i)]] is
    [labels[i]] for every index [i], and [label2id] sends a name to the
    string of the last index that carries it, so a repeated name keeps one
    id only. *)
Theorem label_loop_last_index (labels : list string) :
  (forall i l, labels !! i = Some l ->
     ImageClassification.id2label labels !! str i = Some l)
  /\ (forall l s,
        ImageClassification.label2id labels !! l = Some s
        <-> exists i, s = str i /\ labels !! i = Some l
                      /\ forall j, i < j -> labels !! j <> Some l).
Proof.
  split.
  - intros i l Hl. apply image_id2label_lookup. now exists i.
  - induction labels as [|x labels IH] using rev_ind; intros l s.
    + split; [discriminate|]. now intros (i & _ & Hi & _).
    + rewrite image_label2id_snoc.
      destruct (decide (l = x)) as [->|Hne].
      * rewrite lookup_insert_eq. split.
        -- intros [= <-]. exists (length labels).
           split; [reflexivity|]. split.
           ++ now rewrite lookup_app_r, Nat.sub_diag by lia.
           ++ intros j Hj. rewrite lookup_ge_None_2; [discriminate|].
              rewrite length_app. simpl. lia.
        -- intros (i & -> & Hi & Hlast).
           destruct (decide (i = length labels)) as [->|Hi']; [reflexivity|].
           exfalso. apply (Hlast (length labels)).
           ++ apply lookup_lt_Some in Hi. rewrite length_app in Hi.
              simpl in Hi. lia.
           ++ now rewrite lookup_app_r, Nat.sub_diag by lia.
      * rewrite lookup_insert_ne by congruence. rewrite IH. split.
        -- intros (i & -> & Hi & Hlast). exists i.
           split; [reflexivity|].
           pose proof (lookup_lt_Some _ _ _ Hi) as Hlt.
           split; [now rewrite lookup_app_l|].
           intros j Hj.
           destruct (decide (j < length labels)) as [Hjl|Hjl].
           ++ rewrite lookup_app_l by exact Hjl. now apply Hlast.
           ++ destruct (decide (j = length labels)) as [->|Hj'].
              ** rewrite lookup_app_r, Nat.sub_diag by lia. simpl. congruence.
              ** rewrite lookup_ge_None_2; [discriminate|].
                 rewrite length_app. simpl. lia.
        -- intros (i & -> & Hi & Hlast). exists i.
           split; [reflexivity|].
           assert (i < length labels) as Hlt.
           { destruct (decide (i < length labels)) as [H|H]; [exact H|].
             exfalso. pose proof (lookup_lt_Some _ _ _ Hi) as Hi'.
             rewrite length_app in Hi'. simpl in Hi'.
             assert (i = length labels) as -> by lia.
             rewrite lookup_app_r, Nat.sub_diag in Hi by lia.
             simpl in Hi. congruence. }
           rewrite lookup_app_l in Hi by exact Hlt.
           split; [exact Hi|].
           intros j Hj Hjl. apply (Hlast j Hj).
           rewrite lookup_app_l; [exact Hjl|]. now apply lookup_lt_Some in Hjl.
Qed.

(** ** [transforms] of the image-classification notebook *)

Section Transforms.

Context {Image Tensor Rng : Type}.
Variable convert : Image -> string -> Image.
Variable _transforms : Image -> Rng -> Tensor * Rng.

Import ImageClassification.

(** X24.  [transforms] uses its batch up: the batch it returns has lost
    its ["image"] field, so a second call on it raises [KeyError], with
    any state of the random generator. *)
Theorem transforms_once (examples out : gmap string (list (cell Image Tensor)))
    (rng rng' rng'' : Rng) :
  transforms convert _transforms examples rng = Ok (out, rng') ->
  transforms convert _transforms out rng'' = Raise (KeyError "image").
Proof.
  unfold transforms. destruct (examples !! "image") as [images|]; [|discriminate].
  unfold mbind, rand_bind.
  destruct (mapM (pixel_value convert _transforms) images rng)
    as [[pixel_values rng1]|e]; [|discriminate].
  intros [= <- _]. now rewrite lookup_delete_eq.
Qed.

End Transforms.

Lemma transforms_once_witness :
  ImageClassification.transforms ClassificationSpec.example_convert
    ClassificationSpec.example_transforms
    (delete "image"
       (<["pixel_values" := [ImageClassification.TensorCell 10;
                             ImageClassification.TensorCell 21]]>
          ClassificationSpec.example_batch)) 7
  = Raise (KeyError "image").
Proof.
  apply (transforms_once ClassificationSpec.example_convert
           ClassificationSpec.example_transforms
           ClassificationSpec.example_batch _ 0 2 7).
  reflexivity.
Defined.

End LabelSpec.

(** * The devices of the mask-generation notebook *)

Module DeviceSpec.

Import Script ScriptFacts NotebookSpec.

(** The answer to a condition. *)
Definition is_truth (e : event) : bool :=
  match e.1 with
  | Truth _ => true
  | _ => false
  end.

(** The events that choose a device or move an object to one. *)
Definition device_selections : list (event -> bool) :=
  [is_named "torch.cuda.is_available"; is_truth; is_named "torch.device";
   is_named "to"].

(** A branch whose answer is itself observed: one goal for each truth
    value. *)
Ltac observe_answer :=
  lazymatch goal with
  | |- context [flat_map ?obs (Script.events_from ?w (Script.Cond ?v ?k) ?n)] =>
      rewrite (ScriptFacts.observe_Cond obs w v k n);
      destruct (Script.truth w n);
      lazymatch goal with
      | |- context [obs (Script.Truth v, Script.PyBool ?b)] =>
          let o := eval vm_compute in (obs (Script.Truth v, Script.PyBool b)) in
          change (obs (Script.Truth v, Script.PyBool b)) with o
      end;
      script_hnf
  end.

(** X22.  The box prompt does not follow the device the notebook chose: in
    every world the model and the inputs of the point prompt are moved to
    [device], which is ["cuda"] or ["cpu"] as [torch.cuda.is_available()]
    answered, while the inputs of the box prompt are moved to the literal
    ["cuda"]; none of the three is moved to the device [mps_device] made
    at the start. *)
Theorem box_prompt_on_cuda (w : world) :
  exists (cuda : bool) mps_device available device model point_inputs box_inputs,
    List.filter (any_of device_selections) (events w MaskGeneration.notebook)
    = [ (Call "torch.device" [PyStr "mps"] [], mps_device);
        (Call "torch.cuda.is_available" [] [], available);
        (Truth available, PyBool cuda);
        (Call "torch.device" [PyStr (if cuda then "cuda" else "cpu")] [],
         device);
        (CallMethod model "to" [device] [], model);
        (CallMethod point_inputs "to" [device] [], point_inputs);
        (CallMethod box_inputs "to" [PyStr "cuda"] [], box_inputs) ]
    /\ mps_device <> device.
Proof.
  unfold events. rewrite filter_flat_map.
  let s := eval hnf in MaskGeneration.notebook in
  change MaskGeneration.notebook with s.
  repeat observe_do. observe_for (@nil event). repeat observe_do.
  observe_answer; repeat observe_do;
    (observe_for (@nil event)); repeat observe_do; finish.
  - exists true. eexists _, _, _, _, _, _. split; [reflexivity|]. discriminate.
  - exists false. eexists _, _, _, _, _, _. split; [reflexivity|]. discriminate.
Qed.

End DeviceSpec.

(** * Properties of the accuracy functions *)

Module ClassificationMetricsSpec.

Import Python PythonFacts TorchQ TorchQFacts Numpy Dict ClassificationMetrics.
Local Open Scope Q_scope.

(** [i] is the index of the first largest element of [row]. *)
Definition first_largest (row : list Q) (i : nat) : Prop :=
  exists m,
    row !! i = Some m
    /\ forall j x, row !! j = Some x -> x <= m /\ ((j < i)%nat -> x < m).

Lemma argmax_from_spec (l : list Q) (best_i i : nat) (best : Q) :
  (best_i < i)%nat ->
  let r := argmax_from best_i best i l in
  (r = best_i /\ (forall j x, l !! j = Some x -> x <= best))
  \/ ((i <= r)%nat
      /\ exists m,
           l !! (r - i)%nat = Some m /\ best < m
           /\ forall j x, l !! j = Some x ->
                x <= m /\ ((j < r - i)%nat -> x < m)).
Proof.
  revert best_i i best. induction l as [|x l IH]; intros best_i i best Hlt; simpl.
  - left. split; [reflexivity|]. intros j y Hy. discriminate.
  - destruct (Qlt_le_dec best x) as [Hbx|Hxb].
    + right.
      destruct (IH i (S i) x ltac:(lia)) as [[Hr Hall]|(Hr & m & Hm & Hxm & Hall)].
      * rewrite Hr. split; [lia|]. exists x.
        rewrite Nat.sub_diag. split; [reflexivity|]. split; [exact Hbx|].
        intros [|j] y Hy; simpl in Hy.
        -- injection Hy as <-. split; [apply Qle_refl | lia].
        -- split; [now apply (Hall j) | lia].
      * split; [lia|]. exists m.
        replace (argmax_from i x (S i) l - i)%nat
          with (S (argmax_from i x (S i) l - S i)) by lia.
        split; [exact Hm|]. split; [eapply Qlt_trans; eassumption|].
        intros [|j] y Hy; simpl in Hy.
        -- injection Hy as <-. split; [now apply Qlt_le_weak | now intros _].
        -- destruct (Hall j y Hy) as [Hle Hlt']. split; [exact Hle|].
           intros Hj. apply Hlt'. lia.
    + destruct (IH best_i (S i) best ltac:(lia))
        as [[Hr Hall]|(Hr & m & Hm & Hbm & Hall)].
      * left. split; [exact Hr|].
        intros [|j] y Hy; simpl in Hy.
        -- now injection Hy as <-.
        -- now apply (Hall j).
      * right. split; [lia|]. exists m.
        replace (argmax_from best_i best (S i) l - i)%nat
          with (S (argmax_from best_i best (S i) l - S i)) by lia.
        split; [exact Hm|]. split; [exact Hbm|].
        intros [|j] y Hy; simpl in Hy.
        -- injection Hy as <-. split.
           ++ apply Qlt_le_weak. eapply Qle_lt_trans; eassumption.
           ++ intros _. eapply Qle_lt_trans; eassumption.
        -- destruct (Hall j y Hy) as [Hle Hlt']. split; [exact Hle|].
           intros Hj. apply Hlt'. lia.
Qed.

(** [argmax] of a row that is not empty is the index of its first largest
    element. *)
Lemma argmax_list_first_largest (row : list Q) :
  row <> [] -> first_largest row (argmax_list row).
Proof.
  destruct row as [|x l]; [congruence|]. intros _. unfold argmax_list.
  destruct (argmax_from_spec l 0 1 x ltac:(lia))
    as [[Hr Hall]|(Hr & m & Hm & Hxm & Hall)].
  - rewrite Hr. exists x. split; [reflexivity|].
    intros [|j] y Hy; simpl in Hy.
    + injection Hy as <-. split; [apply Qle_refl | lia].
    + split; [now apply (Hall j) | lia].
  - exists m.
    replace (argmax_from 0 x 1 l) with (S (argmax_from 0 x 1 l - 1)) by lia.
    split; [exact Hm|].
    intros [|j] y Hy; simpl in Hy.
    + injection Hy as <-. split; [now apply Qlt_le_weak | now intros _].
    + destruct (Hall j y Hy) as [Hle Hlt']. split; [exact Hle|].
      intros Hj. apply Hlt'. lia.
Qed.

Section Metrics.

Context {Float : Type}.
Variable accuracy_compute : list nat -> list Z -> result (dict string Float).

(** X25.  The three [compute_metrics] functions of the classification
    notebooks hand the accuracy metric one predicted class per example:
    for logits [(N, K)] with [K > 0] the predictions are [N] indices, each
    the index of the first largest logit of its row (hence below [K]); the
    video and image notebooks return the metric's answer, the distillation
    notebook its ["accuracy"] entry alone.  For logits without classes
    ([K = 0]) all three raise [ValueError]. *)
Theorem compute_metrics_first_largest (predictions : ndarray2 Q)
    (labels : list Z) :
  wf2 predictions ->
  (cols2 predictions <> 0%nat ->
   exists classes,
     Forall2 first_largest (data2 predictions) classes
     /\ length classes = rows2 predictions
     /\ Forall (fun i => (i < cols2 predictions)%nat) classes
     /\ compute_metrics accuracy_compute predictions labels
        = accuracy_compute classes labels
     /\ compute_metrics_accuracy accuracy_compute predictions labels
        = (acc ← accuracy_compute classes labels;
           match get acc "accuracy" with
           | Some a => Ok [("accuracy", a)]
           | None => Raise (KeyError "accuracy")
           end))
  /\ (cols2 predictions = 0%nat ->
      compute_metrics accuracy_compute predictions labels = Raise ValueError
      /\ compute_metrics_accuracy accuracy_compute predictions labels
         = Raise ValueError).
Proof.
  intros [Hrows Hcols]. split.
  - intros HK. exists (argmax_list <$> data2 predictions).
    assert (Forall (fun row => row <> []) (data2 predictions)) as Hne.
    { eapply Forall_impl; [exact Hcols|]. simpl. intros row Hlen ->.
      simpl in Hlen. congruence. }
    split; [|split; [|split; [|split]]].
    + apply Forall2_fmap_r, Forall_Forall2_diag.
      eapply Forall_impl; [exact Hne|]. intros row.
      apply argmax_list_first_largest.
    + now rewrite length_fmap.
    + apply Forall_fmap.
      rewrite Forall_forall in Hcols, Hne |- *. intros row Hrow. simpl.
      rewrite <- (Hcols row Hrow). apply argmax_list_bound. now apply Hne.
    + unfold compute_metrics, argmax_axis1. now rewrite decide_False.
    + unfold compute_metrics_accuracy, argmax_axis1. now rewrite decide_False.
  - intros HK. unfold compute_metrics, compute_metrics_accuracy, argmax_axis1.
    rewrite decide_True by exact HK. split; reflexivity.
Qed.

End Metrics.

Definition logits_23 : ndarray2 Q :=
  {| rows2 := 2; cols2 := 3; data2 := [[1; 5; 5]; [2 # 3; 1 # 3; 0]] |}.

Definition count_equal (predictions : list nat) (references : list Z)
  : result (dict string nat) :=
  Ok [("accuracy",
       length (List.filter (fun pr => bool_decide (Z.of_nat pr.1 = pr.2))
                 (zip predictions references)))].

Lemma compute_metrics_first_largest_witness :
  exists classes,
    Forall2 first_largest (data2 logits_23) classes
    /\ length classes = 2%nat
    /\ Forall (fun i => (i < 3)%nat) classes
    /\ compute_metrics count_equal logits_23 [1; 1]%Z
       = count_equal classes [1; 1]%Z
    /\ compute_metrics_accuracy count_equal logits_23 [1; 1]%Z
       = (acc ← count_equal classes [1; 1]%Z;
          match get acc "accuracy" with
          | Some a => Ok [("accuracy", a)]
          | None => Raise (KeyError "accuracy")
          end).
Proof.
  apply (compute_metrics_first_largest count_equal logits_23 [1; 1]%Z).
  - split; [reflexivity|]. repeat constructor.
  - discriminate.
Defined.

End ClassificationMetricsSpec.
